(** * The container stats exporter ([main.py]): collectors, details cache
      and collection cycle, embedded as state-passing functions.

    Python objects that the code mutates in place (the metric families kept
    in [self._stats], the memoising cache around [_details]) live in an
    explicit state; an exception is an outcome that carries the state as it
    was when the exception was raised, because Python does not roll back
    what a statement has already appended. *)

From Stdlib Require Import ZArith List String Ascii Bool Lia SpecFloat.
From Stdlib Require DecimalString DecimalNat DecimalFacts Permutation.
Import ListNotations.

Set Implicit Arguments.

(** ** Python values the code computes with *)

Module Py.

(** Exceptions the modelled statements can raise.  [APIError] stands for
    whatever the docker client raises when the daemon cannot answer. *)
Inductive exn : Type :=
| KeyError (key : string)
| ValueError
| ZeroDivisionError
| OverflowError
| TypeError
| APIError.

(** A computation without state: a value or an exception. *)
Inductive result (A : Type) : Type :=
| Val (a : A)
| Err (e : exn).
Arguments Err {A} e.

Definition rbind {A B} (r : result A) (k : A -> result B) : result B :=
  match r with
  | Val a => k a
  | Err e => Err e
  end.

(** A statement run on a state [S]. *)
Inductive outcome (S A : Type) : Type :=
| Ok (a : A) (s : S)
| Raise (e : exn) (s : S).
Arguments Ok {S A} a s.
Arguments Raise {S A} e s.

Definition M (S A : Type) : Type := S -> outcome S A.

(** The state a statement leaves, whether it returned or raised. *)
Definition state_of {S A} (o : outcome S A) : S :=
  match o with
  | Ok _ s => s
  | Raise _ s => s
  end.

Definition ret {S A} (a : A) : M S A := fun s => Ok a s.
Definition bind {S A B} (m : M S A) (k : A -> M S B) : M S B :=
  fun s => match m s with
           | Ok a s' => k a s'
           | Raise e s' => Raise e s'
           end.
Definition modify {S} (f : S -> S) : M S unit := fun s => Ok tt (f s).
Definition lift {S A} (r : result A) : M S A :=
  fun s => match r with
           | Val a => Ok a s
           | Err e => Raise e s
           end.

(** [for x in xs: body x], stopping at the first exception. *)
Fixpoint for_each {S A} (xs : list A) (body : A -> M S unit) : M S unit :=
  match xs with
  | [] => ret tt
  | x :: rest => bind (body x) (fun _ => for_each rest body)
  end.

(** A statement on a part [T] of the state, run on the whole state [S]. *)
Definition zoom {S T A} (proj : S -> T) (upd : T -> S -> S) (m : M T A) : M S A :=
  fun s => match m (proj s) with
           | Ok a t => Ok a (upd t s)
           | Raise e t => Raise e (upd t s)
           end.

(** *** Strings

    A string is a sequence of characters; the environment entries and
    identifiers the code handles are taken in the one-byte range. *)

(** [s.split(sep)] for a one-character separator: the pieces between the
    occurrences of [sep], one more piece than there are occurrences. *)
Fixpoint split (sep : ascii) (s : string) : list string :=
  match s with
  | EmptyString => [EmptyString]
  | String c rest =>
      if Ascii.eqb c sep then EmptyString :: split sep rest
      else match split sep rest with
           | piece :: pieces => String c piece :: pieces
           | [] => [String c EmptyString]
           end
  end.

(** [a, b = xs]: exactly two items, [ValueError] otherwise. *)
Definition unpack2 {A} (xs : list A) : result (A * A) :=
  match xs with
  | [a; b] => Val (a, b)
  | _ => Err ValueError
  end.

(** [s[:n]] *)
Fixpoint slice_to (n : nat) (s : string) : string :=
  match n, s with
  | S n', String c rest => String c (slice_to n' rest)
  | _, _ => EmptyString
  end.

(** Truth value of a variable holding [None] or a string. *)
Definition truthy (v : option string) : bool :=
  match v with
  | None => false
  | Some EmptyString => false
  | Some (String _ _) => true
  end.

(** ["{:02d}".format(n)] for [n >= 0]: decimal, padded with a zero to two
    digits. *)
Definition format_02d (n : nat) : string :=
  let digits := DecimalString.NilEmpty.string_of_uint (Nat.to_uint n) in
  match digits with
  | String _ EmptyString => String "0"%char digits
  | _ => digits
  end.

(** *** Numbers: unbounded integers and IEEE 754 binary64 floats *)

Definition prec : Z := 53.
Definition emax : Z := 1024.

Inductive num : Type :=
| Int (z : Z)
| Float (f : spec_float).

(** The integer as a float with an exact (not normalised) mantissa. *)
Definition exact (z : Z) : spec_float :=
  match z with
  | Z0 => S754_zero false
  | Zpos p => S754_finite false p 0
  | Zneg p => S754_finite true p 0
  end.

Definition is_infinity (f : spec_float) : bool :=
  match f with
  | S754_infinity _ => true
  | _ => false
  end.

Definition checked (f : spec_float) : result spec_float :=
  if is_infinity f then Err OverflowError else Val f.

(** [float(z)]: rounded to nearest even, [OverflowError] beyond the range. *)
Definition float_of_int (z : Z) : result spec_float :=
  checked (binary_normalize prec emax z 0 false).

(** [a / b] on integers: the correctly rounded quotient. *)
Definition int_truediv (a b : Z) : result spec_float :=
  if Z.eqb b 0 then Err ZeroDivisionError
  else checked (SFdiv prec emax (exact a) (exact b)).

(** [x / y] on floats. *)
Definition float_truediv (x y : spec_float) : result spec_float :=
  match y with
  | S754_zero _ => Err ZeroDivisionError
  | _ => Val (SFdiv prec emax x y)
  end.

Definition float_mul (x y : spec_float) : spec_float := SFmul prec emax x y.

(** [x * n] with [x] a float and [n] an integer. *)
Definition float_mul_int (x : spec_float) (n : Z) : result spec_float :=
  rbind (float_of_int n) (fun y => Val (float_mul x y)).

End Py.

Import Py.

Declare Scope py_scope.
Delimit Scope py_scope with py.
Notation "x <- m ;; k" := (bind m (fun x => k))
  (at level 61, m at next level, right associativity) : py_scope.
Notation "m ;;; k" := (bind m (fun _ => k))
  (at level 61, right associativity) : py_scope.
Notation "x <~ r ;; k" := (rbind r (fun x => k))
  (at level 61, r at next level, right associativity) : py_scope.
Open Scope py_scope.
Open Scope string_scope.
Open Scope list_scope.

(** ** Metric families ([prometheus_client.core])

    The family classes belong to the client library, not to the sources;
    they are reduced to what the collectors use: the constructor arguments
    and the list that [add_metric] appends to. *)

Module Prometheus.

Inductive family_type : Type := CounterMetricFamily | GaugeMetricFamily.

(** Modelled from the spec: a sample of the client library, the label
    values in the order of the label names of its family, and a number. *)
Record Sample : Type := mkSample {
  label_values : list string;
  value : num
}.

(** Modelled from the spec: a metric family of the client library, with its
    identifier, kind, description, ordered label names and its list of
    samples. *)
Record Metric : Type := mkMetric {
  name : string;
  typ : family_type;
  documentation : option string;
  labelnames : list string;
  samples : list Sample
}.

(** [stat_type(name, documentation, labels=labels)]; [labels=None] is the
    empty list of label names. *)
Definition new_family (t : family_type) (n : string) (doc : option string)
    (labels : option (list string)) : Metric :=
  mkMetric n t doc (match labels with Some l => l | None => [] end) [].

(** Modelled from the spec: [family.add_metric(labels, value)] of the client
    library appends one sample to the family. *)
Definition add_metric (labels : list string) (v : num) (m : Metric) : Metric :=
  mkMetric (name m) (typ m) (documentation m) (labelnames m)
           (samples m ++ [mkSample labels v]).

(** [family.samples = []] *)
Definition clear_samples (m : Metric) : Metric :=
  mkMetric (name m) (typ m) (documentation m) (labelnames m) [].

(** What a family is defined as, apart from its samples. *)
Definition definition (m : Metric) : string * family_type * option string * list string :=
  (name m, typ m, documentation m, labelnames m).

End Prometheus.

Import Prometheus.

(** ** [BaseStatsCollector] *)

Module BaseStatsCollector.

(** [self._stats]: a dict, which keeps its keys in insertion order. *)
Definition t : Type := list (string * Metric).

Definition init : t := [].

(** [d[k] = v]: replaces the value of a key in place, appends a new key. *)
Fixpoint dict_set (k : string) (v : Metric) (d : t) : t :=
  match d with
  | [] => [(k, v)]
  | (k', v') :: rest =>
      if String.eqb k k' then (k, v) :: rest
      else (k', v') :: dict_set k v rest
  end.

Fixpoint dict_get (k : string) (d : t) : option Metric :=
  match d with
  | [] => None
  | (k', v') :: rest => if String.eqb k k' then Some v' else dict_get k rest
  end.

Definition keys (d : t) : list string := map fst d.
Definition values (d : t) : list Metric := map snd d.

(** [self._stats[stat_id] = stat_type(stat_id, stat_desc, labels=labels)].
    The family constructors are the library's; what they refuse (an
    identifier that is not a metric name) is not part of this model, which
    takes the identifiers as the constructors of the collectors give them. *)
Definition add_stat (stat_id : string) (stat_type : family_type)
    (stat_desc : option string) (labels : option (list string)) : M t unit :=
  modify (dict_set stat_id (new_family stat_type stat_id stat_desc labels)).

Definition get_stat (stat_id : string) : M t Metric :=
  fun s => match dict_get stat_id s with
           | Some m => Ok m s
           | None => Raise (KeyError stat_id) s
           end.

Definition get_stats : M t (list Metric) := fun s => Ok (values s) s.

Definition add_gauge (gauge_id : string) (gauge_desc : option string)
    (labels : option (list string)) : M t unit :=
  add_stat gauge_id GaugeMetricFamily gauge_desc labels.

Definition add_counter (counter_id : string) (counter_desc : option string)
    (labels : option (list string)) : M t unit :=
  add_stat counter_id CounterMetricFamily counter_desc labels.

(** [for stat in self.get_stats(): stat.samples = []]: every family object
    of the dict is updated where it is. *)
Definition cleanup_samples : M t unit :=
  modify (map (fun kv => (fst kv, clear_samples (snd kv)))).

Definition collect : M t (list Metric) := fun s => Ok (values s) s.

(** [self.get_stat(stat_id).add_metric(labels, value)]: the family is looked
    up first, then the argument [value] is evaluated, then the sample is
    appended to the family object the dict holds. *)
Definition stat_add_metric (stat_id : string) (labels : list string)
    (v : result num) : M t unit :=
  m <- get_stat stat_id ;;
  x <- lift v ;;
  modify (dict_set stat_id (add_metric labels x m)).

End BaseStatsCollector.

Import BaseStatsCollector.

(** ** The raw stats document of one container ([api.stats], decoded JSON) *)

Record NetStats : Type := mkNetStats {
  rx_bytes : Z; rx_errors : Z; rx_packets : Z; rx_dropped : Z;
  tx_bytes : Z; tx_errors : Z; tx_packets : Z; tx_dropped : Z
}.

Record MemDetail : Type := mkMemDetail { cache : Z; rss : Z; swap : Z }.

Record MemoryStats : Type := mkMemoryStats {
  usage : Z;
  limit : Z;
  mem_detail : MemDetail            (* mem["stats"] *)
}.

Record CpuUsage : Type := mkCpuUsage {
  total_usage : Z;
  percpu_usage : list Z;
  usage_in_kernelmode : Z;
  usage_in_usermode : Z
}.

Record CpuStats : Type := mkCpuStats {
  cpu_usage : CpuUsage;
  system_cpu_usage : Z
}.

Record RawStats : Type := mkRawStats {
  networks : list (string * NetStats);
  memory_stats : MemoryStats;
  cpu_stats : CpuStats;
  precpu_stats : CpuStats
}.

(** [value / 1000000000.0] *)
Definition ns_to_sec (v : Z) : result spec_float :=
  x <~ float_of_int v ;;
  float_truediv x (binary_normalize prec emax 1000000000 0 false).

Definition as_float (r : result spec_float) : result num :=
  x <~ r ;; Val (Float x).

(** Runs the constructor statements on the empty registry. *)
Definition constructed (body : M BaseStatsCollector.t unit) : BaseStatsCollector.t :=
  state_of (body BaseStatsCollector.init).

(** ** [NetworkStatsCollector] *)

Module NetworkStatsCollector.

Definition METRIC_NAME_TO_DOCKER_STAT : list (string * string) :=
  [ ("container_network_receive_bytes_total", "rx_bytes");
    ("container_network_receive_errors_total", "rx_errors");
    ("container_network_receive_packets_total", "rx_packets");
    ("container_network_receive_packets_dropped_total", "rx_dropped");
    ("container_network_transmit_bytes_total", "tx_bytes");
    ("container_network_transmit_errors_total", "tx_errors");
    ("container_network_transmit_packets_total", "tx_packets");
    ("container_network_transmit_packets_dropped_total", "tx_dropped") ].

(** [nets[net][stat_id]] *)
Definition net_field (stat_id : string) (n : NetStats) : result Z :=
  if String.eqb stat_id "rx_bytes" then Val (rx_bytes n)
  else if String.eqb stat_id "rx_errors" then Val (rx_errors n)
  else if String.eqb stat_id "rx_packets" then Val (rx_packets n)
  else if String.eqb stat_id "rx_dropped" then Val (rx_dropped n)
  else if String.eqb stat_id "tx_bytes" then Val (tx_bytes n)
  else if String.eqb stat_id "tx_errors" then Val (tx_errors n)
  else if String.eqb stat_id "tx_packets" then Val (tx_packets n)
  else if String.eqb stat_id "tx_dropped" then Val (tx_dropped n)
  else Err (KeyError stat_id).

Definition __init__ : M BaseStatsCollector.t unit :=
  let labels := Some ["interface"; "appid"; "taskid"] in
  add_counter "container_network_receive_bytes_total"
              (Some "Cumulative count of bytes received") labels ;;;
  add_counter "container_network_receive_errors_total"
              (Some "Cumulative count of errors encountered while receiving") labels ;;;
  add_counter "container_network_receive_packets_total"
              (Some "Cumulative count of packets received") labels ;;;
  add_counter "container_network_receive_packets_dropped_total"
              (Some "Cumulative count of packets dropped while receiving") labels ;;;
  add_counter "container_network_transmit_bytes_total"
              (Some "Cumulative count of bytes transmitted") labels ;;;
  add_counter "container_network_transmit_errors_total"
              (Some "Cumulative count of errors encountered while transmitting") labels ;;;
  add_counter "container_network_transmit_packets_total"
              (Some "Cumulative count of packets transmitted") labels ;;;
  add_counter "container_network_transmit_packets_dropped_total"
              (Some "Cumulative count of packets dropped while transmitting") labels.

Definition add_container (appid taskid : string) (container_stats : RawStats)
    : M BaseStatsCollector.t unit :=
  let nets := networks container_stats in
  for_each nets (fun net =>
    for_each METRIC_NAME_TO_DOCKER_STAT (fun entry =>
      let metric_name := fst entry in
      let stat_id := snd entry in
      stat_add_metric metric_name [fst net; appid; taskid]
        (x <~ net_field stat_id (snd net) ;; Val (Int x)))).

End NetworkStatsCollector.

(** ** [MemoryStatsCollector] *)

Module MemoryStatsCollector.

Definition METRIC_NAME_TO_DOCKER_STAT : list (string * string) :=
  [ ("container_memory_cache", "cache");
    ("container_memory_rss", "rss");
    ("container_memory_swap", "swap") ].

(** [mem["stats"][stat_id]] *)
Definition detail_field (stat_id : string) (d : MemDetail) : result Z :=
  if String.eqb stat_id "cache" then Val (cache d)
  else if String.eqb stat_id "rss" then Val (rss d)
  else if String.eqb stat_id "swap" then Val (swap d)
  else Err (KeyError stat_id).

Definition __init__ : M BaseStatsCollector.t unit :=
  let labels := Some ["appid"; "taskid"] in
  add_gauge "container_memory_cache" (Some "Number of bytes of page cache memory.") labels ;;;
  add_gauge "container_memory_rss" (Some "Size of RSS in bytes.") labels ;;;
  add_gauge "container_memory_swap" (Some "Container swap usage in bytes.") labels ;;;
  add_gauge "container_memory_usage_bytes" (Some "Current memory usage in bytes.") labels ;;;
  add_gauge "container_memory_usage_percent" (Some "Percentage of memory usage.") labels.

Definition add_container (appid taskid : string) (container_stats : RawStats)
    : M BaseStatsCollector.t unit :=
  let mem := memory_stats container_stats in
  for_each METRIC_NAME_TO_DOCKER_STAT (fun entry =>
    let metric_name := fst entry in
    let stat_id := snd entry in
    stat_add_metric metric_name [appid; taskid]
      (x <~ detail_field stat_id (mem_detail mem) ;; Val (Int x))) ;;;
  stat_add_metric "container_memory_usage_bytes" [appid; taskid] (Val (Int (usage mem))) ;;;
  mem_percent <- lift (q <~ int_truediv (usage mem) (limit mem) ;; float_mul_int q 100) ;;
  stat_add_metric "container_memory_usage_percent" [appid; taskid] (Val (Float mem_percent)).

End MemoryStatsCollector.

(** ** [CPUStatsCollector] *)

Module CPUStatsCollector.

Definition __init__ : M BaseStatsCollector.t unit :=
  let labels := ["appid"; "taskid"] in
  add_counter "container_cpu_system_seconds_total"
              (Some "Cumulative system cpu time consumed in seconds.") (Some labels) ;;;
  add_counter "container_cpu_kernel_seconds_total"
              (Some "Cumulative kernel cpu time consumed in seconds.") (Some labels) ;;;
  add_counter "container_cpu_user_seconds_total"
              (Some "Cumulative user cpu time consumed in seconds.") (Some labels) ;;;
  add_counter "container_cpu_usage_seconds_total"
              (Some "Cumulative cpu time consumed per cpu in seconds.")
              (Some ("cpu" :: labels)) ;;;
  add_gauge "container_cpu_usage_percent"
            (Some "Percentage of cpu time used.") (Some labels).

(** [for cpu, value in enumerate(percpu_usage): ...], [cpu] counting from
    [start]. *)
Fixpoint percpu_loop (appid taskid : string) (start : nat) (values : list Z)
    : M BaseStatsCollector.t unit :=
  match values with
  | [] => ret tt
  | v :: rest =>
      let cpu_label := String.append "cpu" (format_02d start) in
      stat_add_metric "container_cpu_usage_seconds_total"
        [cpu_label; appid; taskid] (as_float (ns_to_sec v)) ;;;
      percpu_loop appid taskid (S start) rest
  end.

Definition cpu_delta (stats : RawStats) : Z :=
  total_usage (cpu_usage (cpu_stats stats)) - total_usage (cpu_usage (precpu_stats stats)).

Definition sys_delta (stats : RawStats) : Z :=
  system_cpu_usage (cpu_stats stats) - system_cpu_usage (precpu_stats stats).

Definition num_cores (stats : RawStats) : Z :=
  Z.of_nat (List.length (percpu_usage (cpu_usage (cpu_stats stats)))).

(** [(cpu_delta / sys_delta) * len(percpu_usage) * 100.0] *)
Definition cpu_percent (stats : RawStats) : result spec_float :=
  q <~ int_truediv (cpu_delta stats) (sys_delta stats) ;;
  p <~ float_mul_int q (num_cores stats) ;;
  Val (float_mul p (binary_normalize prec emax 100 0 false)).

Definition add_container (appid taskid : string) (stats : RawStats)
    : M BaseStatsCollector.t unit :=
  let cpu_stats := cpu_stats stats in
  let cpu_usage := cpu_usage cpu_stats in
  stat_add_metric "container_cpu_system_seconds_total" [appid; taskid]
    (as_float (ns_to_sec (system_cpu_usage cpu_stats))) ;;;
  stat_add_metric "container_cpu_kernel_seconds_total" [appid; taskid]
    (as_float (ns_to_sec (usage_in_kernelmode cpu_usage))) ;;;
  stat_add_metric "container_cpu_user_seconds_total" [appid; taskid]
    (as_float (ns_to_sec (usage_in_usermode cpu_usage))) ;;;
  percpu_loop appid taskid 0 (percpu_usage cpu_usage) ;;;
  percent <- lift (cpu_percent stats) ;;
  stat_add_metric "container_cpu_usage_percent" [appid; taskid] (Val (Float percent)).

End CPUStatsCollector.

(** ** The details cache: [@lru_cache(maxsize=32)] around [_details]

    The decorator is [functools.lru_cache] of the Python library; its code
    is not among the sources.  The cache is kept as the entries in order of
    use, most recently used first, with the two counters that [cache_info]
    reports.  The decorated function is a method: the key of an entry is the
    pair of the collector and the container identifier, and there is one
    collector. *)

Module LruCache.

Record CacheInfo : Type := mkCacheInfo {
  info_hits : Z;
  info_misses : Z;
  info_maxsize : Z;
  info_currsize : Z
}.

Section Cache.
Variable V : Type.

Record t : Type := mkCache {
  entries : list (string * V);
  hits : Z;
  misses : Z;
  maxsize : nat
}.

Definition empty (size : nat) : t := mkCache [] 0 0 size.

Fixpoint find (key : string) (l : list (string * V)) : option V :=
  match l with
  | [] => None
  | (k, v) :: rest => if String.eqb key k then Some v else find key rest
  end.

Fixpoint remove (key : string) (l : list (string * V)) : list (string * V) :=
  match l with
  | [] => []
  | (k, v) :: rest =>
      if String.eqb key k then remove key rest else (k, v) :: remove key rest
  end.

Definition cache_info (c : t) : CacheInfo :=
  mkCacheInfo (hits c) (misses c) (Z.of_nat (maxsize c))
              (Z.of_nat (List.length (entries c))).

(** A hit: the entry becomes the most recently used one. *)
Definition touch (key : string) (v : V) (c : t) : t :=
  mkCache ((key, v) :: remove key (entries c)) (hits c + 1) (misses c) (maxsize c).

Definition count_miss (c : t) : t :=
  mkCache (entries c) (hits c) (misses c + 1) (maxsize c).

(** Storing the result of a miss: nothing if the key appeared meanwhile, a
    new entry while the cache is not full, else the oldest entry makes
    room. *)
Definition store (key : string) (v : V) (c : t) : t :=
  match find key (entries c) with
  | Some _ => c
  | None =>
      if Nat.ltb (List.length (entries c)) (maxsize c)
      then mkCache ((key, v) :: entries c) (hits c) (misses c) (maxsize c)
      else mkCache ((key, v) :: removelast (entries c)) (hits c) (misses c) (maxsize c)
  end.

(** Modelled from the spec: the cache around [user_function], which is
    [functools.lru_cache] and is missing from the sources.  On a hit the
    cached value is returned with no call of the function and the hit
    counter grows; on a miss the miss counter grows, the function is called,
    its result is stored under the key and, when the capacity is exceeded,
    the least recently used entry is evicted ([store]).  [S] is the state
    that holds the cache. *)
Definition wrapper {S : Type} (cache_of : S -> t) (with_cache : t -> S -> S)
    (user_function : string -> M S V) (key : string) : M S V :=
  fun s =>
    let c := cache_of s in
    match find key (entries c) with
    | Some v => Ok v (with_cache (touch key v c) s)
    | None =>
        match user_function key (with_cache (count_miss c) s) with
        | Ok v s' => Ok v (with_cache (store key v (cache_of s')) s')
        | Raise e s' => Raise e s'
        end
    end.

End Cache.

Arguments empty {V} size.

End LruCache.

(** ** The docker daemon, as one collection cycle sees it *)

Record Container : Type := mkContainer { Id : string }.

Record ContainerConfig : Type := mkConfig { Env : option (list string) }.

Record Details : Type := mkDetails { Config : option ContainerConfig }.

(** How the worker thread of one container stands when the families are
    read: its [api.stats] call returned a document, raised, or has not
    returned. *)
Inductive Fetch : Type :=
| Answered (stats : RawStats)
| Failed (e : exn)
| Unfinished.

Record Daemon : Type := mkDaemon {
  containers : result (list Container);           (* api.containers(all=False) *)
  inspect_container : string -> result Details;   (* api.inspect_container(cid) *)
  stats : string -> Fetch                         (* api.stats(cid, ...) *)
}.

Inductive ApiCall : Type :=
| CallContainers
| CallInspect (cid : string)
| CallStats (cid : string).

(** ** [DockerStatsCollector] *)

Module DockerStatsCollector.

Definition MESOS_TASK_ID : string := "MESOS_TASK_ID".

Record t : Type := mkCollector {
  network : BaseStatsCollector.t;                 (* _subcollectors[0] *)
  memory : BaseStatsCollector.t;                  (* _subcollectors[1] *)
  cpu : BaseStatsCollector.t;                     (* _subcollectors[2] *)
  details_cache : LruCache.t Details;             (* the cache of _details *)
  api_log : list ApiCall                          (* calls made on _client.api *)
}.

Definition with_network (x : BaseStatsCollector.t) (s : t) : t :=
  mkCollector x (memory s) (cpu s) (details_cache s) (api_log s).
Definition with_memory (x : BaseStatsCollector.t) (s : t) : t :=
  mkCollector (network s) x (cpu s) (details_cache s) (api_log s).
Definition with_cpu (x : BaseStatsCollector.t) (s : t) : t :=
  mkCollector (network s) (memory s) x (details_cache s) (api_log s).
Definition with_cache (x : LruCache.t Details) (s : t) : t :=
  mkCollector (network s) (memory s) (cpu s) x (api_log s).

Definition log_call (c : ApiCall) : M t unit :=
  modify (fun s => mkCollector (network s) (memory s) (cpu s) (details_cache s)
                               (api_log s ++ [c])).

(** The collector as constructed; the connection that [_connect] opens is
    left to [Daemon]. *)
Definition __init__ : t :=
  mkCollector (constructed NetworkStatsCollector.__init__)
              (constructed MemoryStatsCollector.__init__)
              (constructed CPUStatsCollector.__init__)
              (LruCache.empty 32)
              [].

(** The body of [_details]. *)
Definition _details_body (d : Daemon) (container_id : string) : M t Details :=
  log_call (CallInspect container_id) ;;;
  lift (inspect_container d container_id).

(** [_details], behind [@lru_cache(maxsize=32)]. *)
Definition _details (d : Daemon) (container_id : string) : M t Details :=
  LruCache.wrapper details_cache with_cache (_details_body d) container_id.

Definition cache_info (s : t) : LruCache.CacheInfo :=
  LruCache.cache_info (details_cache s).

Definition add_container (appid taskid : string) (stats : RawStats) : M t unit :=
  zoom network with_network (NetworkStatsCollector.add_container appid taskid stats) ;;;
  zoom memory with_memory (MemoryStatsCollector.add_container appid taskid stats) ;;;
  zoom cpu with_cpu (CPUStatsCollector.add_container appid taskid stats).

Definition cleanup_samples : M t unit :=
  zoom network with_network BaseStatsCollector.cleanup_samples ;;;
  zoom memory with_memory BaseStatsCollector.cleanup_samples ;;;
  zoom cpu with_cpu BaseStatsCollector.cleanup_samples.

(** [_fetch_stats], given what [api.stats] does. *)
Definition _fetch_stats (answer : result RawStats) (appid taskid container_id : string)
    : M t unit :=
  log_call (CallStats container_id) ;;;
  stats <- lift answer ;;
  add_container appid taskid stats.

(** [details.get("Config", {}).get("Env", [])] *)
Definition env_of (details : Details) : list string :=
  match Config details with
  | None => []
  | Some cfg => match Env cfg with
                | None => []
                | Some env => env
                end
  end.

(** The loop over the environment entries, from given [appid], [taskid]. *)
Fixpoint env_loop (env : list string) (appid taskid : option string)
    : result (option string * option string) :=
  match env with
  | [] => Val (appid, taskid)
  | env_var :: rest =>
      kv <~ unpack2 (split "="%char env_var) ;;
      if String.eqb (fst kv) MESOS_TASK_ID then
        at_ <~ unpack2 (split "."%char (snd kv)) ;;
        env_loop rest (Some (fst at_)) (Some (slice_to 8 (snd at_)))
      else env_loop rest appid taskid
  end.

(** [appid = taskid = None] and the loop. *)
Definition resolve_identity (env : list string) : result (option string * option string) :=
  env_loop env None None.

(** A started worker: the arguments [async_call] passes to [_fetch_stats]. *)
Record Thread : Type := mkThread {
  thread_appid : string;
  thread_taskid : string;
  thread_cid : string
}.

(** The body of the loop over the running containers. *)
Definition collect_container (d : Daemon) (container : Container)
    (threads : list Thread) : M t (list Thread) :=
  let cid := Id container in
  details <- _details d cid ;;
  ids <- lift (resolve_identity (env_of details)) ;;
  let appid := fst ids in
  let taskid := snd ids in
  if truthy appid && truthy taskid then
    match appid, taskid with
    | Some a, Some b => ret (threads ++ [mkThread a b cid])
    | _, _ => ret threads
    end
  else ret threads.                (* logging.debug(...) *)

Fixpoint collect_containers (d : Daemon) (cs : list Container)
    (threads : list Thread) : M t (list Thread) :=
  match cs with
  | [] => ret threads
  | c :: rest =>
      threads' <- collect_container d c threads ;;
      collect_containers d rest threads'
  end.

(** The workers the loop has started when it ends, by its last container or
    by an exception: [async_call] starts the thread inside the loop, and an
    exception raised for a later container does not stop it. *)
Fixpoint started (d : Daemon) (cs : list Container) (threads : list Thread) (s : t)
    : list Thread :=
  match cs with
  | [] => threads
  | c :: rest =>
      match collect_container d c threads s with
      | Ok threads' s' => started d rest threads' s'
      | Raise _ _ => threads
      end
  end.

(** What one worker has done to the collector when the families are read.
    An exception ends the worker's thread and nothing else; what the worker
    had appended before stays.  A worker whose request has not returned by
    then is not cancelled: it is still in flight when the cycle is over, and
    [Timed] below follows it from there. *)
Definition run_thread (d : Daemon) (th : Thread) (s : t) : t :=
  let fetch answer :=
    state_of (_fetch_stats answer (thread_appid th) (thread_taskid th) (thread_cid th) s) in
  match stats d (thread_cid th) with
  | Answered st => fetch (Val st)
  | Failed e => fetch (Err e)
  | Unfinished =>
      mkCollector (network s) (memory s) (cpu s) (details_cache s)
                  (api_log s ++ [CallStats (thread_cid th)])
  end.

(** The workers run one after the other, in the order they were started:
    the lock makes each [add_container] atomic, and the order in which the
    workers take it is left out. *)
Definition join (d : Daemon) (threads : list Thread) : M t unit :=
  modify (fun s => fold_left (fun acc th => run_thread d th acc) threads s).

Definition export : M t (list Metric) :=
  fun s => Ok (values (network s) ++ values (memory s) ++ values (cpu s)) s.

(** One cycle, read to the end of the generator, each worker with the
    standing [stats d] gives it.  A worker is started as soon as its
    container is handled; its effect is read after the loop, which is where
    the model runs it.  When the loop over the containers raises, the cycle
    ends there, and the workers started until then run all the same. *)
Definition collect (d : Daemon) : M t (list Metric) :=
  cleanup_samples ;;;
  log_call CallContainers ;;;
  cs <- lift (containers d) ;;
  fun s =>
    match collect_containers d cs [] s with
    | Ok threads s' => (join d threads ;;; export) s'
    | Raise e s' => Raise e (state_of (join d (started d cs [] s) s'))
    end.

End DockerStatsCollector.

(** ** [LRUCacheStatsCollector] *)

Module LRUCacheStatsCollector.

Import LruCache.

Definition __init__ : M BaseStatsCollector.t unit :=
  add_counter "exporter_details_cache_hits_total" (Some "Cumulative cache hits.") None ;;;
  add_counter "exporter_details_cache_misses_total" (Some "Cumulative cache misses.") None ;;;
  add_gauge "exporter_details_cache_max_size" (Some "Maximum size of the cache.") None ;;;
  add_gauge "exporter_details_cache_current_size" (Some "Current cache utilization.") None.

(** [collect], given what [self._cached_method.cache_info()] returns. *)
Definition collect (cache_info : result CacheInfo) : M BaseStatsCollector.t (list Metric) :=
  info <- lift cache_info ;;
  stat_add_metric "exporter_details_cache_hits_total" [] (Val (Int (info_hits info))) ;;;
  stat_add_metric "exporter_details_cache_misses_total" [] (Val (Int (info_misses info))) ;;;
  stat_add_metric "exporter_details_cache_max_size" [] (Val (Int (info_maxsize info))) ;;;
  stat_add_metric "exporter_details_cache_current_size" [] (Val (Int (info_currsize info))) ;;;
  BaseStatsCollector.collect.

End LRUCacheStatsCollector.

(** ** Vocabulary of the statements *)

Open Scope Z_scope.

(** The docker API declares every counter of a stats document as an
    unsigned 64-bit integer; the number of cores is the length of a list. *)
Definition uint64b (z : Z) : bool := (0 <=? z) && (z <? 2 ^ 64).

Definition cpu_counters_in_range (stats : RawStats) : bool :=
  let cur := cpu_stats stats in
  let pre := precpu_stats stats in
  uint64b (system_cpu_usage cur) && uint64b (system_cpu_usage pre) &&
  uint64b (total_usage (cpu_usage cur)) && uint64b (total_usage (cpu_usage pre)) &&
  uint64b (usage_in_kernelmode (cpu_usage cur)) &&
  uint64b (usage_in_usermode (cpu_usage cur)) &&
  forallb uint64b (percpu_usage (cpu_usage cur)) &&
  uint64b (CPUStatsCollector.num_cores stats).

Definition defined (stat_id : string) (st : BaseStatsCollector.t) : bool :=
  match dict_get stat_id st with
  | Some _ => true
  | None => false
  end.

(** The families the constructor of [CPUStatsCollector] defines are there. *)
Definition cpu_families_defined (st : BaseStatsCollector.t) : bool :=
  forallb (fun stat_id => defined stat_id st)
          (keys (constructed CPUStatsCollector.__init__)).

(** The samples of a family of the registry, none if it is not defined. *)
Definition samples_of (stat_id : string) (st : BaseStatsCollector.t) : list Sample :=
  match dict_get stat_id st with
  | Some m => samples m
  | None => []
  end.

(** The statement never touches the family [stat_id]. *)
Definition preserves {A} (stat_id : string) (m : M BaseStatsCollector.t A) : Prop :=
  forall st, dict_get stat_id (state_of (m st)) = dict_get stat_id st.

(** The statement always raises, and never touches the family [stat_id]. *)
Definition raises_preserving {A} (stat_id : string) (m : M BaseStatsCollector.t A) : Prop :=
  forall st, exists e st', m st = Raise e st' /\ dict_get stat_id st' = dict_get stat_id st.

Definition float_of (z : Z) : spec_float := binary_normalize prec emax z 0 false.

Definition USAGE_SECONDS : string := "container_cpu_usage_seconds_total".
Definition USAGE_PERCENT : string := "container_cpu_usage_percent".

(** Occurrences of a character, and the parts of a string on either side of
    its first occurrence. *)
Fixpoint count (c : ascii) (s : string) : nat :=
  match s with
  | EmptyString => 0
  | String x rest => if Ascii.eqb x c then S (count c rest) else count c rest
  end.

Fixpoint before (c : ascii) (s : string) : string :=
  match s with
  | EmptyString => EmptyString
  | String x rest => if Ascii.eqb x c then EmptyString else String x (before c rest)
  end.

Fixpoint after (c : ascii) (s : string) : string :=
  match s with
  | EmptyString => EmptyString
  | String x rest => if Ascii.eqb x c then rest else after c rest
  end.

(** An environment entry [KEY=value] whose key is [MESOS_TASK_ID], the
    sentinel. *)
Definition is_task_entry (e : string) : bool :=
  String.eqb (before "="%char e) DockerStatsCollector.MESOS_TASK_ID.

(** The entry has one [=], and the value of a sentinel entry has one [.]. *)
Definition entry_parses (e : string) : bool :=
  Nat.eqb (count "="%char e) 1 &&
  (if is_task_entry e then Nat.eqb (count "."%char (after "="%char e)) 1 else true).

Definition env_parses (env : list string) : bool := forallb entry_parses env.

(** The value of the first, and of the last, sentinel entry. *)
Definition first_task_value (env : list string) : option string :=
  option_map (after "="%char) (List.find is_task_entry env).

Definition last_task_value (env : list string) : option string :=
  option_map (after "="%char) (List.find is_task_entry (List.rev env)).

(** The identity read off a sentinel value: the part before the first [.],
    and the first eight characters of the part after it. *)
Definition identity_of_value (v : string) : option string * option string :=
  (Some (before "."%char v), Some (slice_to 8 (after "."%char v))).

(** Some sentinel entry has a value that does not have exactly one [.]. *)
Definition has_unparseable_task_value (env : list string) : bool :=
  existsb (fun e => is_task_entry e && negb (Nat.eqb (count "."%char (after "="%char e)) 1))
          env.

Definition nonempty (s : string) : bool :=
  match s with
  | EmptyString => false
  | String _ _ => true
  end.

(** Successive lookups through the cached [_details]. *)
Definition lookups (d : Daemon) (cids : list string) : M DockerStatsCollector.t unit :=
  for_each cids (fun cid => DockerStatsCollector._details d cid ;;; ret tt).

Definition answers (d : Daemon) (cid : string) : bool :=
  match inspect_container d cid with
  | Val _ => true
  | Err _ => false
  end.

Fixpoint distinct (l : list string) : bool :=
  match l with
  | [] => true
  | x :: rest => negb (existsb (String.eqb x) rest) && distinct rest
  end.

Definition cached (cid : string) (s : DockerStatsCollector.t) : option Details :=
  LruCache.find cid (LruCache.entries (DockerStatsCollector.details_cache s)).

(** What the cache holds is what the daemon answers. *)
Definition cache_coherent (d : Daemon) (s : DockerStatsCollector.t) : Prop :=
  forall cid v, cached cid s = Some v -> inspect_container d cid = Val v.

(** The cache as the decorator keeps it: capacity 32, never more entries. *)
Definition cache_bounded (s : DockerStatsCollector.t) : bool :=
  Nat.eqb (LruCache.maxsize (DockerStatsCollector.details_cache s)) 32 &&
  Nat.leb (List.length (LruCache.entries (DockerStatsCollector.details_cache s))) 32.

(** The families of the three sub-collectors, in the order [collect] yields
    them. *)
Definition all_families (s : DockerStatsCollector.t) : list Metric :=
  values (DockerStatsCollector.network s) ++
  values (DockerStatsCollector.memory s) ++
  values (DockerStatsCollector.cpu s).

Definition no_samples (m : Metric) : bool :=
  match samples m with
  | [] => true
  | _ :: _ => false
  end.

Definition no_containers (d : Daemon) : bool :=
  match containers d with
  | Val [] => true
  | _ => false
  end.

(** One [collect] per scrape, each scrape with the daemon as it is then. *)
Fixpoint collect_cycles (ds : list Daemon) : M DockerStatsCollector.t (list (list Metric)) :=
  match ds with
  | [] => ret []
  | d :: rest =>
      fams <- DockerStatsCollector.collect d ;;
      more <- collect_cycles rest ;;
      ret (fams :: more)
  end.

(** One [LRUCacheStatsCollector.collect] per scrape, each with the cache
    information of its moment. *)
Fixpoint cache_collect_each (infos : list LruCache.CacheInfo)
    : M BaseStatsCollector.t (list (list Metric)) :=
  match infos with
  | [] => ret []
  | info :: rest =>
      fams <- LRUCacheStatsCollector.collect (Val info) ;;
      more <- cache_collect_each rest ;;
      ret (fams :: more)
  end.

(** Every sample of the family has an empty list of label values. *)
Definition unlabelled (m : Metric) : Prop :=
  Forall (fun x => label_values x = []) (samples m).

Definition sample_counts (fams : list Metric) : list nat :=
  map (fun m => List.length (samples m)) fams.

(** *** Inputs of the examples *)

Definition details_with_env (env : list string) : Details :=
  mkDetails (Some (mkConfig (Some env))).

Definition example_stats (cur_total pre_total cur_system pre_system : Z)
    (percpu : list Z) : RawStats :=
  mkRawStats [("eth0", mkNetStats 10 0 2 0 20 0 3 0)]
             (mkMemoryStats 500000000 1000000000 (mkMemDetail 100 200 0))
             (mkCpuStats (mkCpuUsage cur_total percpu 300 700) cur_system)
             (mkCpuStats (mkCpuUsage pre_total percpu 250 650) pre_system).

(** A daemon with one container, whose environment is [env]. *)
Definition daemon_with_env (env : list string) : Daemon :=
  mkDaemon (Val [mkContainer "c1"])
           (fun _ => Val (details_with_env env))
           (fun _ => Answered (example_stats 2000 1000 500000 490000 [500; 500; 500; 500])).

(** A healthy container followed by one whose sentinel value has no dot. *)
Definition daemon_with_unparseable : Daemon :=
  mkDaemon (Val [mkContainer "good"; mkContainer "bad"])
           (fun cid => if String.eqb cid "good"
                       then Val (details_with_env ["PATH=/bin"; "MESOS_TASK_ID=myapp.abcdefgh1234"])
                       else Val (details_with_env ["PATH=/bin"; "MESOS_TASK_ID=nodot"]))
           (fun _ => Answered (example_stats 2000 1000 500000 490000 [500; 500; 500; 500])).

Definition idle_daemon : Daemon :=
  mkDaemon (Val []) (fun _ => Err APIError) (fun _ => Unfinished).

(** Container identifiers [c00], [c01], ... *)
Definition cids_from (start len : nat) : list string :=
  map (fun n => String.append "c" (format_02d n)) (seq start len).

Definition answering_daemon : Daemon :=
  mkDaemon (Val []) (fun cid => Val (details_with_env [String.append "HOSTNAME=" cid]))
           (fun _ => Unfinished).

(** ** The connection to the daemon ([_connect], and its arguments in [main]) *)

Module Connection.

(** [os.environ]: the variables of the process, by name. *)
Definition Environ : Type := list (string * string).

(** [os.environ.get(key)] *)
Fixpoint environ_get (key : string) (environ : Environ) : option string :=
  match environ with
  | [] => None
  | (k, v) :: rest => if String.eqb key k then Some v else environ_get key rest
  end.

(** [os.environ.get(key, default)] *)
Definition environ_get_default (key default : string) (environ : Environ) : string :=
  match environ_get key environ with
  | Some v => v
  | None => default
  end.

(** The keyword arguments [main] builds for [DockerStatsCollector]. *)
Record Params : Type := mkParams {
  host : string;
  port : string;
  client_cert : option string;
  client_key : option string;
  ca_cert : option string
}.

Definition docker_collector_params (environ : Environ) : Params :=
  mkParams (environ_get_default "DOCKER_REMOTE_HOST" "127.0.0.1" environ)
           (environ_get_default "DOCKER_REMOTE_PORT" "2376" environ)
           (environ_get "DOCKER_SSL_CLIENT_CER,T" environ)
           (environ_get "DOCKER_SSL_CLIENT_KEY" environ)
           (environ_get "DOCKER_SSL_CA_CERT" environ).

(** [docker.tls.TLSConfig(client_cert=(cert, key), verify=ca_cert)] *)
Record TLSConfig : Type := mkTLSConfig {
  tls_client_cert : string * string;
  verify : option string
}.

(** The arguments of [docker.DockerClient(...)]. *)
Record ClientArgs : Type := mkClientArgs {
  base_url : string;
  version : string;
  timeout : Z;
  tls : option TLSConfig
}.

(** [_connect], up to the client it creates; the check of the connection
    ([self._client.version()]) is the daemon's. *)
Definition _connect (p : Params) : ClientArgs :=
  let secure := truthy (client_cert p) && truthy (client_key p) in
  let proto := if secure then "https" else "http" in
  let tls_config :=
    if secure then
      match client_cert p, client_key p with
      | Some cert, Some key => Some (mkTLSConfig (cert, key) (ca_cert p))
      | _, _ => None
      end
    else None in
  let docker_url :=
    String.append proto
      (String.append "://"
         (String.append (host p) (String.append ":" (String.append (port p) "/")))) in
  mkClientArgs docker_url "1.21" 5 tls_config.

End Connection.

(** ** Further vocabulary of the statements *)

(** The keys of a registry with the definitions of their families. *)
Definition schema (st : BaseStatsCollector.t)
    : list (string * (string * family_type * option string * list string)) :=
  map (fun kv => (fst kv, definition (snd kv))) st.

(** The statement keeps the property [I] of the state, whether it returns or
    raises. *)
Definition keeps {S A} (I : S -> Prop) (m : M S A) : Prop :=
  forall s, I s -> I (state_of (m s)).

(** Every sample of every family satisfies [P], which may look at the label
    names of the family. *)
Definition every_sample (P : list string -> Sample -> Prop)
    (st : BaseStatsCollector.t) : Prop :=
  Forall (fun m => Forall (P (labelnames m)) (samples m)) (values st).

Definition arity_matches (names : list string) (x : Sample) : Prop :=
  List.length (label_values x) = List.length names.

(** The last two label values of the sample are one of the identities. *)
Definition labelled_for (ids : list (string * string)) (names : list string)
    (x : Sample) : Prop :=
  exists front appid taskid,
    In (appid, taskid) ids /\ label_values x = front ++ [appid; taskid].

(** The registry has the keys and definitions a constructor gives it. *)
Definition constructed_like (body : M BaseStatsCollector.t unit)
    (st : BaseStatsCollector.t) : Prop :=
  schema st = schema (constructed body).

(** Nanoseconds as seconds, in binary64. *)
Definition seconds (v : Z) : num :=
  Float (SFdiv prec emax (float_of v) (float_of 1000000000)).

(** The network families with the field of an interface each one reports. *)
Definition network_fields : list (string * (NetStats -> Z)) :=
  [ ("container_network_receive_bytes_total", rx_bytes);
    ("container_network_receive_errors_total", rx_errors);
    ("container_network_receive_packets_total", rx_packets);
    ("container_network_receive_packets_dropped_total", rx_dropped);
    ("container_network_transmit_bytes_total", tx_bytes);
    ("container_network_transmit_errors_total", tx_errors);
    ("container_network_transmit_packets_total", tx_packets);
    ("container_network_transmit_packets_dropped_total", tx_dropped) ].

(** The samples a loop over a table of (metric name, field name) appends to
    the family [k], the field values given by [value]. *)
Definition table_samples (tbl : list (string * string)) (labels : list string)
    (value : string -> result Z) (k : string) : list Sample :=
  flat_map (fun entry =>
              if String.eqb k (fst entry) then
                match value (snd entry) with
                | Val z => [mkSample labels (Int z)]
                | Err _ => []
                end
              else []) tbl.

(** The per-core samples: one per entry, the cores numbered from [start]. *)
Fixpoint percpu_samples (appid taskid : string) (start : nat) (vals : list Z)
    : list Sample :=
  match vals with
  | [] => []
  | v :: rest =>
      mkSample [String.append "cpu" (format_02d start); appid; taskid] (seconds v)
      :: percpu_samples appid taskid (S start) rest
  end.

Definition memory_counters_in_range (stats : RawStats) : bool :=
  uint64b (usage (memory_stats stats)) && uint64b (limit (memory_stats stats)).

Definition families_defined (body : M BaseStatsCollector.t unit)
    (st : BaseStatsCollector.t) : bool :=
  forallb (fun stat_id => defined stat_id st) (keys (constructed body)).

(** The label names the schema has for an identifier. *)
Fixpoint schema_labelnames
    (sch : list (string * (string * family_type * option string * list string)))
    (stat_id : string) : option (list string) :=
  match sch with
  | [] => None
  | (k, d) :: rest => if String.eqb stat_id k then Some (snd d) else schema_labelnames rest stat_id
  end.

(** The registry has the schema [sch] and every sample satisfies [P]. *)
Definition registry_inv
    (sch : list (string * (string * family_type * option string * list string)))
    (P : list string -> Sample -> Prop) (st : BaseStatsCollector.t) : Prop :=
  schema st = sch /\ every_sample P st.

(** The three registries have the keys and definitions the constructors give
    them. *)
Definition collector_constructed_like (s : DockerStatsCollector.t) : Prop :=
  constructed_like NetworkStatsCollector.__init__ (DockerStatsCollector.network s) /\
  constructed_like MemoryStatsCollector.__init__ (DockerStatsCollector.memory s) /\
  constructed_like CPUStatsCollector.__init__ (DockerStatsCollector.cpu s).

(** [P] holds of every sample whose label values end with the identity
    (appid, taskid) and are as many as the label names. *)
Definition holds_for_identity (P : list string -> Sample -> Prop)
    (appid taskid : string) : Prop :=
  forall names front x,
    List.length names = (List.length front + 2)%nat ->
    P names (mkSample (front ++ [appid; taskid]) x).

(** The workers a cycle starts: those the loop over the listed containers
    has started when it ends, normally or by an exception; none when the
    listing fails. *)
Definition started_workers (d : Daemon) (s : DockerStatsCollector.t)
    : list DockerStatsCollector.Thread :=
  match containers d with
  | Val cs =>
      DockerStatsCollector.started d cs []
        (state_of ((DockerStatsCollector.cleanup_samples ;;;
                    DockerStatsCollector.log_call CallContainers) s))
  | Err _ => []
  end.

Definition thread_identity (th : DockerStatsCollector.Thread) : string * string :=
  (DockerStatsCollector.thread_appid th, DockerStatsCollector.thread_taskid th).

(** The invariant of the three registries, each for its own schema. *)
Definition registries
    (schN schM schC : list (string * (string * family_type * option string * list string)))
    (P : list string -> Sample -> Prop) (s : DockerStatsCollector.t) : Prop :=
  registry_inv schN P (DockerStatsCollector.network s) /\
  registry_inv schM P (DockerStatsCollector.memory s) /\
  registry_inv schC P (DockerStatsCollector.cpu s).

(** A statement that leaves the three registries alone. *)
Definition frames {A} (m : M DockerStatsCollector.t A) : Prop :=
  forall s,
    DockerStatsCollector.network (state_of (m s)) = DockerStatsCollector.network s /\
    DockerStatsCollector.memory (state_of (m s)) = DockerStatsCollector.memory s /\
    DockerStatsCollector.cpu (state_of (m s)) = DockerStatsCollector.cpu s.

(** A daemon with one container [cid], whose environment is [env]. *)
Definition daemon_with_container (cid : string) (env : list string) : Daemon :=
  mkDaemon (Val [mkContainer cid])
           (fun _ => Val (details_with_env env))
           (fun _ => Answered (example_stats 2000 1000 500000 490000 [500; 500; 500; 500])).

Definition uncached (cid : string) (s : DockerStatsCollector.t) : bool :=
  match cached cid s with
  | None => true
  | Some _ => false
  end.

(** The state in which the loop over the containers starts: the samples
    erased and the listing of the containers requested. *)
Definition cycle_start (s : DockerStatsCollector.t) : DockerStatsCollector.t :=
  state_of ((DockerStatsCollector.cleanup_samples ;;;
             DockerStatsCollector.log_call CallContainers) s).

Definition is_inspect (c : ApiCall) : bool :=
  match c with
  | CallInspect _ => true
  | _ => false
  end.

(** The daemon answers the inspection of the container with an environment
    every entry of which the loop of [collect] can unpack. *)
Definition container_resolves (d : Daemon) (c : Container) : bool :=
  match inspect_container d (Id c) with
  | Val details => env_parses (DockerStatsCollector.env_of details)
  | Err _ => false
  end.

(** What the identity of a started worker looks like. *)
Definition identity_well_formed (appid taskid : string) : bool :=
  nonempty appid && nonempty taskid &&
  Nat.leb (String.length taskid) 8 &&
  Nat.eqb (count "."%char appid) 0 && Nat.eqb (count "."%char taskid) 0 &&
  Nat.eqb (count "="%char appid) 0 && Nat.eqb (count "="%char taskid) 0.

(** A daemon with one container [cid] of environment [env], whose stats
    request fails. *)
Definition daemon_without_stats (cid : string) (env : list string) : Daemon :=
  mkDaemon (Val [mkContainer cid])
           (fun _ => Val (details_with_env env))
           (fun _ => Failed APIError).

(** A daemon that cannot list its containers. *)
Definition unreachable_daemon : Daemon :=
  mkDaemon (Err APIError) (fun _ => Err APIError) (fun _ => Failed APIError).

(** The memory usage sample of a worker and its document. *)
Definition usage_sample (p : DockerStatsCollector.Thread * RawStats) : Sample :=
  mkSample [DockerStatsCollector.thread_appid (fst p); DockerStatsCollector.thread_taskid (fst p)]
           (Int (usage (memory_stats (snd p)))).

Definition USAGE_BYTES : string := "container_memory_usage_bytes".

(** ** The worker threads in time ([async_call], [thread.join(5)])

    [collect] above takes the standing of each worker at the moment the
    families are read as given.  Here it follows from when things happen:
    a worker runs from [async_call] on, appends its samples when its stats
    request returns, is waited for by [thread.join(5)] for at most five
    units of time, and is never cancelled, so that a worker may still be
    running when its cycle is over and a later one begins. *)

Module Timed.

Import DockerStatsCollector.

(** A thread that [async_call] has started on [_fetch_stats]: its arguments,
    the moment its stats request returns and what it returns;
    [Unfinished]: the request never returns. *)
Record Worker : Type := mkWorker {
  worker_thread : Thread;
  returns_at : Z;
  worker_fetch : Fetch
}.

(** The collector and the threads that are running. *)
Record World : Type := mkWorld {
  collector : DockerStatsCollector.t;
  in_flight : list Worker
}.

Definition with_collector (s : DockerStatsCollector.t) (w : World) : World :=
  mkWorld s (in_flight w).

(** When things happen in a cycle: [collect] is entered, the loop over
    [threads] reaches its first [join], and the stats request for a
    container returns. *)
Record Schedule : Type := mkSchedule {
  begins : Z;
  joins_from : Z;
  returns : string -> Z
}.

(** The request of the worker has returned, with a document or an error. *)
Definition returned (now : Z) (wk : Worker) : bool :=
  match worker_fetch wk with
  | Unfinished => false
  | _ => returns_at wk <=? now
  end.

(** The rest of [_fetch_stats] once the request has returned: a document
    goes to [add_container]; an exception, of the request or of a
    translator, ends the thread. *)
Definition land (wk : Worker) (s : DockerStatsCollector.t) : DockerStatsCollector.t :=
  match worker_fetch wk with
  | Answered doc =>
      state_of (add_container (thread_appid (worker_thread wk))
                              (thread_taskid (worker_thread wk)) doc s)
  | _ => s
  end.

(** The workers in the order in which their requests return; those that
    return together, in the order in which they were started. *)
Fixpoint insert_by_time (wk : Worker) (ws : list Worker) : list Worker :=
  match ws with
  | [] => [wk]
  | x :: rest =>
      if returns_at wk <=? returns_at x then wk :: x :: rest
      else x :: insert_by_time wk rest
  end.

Definition by_time (ws : list Worker) : list Worker := fold_right insert_by_time [] ws.

(** What the running workers have done by [now]: those whose request has
    returned have run to their end, one after the other under the lock. *)
Definition arrive (now : Z) (w : World) : World :=
  mkWorld (fold_left (fun s wk => land wk s)
                     (by_time (filter (returned now) (in_flight w))) (collector w))
          (filter (fun wk => negb (returned now wk)) (in_flight w)).

Definition worker_of (sch : Schedule) (d : Daemon) (th : Thread) : Worker :=
  mkWorker th (returns sch (thread_cid th)) (stats d (thread_cid th)).

(** [async_call(self._fetch_stats, appid, taskid, cid)]: the thread is
    started and makes its request. *)
Definition async_call (sch : Schedule) (d : Daemon) (th : Thread) : M World Thread :=
  fun w =>
    Ok th (mkWorld (state_of (log_call (CallStats (thread_cid th)) (collector w)))
                   (in_flight w ++ [worker_of sch d th])).

(** The body of the loop over the running containers. *)
Definition collect_container (sch : Schedule) (d : Daemon) (container : Container)
    (threads : list Thread) : M World (list Thread) :=
  let cid := Id container in
  details <- zoom collector with_collector (_details d cid) ;;
  ids <- lift (resolve_identity (env_of details)) ;;
  let appid := fst ids in
  let taskid := snd ids in
  if truthy appid && truthy taskid then
    match appid, taskid with
    | Some a, Some b =>
        thread <- async_call sch d (mkThread a b cid) ;;
        ret (threads ++ [thread])
    | _, _ => ret threads
    end
  else ret threads.

Fixpoint collect_containers (sch : Schedule) (d : Daemon) (cs : list Container)
    (threads : list Thread) : M World (list Thread) :=
  match cs with
  | [] => ret threads
  | c :: rest =>
      threads' <- collect_container sch d c threads ;;
      collect_containers sch d rest threads'
  end.

(** [thread.join(5)] called at [now]: the moment it returns, at once for a
    thread that has ended, else when the thread ends or five units later. *)
Definition join (wk : Worker) (now : Z) : Z :=
  match worker_fetch wk with
  | Unfinished => now + 5
  | _ => if returns_at wk <=? now then now else Z.min (returns_at wk) (now + 5)
  end.

(** [for thread in threads: thread.join(5)], from [now]: the moment the
    last [join] returns. *)
Definition join_all (sch : Schedule) (d : Daemon) (threads : list Thread) (now : Z) : Z :=
  fold_left (fun t th => join (worker_of sch d th) t) threads now.

(** One cycle, read to the end of the generator.  The families are read
    when the last [join] has returned, with what the workers in flight, of
    this cycle and of earlier ones, have appended by then; the workers that
    have not returned stay in flight, also when the loop over the containers
    raises. *)
Definition collect (sch : Schedule) (d : Daemon) : M World (list Metric) :=
  modify (arrive (begins sch)) ;;;
  zoom collector with_collector cleanup_samples ;;;
  zoom collector with_collector (log_call CallContainers) ;;;
  cs <- lift (containers d) ;;
  threads <- collect_containers sch d cs [] ;;
  modify (arrive (join_all sch d threads (joins_from sch))) ;;;
  zoom collector with_collector export.

End Timed.

(** *** Vocabulary of the statements about the workers *)

(** The worker the loop starts for a container, when the details it gets
    are what the daemon answers. *)
Definition thread_for (d : Daemon) (c : Container) : list DockerStatsCollector.Thread :=
  match inspect_container d (Id c) with
  | Val details =>
      match DockerStatsCollector.resolve_identity (DockerStatsCollector.env_of details) with
      | Val (Some a, Some b) =>
          if truthy (Some a) && truthy (Some b)
          then [DockerStatsCollector.mkThread a b (Id c)] else []
      | _ => []
      end
  | Err _ => []
  end.

Fixpoint take_while {A} (f : A -> bool) (l : list A) : list A :=
  match l with
  | [] => []
  | x :: rest => if f x then x :: take_while f rest else []
  end.

(** [xs] is [ys] with some items left out. *)
Fixpoint subsequence (xs ys : list string) {struct ys} : bool :=
  match xs, ys with
  | [], _ => true
  | _ :: _, [] => false
  | x :: xs', y :: ys' =>
      if String.eqb x y then subsequence xs' ys' else subsequence xs ys'
  end.

(** The workers among [ws] that were given a document, each with it. *)
Definition documents (ws : list Timed.Worker)
    : list (DockerStatsCollector.Thread * RawStats) :=
  flat_map (fun wk =>
              match Timed.worker_fetch wk with
              | Answered doc => [(Timed.worker_thread wk, doc)]
              | _ => []
              end) ws.

(** The workers among [ws] whose request has returned a document by [now],
    each with its document. *)
Definition landed (now : Z) (ws : list Timed.Worker)
    : list (DockerStatsCollector.Thread * RawStats) :=
  documents (filter (Timed.returned now) ws).

(** The workers started for [threads] whose request the daemon has answered
    with a document by [now], each with its document. *)
Definition completed (sch : Timed.Schedule) (d : Daemon) (now : Z)
    (threads : list DockerStatsCollector.Thread)
    : list (DockerStatsCollector.Thread * RawStats) :=
  landed now (map (Timed.worker_of sch d) threads).

(** The identities of workers given with their documents. *)
Definition identities (ps : list (DockerStatsCollector.Thread * RawStats))
    : list (string * string) :=
  map (fun p => thread_identity (fst p)) ps.

(** The moment the families of a cycle are read. *)
Definition read_out (sch : Timed.Schedule) (d : Daemon)
    (threads : list DockerStatsCollector.Thread) : Z :=
  Timed.join_all sch d threads (Timed.joins_from sch).

(** The world of a collector none of whose workers is running. *)
Definition at_rest (s : DockerStatsCollector.t) : Timed.World := Timed.mkWorld s [].

(** Two containers, [slow] and [slower], whose stats requests return after
    7 and after 9 units of time. *)
Definition two_slow_containers : Daemon :=
  mkDaemon (Val [mkContainer "slow"; mkContainer "slower"])
           (fun cid => Val (details_with_env
                              [String.append "MESOS_TASK_ID=" (String.append cid ".11111111")]))
           (fun _ => Answered (example_stats 2000 1000 500000 490000 [500; 500; 500; 500])).

Definition returns_7_and_9 : Timed.Schedule :=
  Timed.mkSchedule 0 0 (fun cid => if String.eqb cid "slow" then 7 else 9).

(** The statement leaves the three registries alone. *)
Definition same_registries (s s' : DockerStatsCollector.t) : Prop :=
  DockerStatsCollector.network s' = DockerStatsCollector.network s /\
  DockerStatsCollector.memory s' = DockerStatsCollector.memory s /\
  DockerStatsCollector.cpu s' = DockerStatsCollector.cpu s.

(** The workers in flight while a cycle runs: those of earlier cycles that
    have not returned when it begins, and those it starts for [threads]. *)
Definition flying (sch : Timed.Schedule) (d : Daemon) (w : Timed.World)
    (threads : list DockerStatsCollector.Thread) : list Timed.Worker :=
  Timed.in_flight (Timed.arrive (Timed.begins sch) w)
  ++ map (Timed.worker_of sch d) threads.

(** Three containers: the stats request of [quick] is answered after 1 unit
    of time, that of [broken] fails after 2, that of [late] is answered
    after 100; the joins start after 1. *)
Definition three_fetches : Daemon :=
  mkDaemon (Val [mkContainer "quick"; mkContainer "broken"; mkContainer "late"])
           (fun cid => Val (details_with_env
                              [String.append "MESOS_TASK_ID=" (String.append cid ".11111111")]))
           (fun cid => if String.eqb cid "broken" then Failed APIError
                       else Answered (example_stats 2000 1000 500000 490000 [500])).

Definition returns_1_2_100 : Timed.Schedule :=
  Timed.mkSchedule 0 1 (fun cid => if String.eqb cid "quick" then 1
                                   else if String.eqb cid "broken" then 2 else 100).

(** A worker of an earlier cycle, for a container that has gone since,
    whose request is answered at 3. *)
Definition earlier_worker : Timed.Worker :=
  Timed.mkWorker (DockerStatsCollector.mkThread "other" "12345678" "c1") 3
                 (Answered (example_stats 2000 1000 500000 490000 [500])).

(** The cycle begins at 0, its joins start at 1, and its stats requests
    return at 20. *)
Definition returns_at_20 : Timed.Schedule := Timed.mkSchedule 0 1 (fun _ => 20).

(** * Proofs *)

Unset Implicit Arguments.

(** ** Floats stay finite on 64-bit counters *)

Section FloatRange.

Lemma digits2_pos_size p : digits2_pos p = Pos.size p.
Proof. induction p; simpl; congruence. Qed.

Lemma Zdigits2_log2 m : 0 < m -> Zdigits2 m = Z.log2 m + 1.
Proof.
  destruct m as [|p|p]; try lia. intros _. simpl.
  rewrite digits2_pos_size. destruct p; simpl; lia.
Qed.

Lemma Zdigits2_nonneg m : 0 <= Zdigits2 m.
Proof. destruct m; simpl; lia. Qed.

Lemma Zdigits2_mono x y : 0 <= x <= y -> Zdigits2 x <= Zdigits2 y.
Proof.
  intros [Hx Hxy]. destruct (Z.eq_dec x 0) as [->|Hx0].
  - apply Zdigits2_nonneg.
  - rewrite !Zdigits2_log2 by lia. apply Z.add_le_mono_r, Z.log2_le_mono. lia.
Qed.

Lemma Zdigits2_bound m k : 0 <= k -> 0 <= m < 2 ^ k -> Zdigits2 m <= k.
Proof.
  intros Hk [Hm Hlt]. destruct (Z.eq_dec m 0) as [->|Hm0]; [simpl; lia|].
  rewrite Zdigits2_log2 by lia.
  assert (Z.log2 m < k) by (apply Z.log2_lt_pow2; lia). lia.
Qed.

Lemma Zdigits2_succ m : 0 <= m -> Zdigits2 (m + 1) <= Zdigits2 m + 1.
Proof.
  intros Hm. destruct (Z.eq_dec m 0) as [->|Hm0]; [simpl; lia|].
  rewrite !Zdigits2_log2 by lia.
  pose proof (Z.log2_succ_le m). unfold Z.succ in *. lia.
Qed.

Lemma Zdigits2_shiftl m s : 0 < m -> 0 <= s -> Zdigits2 (Z.shiftl m s) = Zdigits2 m + s.
Proof.
  intros Hm Hs.
  assert (0 < Z.shiftl m s) by (rewrite Z.shiftl_mul_pow2 by lia; nia).
  rewrite !Zdigits2_log2 by lia. rewrite Z.log2_shiftl by lia. lia.
Qed.

Lemma shr_1_digits mrs :
  0 <= shr_m mrs ->
  0 <= shr_m (shr_1 mrs) /\
  Zdigits2 (shr_m (shr_1 mrs)) = Z.max 0 (Zdigits2 (shr_m mrs) - 1).
Proof.
  destruct mrs as [m r s]. simpl. intros Hm.
  destruct m as [|p|p]; try lia.
  - simpl. lia.
  - destruct p; cbn [shr_m Zdigits2 digits2_pos]; rewrite ?Pos2Z.inj_succ; lia.
Qed.

Lemma iter_shr_1_digits p : forall mrs,
  0 <= shr_m mrs ->
  0 <= shr_m (iter_pos shr_1 p mrs) /\
  Zdigits2 (shr_m (iter_pos shr_1 p mrs)) = Z.max 0 (Zdigits2 (shr_m mrs) - Z.pos p).
Proof.
  induction p as [p IH|p IH|]; intros mrs Hm; simpl.
  - destruct (shr_1_digits mrs Hm) as [H1 D1].
    destruct (IH _ H1) as [H2 D2]. destruct (IH _ H2) as [H3 D3].
    split; [exact H3|]. rewrite D3, D2, D1. lia.
  - destruct (IH _ Hm) as [H2 D2]. destruct (IH _ H2) as [H3 D3].
    split; [exact H3|]. rewrite D3, D2. lia.
  - apply shr_1_digits; exact Hm.
Qed.

Lemma shr_record_of_loc_m m l : shr_m (shr_record_of_loc m l) = m.
Proof. destruct l as [|[]]; reflexivity. Qed.

(** The exponent and the mantissa size after [shr_fexp]. *)
Lemma shr_fexp_bounds m e l mrs e' :
  0 <= m ->
  shr_fexp prec emax m e l = (mrs, e') ->
  0 <= shr_m mrs /\
  e' = Z.max e (fexp prec emax (Zdigits2 m + e)) /\
  Zdigits2 (shr_m mrs) + e' <= Z.max e' (Zdigits2 m + e).
Proof.
  intros Hm. unfold shr_fexp, shr.
  set (n := fexp prec emax (Zdigits2 m + e) - e).
  destruct n as [|p|p] eqn:En; intros H; inversion H; subst mrs e'; clear H.
  - rewrite shr_record_of_loc_m. repeat split; lia.
  - destruct (iter_shr_1_digits p (shr_record_of_loc m l)) as [H1 D1].
    { rewrite shr_record_of_loc_m; exact Hm. }
    rewrite shr_record_of_loc_m in D1.
    repeat split; [exact H1|lia|]. rewrite D1. lia.
  - rewrite shr_record_of_loc_m. repeat split; lia.
Qed.

Lemma round_nearest_even_bounds m l :
  0 <= m -> 0 <= round_nearest_even m l /\ Zdigits2 (round_nearest_even m l) <= Zdigits2 m + 1.
Proof.
  intros Hm. pose proof (Zdigits2_succ m Hm).
  unfold round_nearest_even. destruct l as [|[]]; try destruct (Z.even m); split; lia.
Qed.

Lemma binary_round_aux_finite sx mx ex lx :
  0 <= mx -> Zdigits2 mx + ex <= 1000 -> ex <= 900 ->
  is_infinity (binary_round_aux prec emax sx mx ex lx) = false.
Proof.
  intros Hm Hd He. unfold binary_round_aux.
  destruct (shr_fexp prec emax mx ex lx) as [mrs' e'] eqn:E1.
  destruct (shr_fexp_bounds _ _ _ _ _ Hm E1) as (H1 & He' & D1).
  destruct (round_nearest_even_bounds _ (loc_of_shr_record mrs') H1) as [H2 D2].
  destruct (shr_fexp prec emax (round_nearest_even (shr_m mrs') (loc_of_shr_record mrs')) e' loc_Exact)
    as [mrs'' e''] eqn:E2.
  destruct (shr_fexp_bounds _ _ _ _ _ H2 E2) as (H3 & He'' & D3).
  destruct (shr_m mrs'') as [|p|p]; try reflexivity.
  assert (e'' <= emax - prec) as Hle.
  { unfold fexp, SpecFloat.emin, emax, prec in *. lia. }
  apply Z.leb_le in Hle. rewrite Hle. reflexivity.
Qed.


Lemma digits2_pos_iter_xO d : forall mx,
  Z.pos (digits2_pos (Pos.iter xO mx d)) = Z.pos (digits2_pos mx) + Z.pos d.
Proof.
  induction d as [|d IH] using Pos.peano_ind; intros mx.
  - simpl. lia.
  - rewrite Pos.iter_succ. cbn [digits2_pos]. rewrite Pos2Z.inj_succ, IH. lia.
Qed.

Lemma shl_align_bounds mx ex ex' mz ez :
  shl_align mx ex ex' = (mz, ez) ->
  Zdigits2 (Z.pos mz) + ez = Zdigits2 (Z.pos mx) + ex /\ ez <= ex.
Proof.
  unfold shl_align. destruct (ex' - ex) as [|d|d] eqn:E; intros H; inversion H; subst.
  - split; lia.
  - split; lia.
  - cbn [Zdigits2]. rewrite digits2_pos_iter_xO. split; lia.
Qed.

Lemma binary_normalize_finite z :
  Z.abs z < 2 ^ 64 -> is_infinity (binary_normalize prec emax z 0 false) = false.
Proof.
  intros Hz.
  assert (forall sx p, Z.pos p < 2 ^ 64 ->
            is_infinity (binary_round prec emax sx p 0) = false) as Hround.
  { intros sx p Hp. unfold binary_round.
    destruct (shl_align p 0 (fexp prec emax (Z.pos (digits2_pos p) + 0))) as [mz ez] eqn:E.
    destruct (shl_align_bounds _ _ _ _ _ E) as [D Hle].
    assert (Zdigits2 (Z.pos p) <= 64) by (apply Zdigits2_bound; lia).
    apply binary_round_aux_finite; lia. }
  destruct z as [|p|p]; cbn [binary_normalize]; [reflexivity| |]; apply Hround; lia.
Qed.

Lemma float_of_int_value z :
  Z.abs z < 2 ^ 64 -> float_of_int z = Val (binary_normalize prec emax z 0 false).
Proof.
  intros Hz. unfold float_of_int, checked.
  rewrite binary_normalize_finite by exact Hz. reflexivity.
Qed.

Lemma SFdiv_exact_finite a b :
  Z.abs a < 2 ^ 64 -> b <> 0 ->
  is_infinity (SFdiv prec emax (exact a) (exact b)) = false.
Proof.
  intros Ha Hb.
  assert (forall sx sy p q, Z.pos p < 2 ^ 64 ->
            is_infinity (SFdiv prec emax (S754_finite sx p 0) (S754_finite sy q 0)) = false)
    as Hdiv.
  { intros sx sy p q Hp. cbn [SFdiv]. unfold SFdiv_core_binary.
    set (e' := Z.min (fexp prec emax (Zdigits2 (Z.pos p) + 0 - (Zdigits2 (Z.pos q) + 0))) (0 - 0)).
    set (s := 0 - 0 - e').
    set (m' := match s with Z.pos _ => Z.shiftl (Z.pos p) s | 0 => Z.pos p | Z.neg _ => 0 end).
    assert (Zdigits2 (Z.pos p) <= 64) as Dp by (apply Zdigits2_bound; lia).
    assert (0 <= s) as Hs by (unfold s, e'; lia).
    assert (0 <= m' /\ Zdigits2 m' <= 64 + s) as [Hm' Dm'].
    { unfold m'. destruct s as [|k|k] eqn:Es; [| |lia].
      - cbv iota. split; lia.
      - cbv iota. rewrite <- Es in *. split.
        + rewrite Z.shiftl_mul_pow2 by lia. nia.
        + rewrite Zdigits2_shiftl by lia. lia. }
    pose proof (Z_div_mod m' (Z.pos q) ltac:(lia)) as Hdm.
    destruct (Z.div_eucl m' (Z.pos q)) as [qt r]. destruct Hdm as [Heq Hr].
    assert (0 <= qt <= m') as Hq by nia.
    assert (Zdigits2 qt <= Zdigits2 m') by (apply Zdigits2_mono; lia).
    apply binary_round_aux_finite; unfold e' in *; lia. }
  destruct a as [|p|p], b as [|q|q]; try contradiction; try reflexivity;
    cbn [exact]; apply Hdiv; lia.
Qed.

Lemma int_truediv_value a b :
  Z.abs a < 2 ^ 64 -> b <> 0 ->
  int_truediv a b = Val (SFdiv prec emax (exact a) (exact b)).
Proof.
  intros Ha Hb. unfold int_truediv, checked.
  destruct (Z.eqb_spec b 0); [contradiction|].
  rewrite SFdiv_exact_finite by assumption. reflexivity.
Qed.

End FloatRange.

(** ** The registry as a dictionary *)

Section Registry.

Lemma dict_get_dict_set k k' v d :
  dict_get k (dict_set k' v d) = if String.eqb k k' then Some v else dict_get k d.
Proof.
  induction d as [|[k0 v0] d IH]; simpl.
  - destruct (String.eqb k k'); reflexivity.
  - destruct (String.eqb_spec k' k0) as [->|Hne]; simpl.
    + destruct (String.eqb k k0); reflexivity.
    + destruct (String.eqb_spec k k0) as [->|Hne'].
      * destruct (String.eqb_spec k0 k'); [congruence|reflexivity].
      * exact IH.
Qed.

Lemma keys_dict_set k v d :
  dict_get k d <> None -> keys (dict_set k v d) = keys d.
Proof.
  unfold keys. induction d as [|[k0 v0] d IH]; simpl; intros H.
  - congruence.
  - destruct (String.eqb_spec k k0) as [->|Hne]; simpl; [reflexivity|].
    f_equal. apply IH. exact H.
Qed.

Lemma stat_add_metric_ok stat_id labels x m st :
  dict_get stat_id st = Some m ->
  stat_add_metric stat_id labels (Val x) st
  = Ok tt (dict_set stat_id (add_metric labels x m) st).
Proof.
  intros H. unfold stat_add_metric, bind, get_stat. rewrite H. reflexivity.
Qed.

Lemma samples_of_dict_set k k' v d :
  samples_of k (dict_set k' v d) = if String.eqb k k' then samples v else samples_of k d.
Proof.
  unfold samples_of. rewrite dict_get_dict_set. destruct (String.eqb k k'); reflexivity.
Qed.

Lemma defined_dict_set k k' v d :
  defined k (dict_set k' v d) = String.eqb k k' || defined k d.
Proof.
  unfold defined. rewrite dict_get_dict_set. destruct (String.eqb k k'); reflexivity.
Qed.

(** [add_stat] on an identifier that is defined: the family is replaced
    where it stands. *)
Lemma add_stat_replaces st stat_id stat_type desc labels :
  defined stat_id st = true ->
  exists st',
    add_stat stat_id stat_type desc labels st = Ok tt st' /\
    dict_get stat_id st' = Some (new_family stat_type stat_id desc labels) /\
    keys st' = keys st /\
    (forall k, String.eqb k stat_id = false -> dict_get k st' = dict_get k st).
Proof.
  intros Hdef.
  exists (dict_set stat_id (new_family stat_type stat_id desc labels) st).
  split; [reflexivity|].
  split; [rewrite dict_get_dict_set, String.eqb_refl; reflexivity|].
  split.
  - apply keys_dict_set. unfold defined in Hdef.
    destruct (dict_get stat_id st); [discriminate|discriminate Hdef].
  - intros k Hk. rewrite dict_get_dict_set, Hk. reflexivity.
Qed.

Lemma defined_get k st : defined k st = true -> exists m, dict_get k st = Some m.
Proof. unfold defined. destruct (dict_get k st) as [m|]; [eauto|discriminate]. Qed.

End Registry.

(** ** The CPU translator *)

Section Cpu.

Lemma uint64b_range z : uint64b z = true -> 0 <= z < 2 ^ 64.
Proof. unfold uint64b. intros H. apply andb_prop in H. lia. Qed.

Lemma ns_to_sec_value v :
  uint64b v = true ->
  ns_to_sec v = Val (SFdiv prec emax (float_of v) (float_of 1000000000)).
Proof.
  intros H. apply uint64b_range in H. unfold ns_to_sec.
  rewrite float_of_int_value by lia. reflexivity.
Qed.

(** A seconds sample of a counter in range is appended; the families that
    were defined stay defined, the other families stay as they were. *)
Lemma seconds_sample_added stat_id labels v st :
  defined stat_id st = true ->
  uint64b v = true ->
  exists st1,
    stat_add_metric stat_id labels (as_float (ns_to_sec v)) st = Ok tt st1 /\
    (forall k, defined k st = true -> defined k st1 = true) /\
    (forall k, String.eqb k stat_id = false -> dict_get k st1 = dict_get k st).
Proof.
  intros Hdef Hv. destruct (defined_get _ _ Hdef) as [m Em].
  unfold as_float. rewrite (ns_to_sec_value _ Hv). cbn [rbind].
  rewrite (stat_add_metric_ok _ _ _ _ _ Em).
  eexists. split; [reflexivity|]. split.
  - intros k Hk. rewrite defined_dict_set, Hk. apply orb_true_r.
  - intros k Hk. rewrite dict_get_dict_set, Hk. reflexivity.
Qed.

Lemma percpu_loop_ok appid taskid : forall vals start st,
  defined USAGE_SECONDS st = true ->
  forallb uint64b vals = true ->
  exists st',
    CPUStatsCollector.percpu_loop appid taskid start vals st = Ok tt st' /\
    (forall k, String.eqb k USAGE_SECONDS = false -> dict_get k st' = dict_get k st).
Proof.
  induction vals as [|v vals IH]; intros start st Hdef Hall.
  - exists st. split; [reflexivity|auto].
  - cbn [forallb] in Hall. apply andb_prop in Hall. destruct Hall as [Hv Hall].
    cbn [CPUStatsCollector.percpu_loop]. unfold bind at 1.
    destruct (seconds_sample_added USAGE_SECONDS
                [String.append "cpu" (format_02d start); appid; taskid] v st Hdef Hv)
      as (st1 & Hrun1 & Hdef1 & Hframe1).
    fold USAGE_SECONDS. rewrite Hrun1.
    destruct (IH (S start) st1 (Hdef1 _ Hdef) Hall) as (st' & Hrun & Hframe).
    exists st'. split; [exact Hrun|]. intros k Hk.
    rewrite (Hframe k Hk). apply Hframe1. exact Hk.
Qed.


Lemma cpu_families_defined_each st :
  cpu_families_defined st = true ->
  defined "container_cpu_system_seconds_total" st = true /\
  defined "container_cpu_kernel_seconds_total" st = true /\
  defined "container_cpu_user_seconds_total" st = true /\
  defined USAGE_SECONDS st = true /\
  defined USAGE_PERCENT st = true.
Proof.
  unfold cpu_families_defined. cbn [forallb keys map fst constructed].
  intros H. vm_compute keys in H. cbn [forallb] in H.
  repeat (apply andb_prop in H; destruct H as [? H]). repeat split; assumption.
Qed.

Lemma cpu_counters_each stats :
  cpu_counters_in_range stats = true ->
  uint64b (system_cpu_usage (cpu_stats stats)) = true /\
  uint64b (system_cpu_usage (precpu_stats stats)) = true /\
  uint64b (total_usage (cpu_usage (cpu_stats stats))) = true /\
  uint64b (total_usage (cpu_usage (precpu_stats stats))) = true /\
  uint64b (usage_in_kernelmode (cpu_usage (cpu_stats stats))) = true /\
  uint64b (usage_in_usermode (cpu_usage (cpu_stats stats))) = true /\
  forallb uint64b (percpu_usage (cpu_usage (cpu_stats stats))) = true /\
  uint64b (CPUStatsCollector.num_cores stats) = true.
Proof.
  unfold cpu_counters_in_range. intros H. cbv zeta in H.
  do 7 (apply andb_prop in H; destruct H as [H ?]). repeat split; assumption.
Qed.

(** The statements of [add_container] before the percentage succeed on
    counters in range, and leave the percentage family as it was. *)
Lemma cpu_add_container_prefix appid taskid stats st :
  cpu_families_defined st = true ->
  cpu_counters_in_range stats = true ->
  exists st4,
    dict_get USAGE_PERCENT st4 = dict_get USAGE_PERCENT st /\
    CPUStatsCollector.add_container appid taskid stats st
    = (percent <- lift (CPUStatsCollector.cpu_percent stats) ;;
       stat_add_metric USAGE_PERCENT [appid; taskid] (Val (Float percent))) st4.
Proof.
  intros Hdef Hrange.
  destruct (cpu_families_defined_each _ Hdef) as (D1 & D2 & D3 & D4 & D5).
  destruct (cpu_counters_each _ Hrange) as (R1 & _ & _ & _ & R5 & R6 & R7 & _).
  unfold CPUStatsCollector.add_container.
  destruct (seconds_sample_added "container_cpu_system_seconds_total"
              [appid; taskid] _ st D1 R1) as (st1 & Hrun1 & Hdef1 & Hframe1).
  unfold bind at 1. rewrite Hrun1.
  destruct (seconds_sample_added "container_cpu_kernel_seconds_total"
              [appid; taskid] _ st1 (Hdef1 _ D2) R5) as (st2 & Hrun2 & Hdef2 & Hframe2).
  unfold bind at 1. rewrite Hrun2.
  destruct (seconds_sample_added "container_cpu_user_seconds_total"
              [appid; taskid] _ st2 (Hdef2 _ (Hdef1 _ D3)) R6)
    as (st3 & Hrun3 & Hdef3 & Hframe3).
  unfold bind at 1. rewrite Hrun3.
  destruct (percpu_loop_ok appid taskid _ 0%nat st3 (Hdef3 _ (Hdef2 _ (Hdef1 _ D4))) R7)
    as (st4 & Hloop & Hframe4).
  unfold bind at 1. rewrite Hloop.
  exists st4. split; [|reflexivity].
  rewrite (Hframe4 USAGE_PERCENT eq_refl), (Hframe3 USAGE_PERCENT eq_refl),
    (Hframe2 USAGE_PERCENT eq_refl), (Hframe1 USAGE_PERCENT eq_refl).
  reflexivity.
Qed.

Lemma preserves_bind {A B} k (m : M BaseStatsCollector.t A) (f : A -> M BaseStatsCollector.t B) :
  preserves k m -> (forall a, preserves k (f a)) -> preserves k (bind m f).
Proof.
  intros Hm Hf st. unfold bind. specialize (Hm st).
  destruct (m st) as [a s'|e s']; cbn [state_of] in *; [|exact Hm].
  rewrite (Hf a s'). exact Hm.
Qed.

Lemma preserves_stat_add_metric k stat_id labels v :
  String.eqb k stat_id = false -> preserves k (stat_add_metric stat_id labels v).
Proof.
  intros Hk st. unfold stat_add_metric, bind, get_stat, lift, modify.
  destruct (dict_get stat_id st) as [m|]; [|reflexivity].
  destruct v as [x|e]; cbn [state_of]; [|reflexivity].
  rewrite dict_get_dict_set, Hk. reflexivity.
Qed.

Lemma preserves_percpu_loop k appid taskid :
  String.eqb k USAGE_SECONDS = false ->
  forall vals start, preserves k (CPUStatsCollector.percpu_loop appid taskid start vals).
Proof.
  intros Hk. induction vals as [|v vals IH]; intros start.
  - intros st. reflexivity.
  - cbn [CPUStatsCollector.percpu_loop]. apply preserves_bind.
    + apply preserves_stat_add_metric. exact Hk.
    + intros _. apply IH.
Qed.

Lemma raises_preserving_bind {A B} k (m : M BaseStatsCollector.t A)
    (f : A -> M BaseStatsCollector.t B) :
  preserves k m -> (forall a, raises_preserving k (f a)) -> raises_preserving k (bind m f).
Proof.
  intros Hm Hf st. unfold bind. specialize (Hm st).
  destruct (m st) as [a s'|e s']; cbn [state_of] in Hm.
  - destruct (Hf a s') as (e & st' & Hrun & Hk). exists e, st'. split; [exact Hrun|].
    rewrite Hk. exact Hm.
  - exists e, s'. split; [reflexivity|exact Hm].
Qed.

Lemma cpu_percent_zero stats :
  CPUStatsCollector.sys_delta stats = 0 ->
  CPUStatsCollector.cpu_percent stats = Err ZeroDivisionError.
Proof.
  intros H. unfold CPUStatsCollector.cpu_percent, int_truediv. rewrite H. reflexivity.
Qed.

Lemma cpu_percent_value stats :
  cpu_counters_in_range stats = true ->
  CPUStatsCollector.sys_delta stats <> 0 ->
  CPUStatsCollector.cpu_percent stats
  = Val (float_mul
           (float_mul (SFdiv prec emax (exact (CPUStatsCollector.cpu_delta stats))
                                       (exact (CPUStatsCollector.sys_delta stats)))
                      (float_of (CPUStatsCollector.num_cores stats)))
           (float_of 100)).
Proof.
  intros Hrange Hsys.
  destruct (cpu_counters_each _ Hrange) as (_ & _ & R3 & R4 & _ & _ & _ & R8).
  apply uint64b_range in R3, R4, R8.
  unfold CPUStatsCollector.cpu_percent.
  rewrite int_truediv_value; [|unfold CPUStatsCollector.cpu_delta; lia|exact Hsys].
  cbn [rbind]. unfold float_mul_int. rewrite float_of_int_value by lia. reflexivity.
Qed.

End Cpu.

(** ** Identity of a container *)

Import DockerStatsCollector.

Section Identity.

Lemma length_split c s : List.length (split c s) = S (count c s).
Proof.
  induction s as [|x rest IH]; simpl; [reflexivity|].
  destruct (Ascii.eqb x c); simpl; [congruence|].
  destruct (split c rest) as [|p ps] eqn:E; simpl in *; [discriminate|exact IH].
Qed.

Lemma split_count_0 c s : count c s = 0%nat -> split c s = [s].
Proof.
  induction s as [|x rest IH]; simpl; [reflexivity|].
  destruct (Ascii.eqb x c); [discriminate|].
  intros H. rewrite (IH H). reflexivity.
Qed.

Lemma split_count_1 c s : count c s = 1%nat -> split c s = [before c s; after c s].
Proof.
  induction s as [|x rest IH]; simpl; [discriminate|].
  destruct (Ascii.eqb x c).
  - intros H. injection H as H. rewrite (split_count_0 _ _ H). reflexivity.
  - intros H. rewrite (IH H). reflexivity.
Qed.

Lemma unpack2_split_1 c s :
  count c s = 1%nat -> unpack2 (split c s) = Val (before c s, after c s).
Proof. intros H. rewrite (split_count_1 _ _ H). reflexivity. Qed.

Lemma unpack2_split_other c s :
  count c s <> 1%nat -> unpack2 (split c s) = Err ValueError.
Proof.
  intros H. pose proof (length_split c s) as L.
  destruct (split c s) as [|a [|b [|x l]]]; simpl in *; try reflexivity.
  congruence.
Qed.

Lemma find_snoc {A} (f : A -> bool) l x :
  List.find f (l ++ [x]) =
  match List.find f l with
  | Some y => Some y
  | None => if f x then Some x else None
  end.
Proof.
  induction l as [|a l IH]; simpl; [reflexivity|].
  destruct (f a); [reflexivity|exact IH].
Qed.

(** On an environment that parses, the loop ends with the identity of the
    last sentinel entry, or with the values it started from. *)
Lemma env_loop_parses : forall env appid taskid,
  env_parses env = true ->
  env_loop env appid taskid =
  Val (match last_task_value env with
       | Some v => identity_of_value v
       | None => (appid, taskid)
       end).
Proof.
  induction env as [|e env IH]; intros appid taskid Hp; [reflexivity|].
  cbn [env_parses forallb] in Hp. apply andb_prop in Hp. destruct Hp as [He Hp].
  unfold entry_parses in He. apply andb_prop in He. destruct He as [Heq Hdot].
  apply Nat.eqb_eq in Heq.
  cbn [env_loop]. rewrite (unpack2_split_1 _ _ Heq). cbn [rbind fst snd].
  unfold last_task_value. cbn [List.rev]. rewrite find_snoc.
  fold (is_task_entry e). destruct (is_task_entry e) eqn:Et.
  - apply Nat.eqb_eq in Hdot. rewrite (unpack2_split_1 _ _ Hdot). cbn [rbind fst snd].
    rewrite (IH _ _ Hp). unfold last_task_value.
    destruct (List.find is_task_entry (List.rev env)); reflexivity.
  - rewrite (IH _ _ Hp). unfold last_task_value.
    destruct (List.find is_task_entry (List.rev env)); reflexivity.
Qed.

Lemma truthy_some s : truthy (Some s) = nonempty s.
Proof. destruct s; reflexivity. Qed.

Lemma nonempty_slice_to n s : nonempty (slice_to (S n) s) = nonempty s.
Proof. destruct s; reflexivity. Qed.

(** An environment that does not parse ends the loop in [ValueError]. *)
Lemma env_loop_unparseable : forall env appid taskid,
  env_parses env = false -> env_loop env appid taskid = Err ValueError.
Proof.
  induction env as [|e env IH]; intros appid taskid Hp; [discriminate|].
  cbn [env_parses forallb] in Hp. cbn [env_loop].
  destruct (Nat.eqb_spec (count "="%char e) 1) as [Heq|Hne].
  - rewrite (unpack2_split_1 _ _ Heq). cbn [rbind fst snd].
    unfold entry_parses in Hp. rewrite Heq in Hp. cbn [Nat.eqb andb] in Hp.
    fold (is_task_entry e). destruct (is_task_entry e).
    + destruct (Nat.eqb_spec (count "."%char (after "="%char e)) 1) as [Hdot|Hdot].
      * rewrite (unpack2_split_1 _ _ Hdot). cbn [rbind]. apply IH. exact Hp.
      * rewrite (unpack2_split_other _ _ Hdot). reflexivity.
    + apply IH. exact Hp.
  - rewrite (unpack2_split_other _ _ Hne). reflexivity.
Qed.

Lemma unparseable_value_not_parses env :
  has_unparseable_task_value env = true -> env_parses env = false.
Proof.
  unfold has_unparseable_task_value, env_parses.
  induction env as [|e env IH]; cbn [existsb forallb]; intros H; [discriminate|].
  apply orb_prop in H. destruct H as [H|H].
  - apply andb_prop in H. destruct H as [Ht Hd]. unfold entry_parses. rewrite Ht.
    apply negb_true_iff in Hd. rewrite Hd, andb_false_r. reflexivity.
  - rewrite (IH H). apply andb_false_r.
Qed.

(** A container without sentinel entry is skipped, the cycle goes on. *)
Lemma missing_identity_excluded d container threads s s1 details :
  _details d (Id container) s = Ok details s1 ->
  env_parses (env_of details) = true ->
  last_task_value (env_of details) = None ->
  collect_container d container threads s = Ok threads s1.
Proof.
  intros Hdet Hp Hv. unfold collect_container, bind. rewrite Hdet.
  unfold resolve_identity. rewrite (env_loop_parses _ _ _ Hp), Hv. reflexivity.
Qed.

(** A sentinel value that does not have exactly one dot ends the loop over
    the environment, and with it the loop body, in [ValueError]. *)
Lemma sentinel_without_single_dot_raises pre v post :
  env_parses pre = true ->
  count "="%char v = 0%nat ->
  count "."%char v <> 1%nat ->
  resolve_identity (pre ++ String.append "MESOS_TASK_ID=" v :: post) = Err ValueError.
Proof.
  intros Hp Heq Hdot. unfold resolve_identity.
  enough (forall appid taskid,
            env_loop (pre ++ String.append "MESOS_TASK_ID=" v :: post) appid taskid
            = Err ValueError) as H by apply H.
  induction pre as [|e pre IH]; intros appid taskid.
  - cbn [app env_loop]. cbn [String.append split Ascii.eqb Bool.eqb].
    rewrite (split_count_0 _ _ Heq). cbn [unpack2 rbind fst snd].
    cbn [String.eqb MESOS_TASK_ID Ascii.eqb Bool.eqb].
    rewrite (unpack2_split_other _ _ Hdot). reflexivity.
  - cbn [env_parses forallb] in Hp. apply andb_prop in Hp. destruct Hp as [He Hp].
    unfold entry_parses in He. apply andb_prop in He. destruct He as [He1 He2].
    apply Nat.eqb_eq in He1.
    cbn [app env_loop]. rewrite (unpack2_split_1 _ _ He1). cbn [rbind fst snd].
    fold (is_task_entry e). destruct (is_task_entry e).
    + apply Nat.eqb_eq in He2. rewrite (unpack2_split_1 _ _ He2). cbn [rbind fst snd].
      apply IH. exact Hp.
    + apply IH. exact Hp.
Qed.

End Identity.

(** ** Workers *)

Section Workers.

(** The cycle from where the loop over the containers starts. *)
Lemma collect_unfold d s :
  collect d s
  = match containers d with
    | Val cs =>
        match collect_containers d cs [] (cycle_start s) with
        | Ok threads s1 =>
            Ok (all_families (fold_left (fun acc th => run_thread d th acc) threads s1))
               (fold_left (fun acc th => run_thread d th acc) threads s1)
        | Raise e s1 =>
            Raise e (fold_left (fun acc th => run_thread d th acc)
                               (started d cs [] (cycle_start s)) s1)
        end
    | Err e => Raise e (cycle_start s)
    end.
Proof.
  unfold collect, cycle_start, bind.
  destruct (cleanup_samples s) as [[] s0|e s0] eqn:E0;
    [|exfalso; revert E0;
      unfold cleanup_samples, bind, zoom, BaseStatsCollector.cleanup_samples, modify;
      discriminate].
  unfold log_call at 1 2 3, modify. cbn [state_of].
  destruct (containers d) as [cs|e]; cbn [lift]; [|reflexivity].
  destruct (collect_containers d cs [] _) as [threads s1|e s1]; reflexivity.
Qed.

(** When the loop ends normally, the workers it has started are the threads
    it returns. *)
Lemma started_returned d : forall cs threads s threads' s',
  collect_containers d cs threads s = Ok threads' s' -> started d cs threads s = threads'.
Proof.
  induction cs as [|c cs IH]; intros threads s threads' s' H.
  - cbn in H. unfold ret in H. injection H as <- _. reflexivity.
  - cbn [collect_containers started] in *. unfold bind in H.
    destruct (collect_container d c threads s) as [threads1 s1|e s1]; [|discriminate H].
    exact (IH _ _ _ _ H).
Qed.

(** A worker whose fetch raised, or has not returned, adds no sample. *)
Lemma run_thread_without_answer d th s :
  (forall st, stats d (thread_cid th) <> Answered st) ->
  all_families (run_thread d th s) = all_families s.
Proof.
  intros H. unfold run_thread.
  destruct (stats d (thread_cid th)) as [st|e|]; [destruct (H st eq_refl)| |];
    reflexivity.
Qed.

(** Joining the workers never raises. *)
Lemma join_returns d threads s : exists s', join d threads s = Ok tt s'.
Proof. eexists. reflexivity. Qed.

End Workers.

(** ** The details cache *)

Section Lru.

Import LruCache.

Lemma find_none_keys (l : list (string * Details)) k :
  find k l = None <-> ~ In k (map fst l).
Proof.
  induction l as [|[k0 v0] l IH]; simpl.
  - tauto.
  - destruct (String.eqb_spec k k0) as [->|Hne].
    + split; [discriminate|]. intros H. exfalso. apply H. left. reflexivity.
    + rewrite IH. split.
      * intros H [H'|H']; [congruence|contradiction].
      * intros H H'. apply H. right. exact H'.
Qed.

Lemma remove_app_notin (pre rest : list (string * Details)) k :
  ~ In k (map fst pre) -> remove k (pre ++ rest) = pre ++ remove k rest.
Proof.
  induction pre as [|[k0 v0] pre IH]; simpl; intros H; [reflexivity|].
  destruct (String.eqb_spec k k0) as [->|Hne]; [exfalso; apply H; left; reflexivity|].
  f_equal. apply IH. intros H'. apply H. right. exact H'.
Qed.

Lemma length_remove_le (l : list (string * Details)) k :
  (List.length (remove k l) <= List.length l)%nat.
Proof.
  induction l as [|[k0 v0] l IH]; simpl; [lia|].
  destruct (String.eqb k k0); simpl; lia.
Qed.

Lemma length_remove_found (l : list (string * Details)) k v :
  find k l = Some v -> (List.length (remove k l) < List.length l)%nat.
Proof.
  induction l as [|[k0 v0] l IH]; simpl; [discriminate|].
  destruct (String.eqb k k0).
  - intros _. pose proof (length_remove_le l k). lia.
  - intros H. specialize (IH H). simpl. lia.
Qed.

Lemma removelast_app_nonempty {A} (pre rest : list A) :
  rest <> [] -> removelast (pre ++ rest) = pre ++ removelast rest.
Proof. intros H. apply removelast_app. exact H. Qed.

Lemma length_removelast {A} (l : list A) :
  l <> [] -> S (List.length (removelast l)) = List.length l.
Proof.
  intros H. destruct (exists_last H) as (l' & a & ->).
  rewrite removelast_last, length_app. simpl. lia.
Qed.

(** A hit: the cached value, no call on the daemon. *)
Lemma _details_hit d cid s v :
  cached cid s = Some v ->
  _details d cid s = Ok v (with_cache (touch cid v (details_cache s)) s).
Proof.
  unfold cached, _details, wrapper. intros H. rewrite H. reflexivity.
Qed.

(** A miss that the daemon answers. *)
Lemma _details_miss d cid s v :
  cached cid s = None ->
  inspect_container d cid = Val v ->
  _details d cid s =
  Ok v (mkCollector (network s) (memory s) (cpu s)
                    (store cid v (count_miss (details_cache s)))
                    (api_log s ++ [CallInspect cid])).
Proof.
  unfold cached, _details, wrapper. intros H Hv. rewrite H.
  unfold _details_body, bind, log_call, modify, lift. cbn. rewrite Hv. reflexivity.
Qed.

(** One answered lookup keeps the bounds of the cache and puts the key in
    front of the entries that were in front before. *)
Lemma _details_front d cid s pre rest :
  cache_bounded s = true ->
  answers d cid = true ->
  entries (details_cache s) = pre ++ rest ->
  ~ In cid (map fst pre) ->
  (List.length pre < 32)%nat ->
  exists v s' rest',
    _details d cid s = Ok v s' /\
    cache_bounded s' = true /\
    entries (details_cache s') = (cid, v) :: pre ++ rest'.
Proof.
  intros Hb Ha He Hpre Hlen.
  unfold cache_bounded in Hb. apply andb_prop in Hb. destruct Hb as [Hmax Hsize].
  apply Nat.eqb_eq in Hmax. apply Nat.leb_le in Hsize.
  unfold answers in Ha. destruct (inspect_container d cid) as [v0|] eqn:Ev; [|discriminate].
  destruct (cached cid s) as [v|] eqn:Ec.
  - exists v, (with_cache (touch cid v (details_cache s)) s), (remove cid rest).
    split; [apply _details_hit; exact Ec|]. split.
    + unfold cache_bounded. cbn. rewrite Hmax. cbn.
      apply Nat.leb_le. pose proof (length_remove_found _ _ _ Ec). lia.
    + cbn. rewrite He, remove_app_notin by exact Hpre. reflexivity.
  - rewrite (_details_miss _ _ _ _ Ec Ev).
    unfold cached in Ec. unfold store. cbn [entries count_miss hits misses maxsize].
    rewrite Ec. rewrite Hmax.
    destruct (Nat.ltb_spec (List.length (entries (details_cache s))) 32) as [Hlt|Hge].
    + exists v0. eexists. exists rest. split; [reflexivity|]. split.
      * unfold cache_bounded. cbn. apply Nat.leb_le. lia.
      * cbn. rewrite He. reflexivity.
    + assert (rest <> []) as Hrest.
      { intros ->. rewrite He, app_nil_r in Hge. lia. }
      exists v0. eexists. exists (removelast rest). split; [reflexivity|]. split.
      * unfold cache_bounded. cbn. apply Nat.leb_le.
        assert (entries (details_cache s) <> []) as Hne
          by (rewrite He; intros H; apply app_eq_nil in H; tauto).
        pose proof (length_removelast _ Hne). lia.
      * cbn. rewrite He, removelast_app_nonempty by exact Hrest. reflexivity.
Qed.

Lemma find_remove_other (l : list (string * Details)) k cid :
  String.eqb k cid = false -> find k (remove cid l) = find k l.
Proof.
  intros Hk. induction l as [|[k0 v0] l IH]; simpl; [reflexivity|].
  destruct (String.eqb_spec cid k0) as [->|Hne].
  - rewrite Hk. exact IH.
  - simpl. rewrite IH. reflexivity.
Qed.

Lemma find_removelast (l : list (string * Details)) k v :
  find k (removelast l) = Some v -> find k l = Some v.
Proof.
  induction l as [|[k0 v0] l IH]; [discriminate|].
  destruct l as [|kv l']; [discriminate|].
  change (removelast ((k0, v0) :: kv :: l')) with ((k0, v0) :: removelast (kv :: l')).
  cbn [find]. destruct (String.eqb k k0); [auto|exact IH].
Qed.

(** A lookup on a coherent cache raises, or returns what the daemon answers
    and leaves the cache coherent. *)
Lemma _details_coherent d cid s :
  cache_coherent d s ->
  (exists e s', _details d cid s = Raise e s') \/
  (exists v s', _details d cid s = Ok v s' /\
                inspect_container d cid = Val v /\ cache_coherent d s').
Proof.
  intros Hc. destruct (cached cid s) as [v|] eqn:Ec.
  - right. exists v. eexists. split; [apply (_details_hit _ _ _ _ Ec)|].
    split; [apply Hc; exact Ec|].
    intros k w. unfold cached. cbn [details_cache with_cache touch entries find].
    destruct (String.eqb_spec k cid) as [->|Hne].
    + intros H. injection H as <-. apply Hc. exact Ec.
    + rewrite find_remove_other by (apply String.eqb_neq; exact Hne). apply Hc.
  - destruct (inspect_container d cid) as [v|e] eqn:Ev.
    + right. exists v. eexists. split; [apply (_details_miss _ _ _ _ Ec Ev)|].
      split; [reflexivity|].
      intros k w. unfold cached. cbn [details_cache].
      unfold cached in Ec. unfold store. cbn [entries count_miss hits misses maxsize].
      rewrite Ec.
      destruct (Nat.ltb _ _); cbn [entries find];
        (destruct (String.eqb_spec k cid) as [->|Hne];
         [intros H; injection H as <-; exact Ev|]).
      * apply Hc.
      * intros H. apply (Hc k w). apply find_removelast. exact H.
    + left. unfold _details, wrapper. unfold cached in Ec. rewrite Ec.
      unfold _details_body, bind, log_call, modify, lift. cbn. rewrite Ev.
      eexists. eexists. reflexivity.
Qed.

(** The loop body on a coherent cache raises, or returns with the cache
    still coherent. *)
Lemma collect_container_coherent d c threads s :
  cache_coherent d s ->
  (exists e s', collect_container d c threads s = Raise e s') \/
  (exists threads' s', collect_container d c threads s = Ok threads' s' /\
                       cache_coherent d s').
Proof.
  intros Hc. unfold collect_container, bind.
  destruct (_details_coherent d (Id c) s Hc) as [(e & s' & ->)|(v & s' & -> & _ & Hc')].
  - left. eauto.
  - destruct (resolve_identity (env_of v)) as [[appid taskid]|e]; cbn [lift fst snd].
    + right. destruct (truthy appid && truthy taskid); [destruct appid, taskid|];
        eexists; eexists; (split; [reflexivity|exact Hc']).
    + left. eauto.
Qed.

(** The loop over the containers does not get past a container whose
    identity cannot be parsed. *)
Lemma collect_containers_unparseable d c details : forall cs threads s,
  cache_coherent d s ->
  In c cs ->
  inspect_container d (Id c) = Val details ->
  has_unparseable_task_value (env_of details) = true ->
  exists e s', collect_containers d cs threads s = Raise e s'.
Proof.
  intros cs. induction cs as [|c0 cs IH]; intros threads s Hc Hin Hd Hu; [destruct Hin|].
  cbn [collect_containers]. unfold bind at 1.
  destruct Hin as [->|Hin].
  - unfold collect_container, bind.
    destruct (_details_coherent d (Id c) s Hc) as [(e & s' & ->)|(v & s' & -> & Hv & _)];
      [eauto|].
    rewrite Hd in Hv. injection Hv as <-.
    unfold resolve_identity.
    rewrite (env_loop_unparseable _ _ _ (unparseable_value_not_parses _ Hu)).
    cbn [lift]. eauto.
  - destruct (collect_container_coherent d c0 threads s Hc)
      as [(e & s' & ->)|(threads' & s' & -> & Hc')]; [eauto|].
    apply (IH threads' s' Hc' Hin Hd Hu).
Qed.

Lemma distinct_cons x l :
  distinct (x :: l) = true -> ~ In x l /\ distinct l = true.
Proof.
  cbn [distinct]. intros H. apply andb_prop in H. destruct H as [Hx Hl].
  split; [|exact Hl]. intros Hin. apply negb_true_iff in Hx.
  assert (existsb (String.eqb x) l = true) as E
    by (apply existsb_exists; exists x; split; [exact Hin|apply String.eqb_refl]).
  congruence.
Qed.

(** Lookups of distinct keys that fit in the cache end up in front of it,
    the latest first. *)
Lemma lookups_front d : forall cids s pre rest,
  cache_bounded s = true ->
  forallb (answers d) cids = true ->
  distinct cids = true ->
  entries (details_cache s) = pre ++ rest ->
  (forall k, In k cids -> ~ In k (map fst pre)) ->
  (List.length pre + List.length cids <= 32)%nat ->
  exists s' rest',
    lookups d cids s = Ok tt s' /\
    cache_bounded s' = true /\
    map fst (entries (details_cache s')) = List.rev cids ++ map fst pre ++ rest'.
Proof.
  induction cids as [|cid cids IH]; intros s pre rest Hb Ha Hd He Hpre Hlen.
  - exists s, (map fst rest). split; [reflexivity|]. split; [exact Hb|].
    rewrite He, map_app. reflexivity.
  - cbn [forallb] in Ha. apply andb_prop in Ha. destruct Ha as [Ha1 Ha].
    apply distinct_cons in Hd. destruct Hd as [Hnotin Hd].
    cbn [List.length] in Hlen.
    destruct (_details_front d cid s pre rest Hb Ha1 He) as (v & s1 & rest1 & Hrun & Hb1 & He1).
    { apply Hpre. left. reflexivity. }
    { lia. }
    destruct (IH s1 ((cid, v) :: pre) rest1 Hb1 Ha Hd He1) as (s' & rest' & Hrun' & Hb' & He').
    { intros k Hk [Heq|Hin].
      - cbn in Heq. subst k. contradiction.
      - apply (Hpre k); [right; exact Hk|exact Hin]. }
    { cbn [List.length]. lia. }
    exists s', rest'. split; [|split; [exact Hb'|]].
    + unfold lookups. cbn [for_each]. unfold bind at 1. unfold bind at 1.
      rewrite Hrun. cbn [ret]. exact Hrun'.
    + rewrite He'. cbn [map fst List.rev]. rewrite <- app_assoc. reflexivity.
Qed.

End Lru.

(** ** The cache statistics collector *)

Section CacheStats.

Import LruCache.

(** From four families with [n] samples each, the calls return the families
    with [n + 1], [n + 2], ... samples each. *)
Lemma cache_collect_each_counts : forall infos n m1 m2 m3 m4,
  List.length (samples m1) = n -> List.length (samples m2) = n ->
  List.length (samples m3) = n -> List.length (samples m4) = n ->
  unlabelled m1 -> unlabelled m2 -> unlabelled m3 -> unlabelled m4 ->
  exists results st',
    cache_collect_each infos
      [("exporter_details_cache_hits_total", m1);
       ("exporter_details_cache_misses_total", m2);
       ("exporter_details_cache_max_size", m3);
       ("exporter_details_cache_current_size", m4)]
    = Ok results st' /\
    map sample_counts results
    = map (fun k => [k; k; k; k]) (seq (S n) (List.length infos)) /\
    Forall (Forall unlabelled) results.
Proof.
  induction infos as [|info infos IH]; intros n m1 m2 m3 m4 L1 L2 L3 L4 U1 U2 U3 U4.
  - eexists. eexists. split; [reflexivity|]. split; [reflexivity|constructor].
  - assert (forall m x, List.length (samples m) = n ->
              List.length (samples (add_metric [] x m)) = S n) as Hlen
      by (intros m x H; cbn; rewrite length_app, H; cbn; lia).
    assert (forall m x, unlabelled m -> unlabelled (add_metric [] x m)) as Hlab
      by (intros m x H; unfold unlabelled; cbn; apply Forall_app; split;
          [exact H|repeat constructor]).
    destruct (IH (S n)
                (add_metric [] (Int (info_hits info)) m1)
                (add_metric [] (Int (info_misses info)) m2)
                (add_metric [] (Int (info_maxsize info)) m3)
                (add_metric [] (Int (info_currsize info)) m4))
      as (results & st' & Hrun & Hcounts & Hlabels); auto.
    exists ([add_metric [] (Int (info_hits info)) m1;
             add_metric [] (Int (info_misses info)) m2;
             add_metric [] (Int (info_maxsize info)) m3;
             add_metric [] (Int (info_currsize info)) m4] :: results), st'.
    split; [|split].
    + cbn [cache_collect_each]. unfold bind at 1.
      change (LRUCacheStatsCollector.collect (Val info)
                [("exporter_details_cache_hits_total", m1);
                 ("exporter_details_cache_misses_total", m2);
                 ("exporter_details_cache_max_size", m3);
                 ("exporter_details_cache_current_size", m4)])
        with (Ok [add_metric [] (Int (info_hits info)) m1;
                  add_metric [] (Int (info_misses info)) m2;
                  add_metric [] (Int (info_maxsize info)) m3;
                  add_metric [] (Int (info_currsize info)) m4]
                 [("exporter_details_cache_hits_total",
                   add_metric [] (Int (info_hits info)) m1);
                  ("exporter_details_cache_misses_total",
                   add_metric [] (Int (info_misses info)) m2);
                  ("exporter_details_cache_max_size",
                   add_metric [] (Int (info_maxsize info)) m3);
                  ("exporter_details_cache_current_size",
                   add_metric [] (Int (info_currsize info)) m4)]).
      unfold bind at 1. rewrite Hrun. reflexivity.
    + cbn [map List.length seq sample_counts]. rewrite !Hlen by assumption.
      f_equal. exact Hcounts.
    + constructor; [|exact Hlabels]. repeat constructor; apply Hlab; assumption.
Qed.

End CacheStats.

(** * The claims *)

Section Claims.

Import LruCache.

(** C1, as stated, fails on the code: with two sentinel entries the loop
    keeps the identity of the last one, not of the first; and a sentinel
    value with a second dot is not cut at its first dot, the unpacking of
    the split raises [ValueError]. *)
Lemma identity_not_first_entry_nor_first_dot :
  (first_task_value ["MESOS_TASK_ID=a.b"; "MESOS_TASK_ID=c.d"] = Some "a.b" /\
   resolve_identity ["MESOS_TASK_ID=a.b"; "MESOS_TASK_ID=c.d"]
   <> Val (identity_of_value "a.b")) /\
  (first_task_value ["MESOS_TASK_ID=my.app.abcdefgh1234"] = Some "my.app.abcdefgh1234" /\
   identity_of_value "my.app.abcdefgh1234" = (Some "my", Some "app.abcd") /\
   resolve_identity ["MESOS_TASK_ID=my.app.abcdefgh1234"] = Err ValueError).
Proof.
  repeat split; try reflexivity. vm_compute. discriminate.
Qed.

(** C1, amended: when every environment entry has exactly one [=] and every
    [MESOS_TASK_ID] value exactly one [.], the resolved identity is that of
    the last [MESOS_TASK_ID] entry: appId is the part of its value before
    the dot, taskId the first 8 characters of the part after it; in
    particular the value [myapp.abcdefgh1234] resolves to appId [myapp],
    taskId [abcdefgh]. *)
Theorem resolve_identity_last_entry (env : list string) (v : string) :
  env_parses env = true ->
  last_task_value env = Some v ->
  resolve_identity env
  = Val (Some (before "."%char v), Some (slice_to 8 (after "."%char v))) /\
  (v = "myapp.abcdefgh1234" ->
   resolve_identity env = Val (Some "myapp", Some "abcdefgh")).
Proof.
  intros Hp Hv.
  assert (resolve_identity env = Val (identity_of_value v)) as H.
  { unfold resolve_identity. rewrite (env_loop_parses _ _ _ Hp), Hv. reflexivity. }
  split; [exact H|]. intros ->. exact H.
Qed.

Lemma resolve_identity_last_entry_witness :
  resolve_identity ["PATH=/bin"; "MESOS_TASK_ID=old.12345678"; "MESOS_TASK_ID=myapp.abcdefgh1234"; "HOME=/root"]
  = Val (Some "myapp", Some "abcdefgh").
Proof.
  apply (resolve_identity_last_entry
           ["PATH=/bin"; "MESOS_TASK_ID=old.12345678"; "MESOS_TASK_ID=myapp.abcdefgh1234"; "HOME=/root"]
           "myapp.abcdefgh1234"); reflexivity.
Defined.

(** C2: a cycle that discovers a container whose [MESOS_TASK_ID] value does
    not split at one dot into appId and taskId does not succeed: [collect]
    ends in an exception, for every container of the cycle.  (The cache is
    taken to hold what the daemon answers, as it does after any lookups.) *)
Theorem unparseable_identity_fails_cycle (d : Daemon) (s : DockerStatsCollector.t)
    (cs : list Container) (c : Container) (details : Details) :
  cache_coherent d s ->
  containers d = Val cs ->
  In c cs ->
  inspect_container d (Id c) = Val details ->
  has_unparseable_task_value (env_of details) = true ->
  exists e s', collect d s = Raise e s'.
Proof.
  intros Hc Hcs Hin Hd Hu. rewrite collect_unfold, Hcs.
  destruct (collect_containers_unparseable d c details cs [] (cycle_start s))
    as (e & s' & ->); [exact Hc|exact Hin|exact Hd|exact Hu|eauto].
Qed.

Lemma unparseable_identity_fails_cycle_witness :
  exists s', collect daemon_with_unparseable __init__ = Raise ValueError s'.
Proof.
  destruct (unparseable_identity_fails_cycle daemon_with_unparseable __init__
              [mkContainer "good"; mkContainer "bad"] (mkContainer "bad")
              (details_with_env ["PATH=/bin"; "MESOS_TASK_ID=nodot"]))
    as (e & s' & H).
  - intros cid v Hcached. discriminate Hcached.
  - reflexivity.
  - right. left. reflexivity.
  - reflexivity.
  - reflexivity.
  - exists s'. rewrite H. f_equal.
    assert (Raise e s' = collect daemon_with_unparseable __init__) as H' by (symmetry; exact H).
    vm_compute in H'. congruence.
Defined.

(** C3, as stated for every raw stats document, fails where the two system
    readings are equal: [add_container] raises [ZeroDivisionError] and the
    percentage family receives no sample. *)
Lemma cpu_percent_no_sample_on_equal_system_usage :
  exists st',
    CPUStatsCollector.add_container "myapp" "abcdefgh"
      (example_stats 2000 1000 500000 500000 [500; 500; 500; 500])
      (constructed CPUStatsCollector.__init__)
    = Raise ZeroDivisionError st' /\
    samples_of "container_cpu_usage_percent" st' = [].
Proof. eexists. split; vm_compute; reflexivity. Qed.

(** C3, amended: for every raw stats document with 64-bit counters whose
    two system readings differ, [CPUStatsCollector.add_container] appends to
    [container_cpu_usage_percent] one sample, labelled (appid, taskid), whose
    value is (cpuDelta / sysDelta) * numCores * 100 in binary64 arithmetic;
    in particular for total usages 2000 and 1000, system usages 500000 and
    490000 and 4 cores the value is 40.0. *)
Theorem cpu_usage_percent_sample (appid taskid : string) (stats : RawStats)
    (st : BaseStatsCollector.t) :
  cpu_families_defined st = true ->
  cpu_counters_in_range stats = true ->
  CPUStatsCollector.sys_delta stats <> 0 ->
  let percent :=
    float_mul
      (float_mul (SFdiv prec emax (exact (CPUStatsCollector.cpu_delta stats))
                                  (exact (CPUStatsCollector.sys_delta stats)))
                 (float_of (CPUStatsCollector.num_cores stats)))
      (float_of 100) in
  (exists st',
     CPUStatsCollector.add_container appid taskid stats st = Ok tt st' /\
     samples_of "container_cpu_usage_percent" st'
     = samples_of "container_cpu_usage_percent" st
       ++ [mkSample [appid; taskid] (Float percent)]) /\
  (total_usage (cpu_usage (cpu_stats stats)) = 2000 ->
   total_usage (cpu_usage (precpu_stats stats)) = 1000 ->
   system_cpu_usage (cpu_stats stats) = 500000 ->
   system_cpu_usage (precpu_stats stats) = 490000 ->
   CPUStatsCollector.num_cores stats = 4 ->
   percent = float_of 40).
Proof.
  intros Hdef Hrange Hsys percent. split.
  - destruct (cpu_add_container_prefix appid taskid stats st Hdef Hrange)
      as (st4 & Hframe & Hrun).
    destruct (cpu_families_defined_each _ Hdef) as (_ & _ & _ & _ & D5).
    destruct (defined_get _ _ D5) as [m Em].
    rewrite Hrun. unfold bind.
    rewrite (cpu_percent_value _ Hrange Hsys). cbn [lift].
    fold percent. rewrite <- Hframe in Em.
    rewrite (stat_add_metric_ok _ _ _ _ _ Em).
    eexists. split; [reflexivity|].
    fold USAGE_PERCENT. rewrite samples_of_dict_set, String.eqb_refl.
    unfold samples_of. rewrite <- Hframe, Em. reflexivity.
  - intros H1 H2 H3 H4 H5. unfold percent, CPUStatsCollector.cpu_delta,
      CPUStatsCollector.sys_delta. rewrite H1, H2, H3, H4, H5. vm_compute. reflexivity.
Qed.

Lemma cpu_usage_percent_sample_witness :
  exists st',
    CPUStatsCollector.add_container "myapp" "abcdefgh"
      (example_stats 2000 1000 500000 490000 [500; 500; 500; 500])
      (constructed CPUStatsCollector.__init__)
    = Ok tt st' /\
    samples_of "container_cpu_usage_percent" st'
    = [mkSample ["myapp"; "abcdefgh"] (Float (float_of 40))].
Proof.
  destruct (cpu_usage_percent_sample "myapp" "abcdefgh"
              (example_stats 2000 1000 500000 490000 [500; 500; 500; 500])
              (constructed CPUStatsCollector.__init__))
    as [(st' & Hrun & Hs) Hval].
  - reflexivity.
  - reflexivity.
  - vm_compute. discriminate.
  - exists st'. split; [exact Hrun|].
    rewrite Hs, Hval by reflexivity. reflexivity.
Defined.

(** C4: for every raw stats document whose two system readings are equal,
    the percentage derivation divides by zero: it raises
    [ZeroDivisionError], there is no guard, [add_container] ends in an
    exception and the percentage family receives no sample.  With the
    families defined and 64-bit counters the exception that leaves
    [add_container] is that [ZeroDivisionError]. *)
Theorem cpu_percent_unguarded_division (appid taskid : string) (stats : RawStats)
    (st : BaseStatsCollector.t) :
  system_cpu_usage (cpu_stats stats) = system_cpu_usage (precpu_stats stats) ->
  CPUStatsCollector.cpu_percent stats = Err ZeroDivisionError /\
  exists e st',
    CPUStatsCollector.add_container appid taskid stats st = Raise e st' /\
    samples_of "container_cpu_usage_percent" st'
    = samples_of "container_cpu_usage_percent" st /\
    (cpu_families_defined st = true -> cpu_counters_in_range stats = true ->
     e = ZeroDivisionError).
Proof.
  intros Heq.
  assert (CPUStatsCollector.sys_delta stats = 0) as Hsys
    by (unfold CPUStatsCollector.sys_delta; lia).
  pose proof (cpu_percent_zero stats Hsys) as Hzero.
  split; [exact Hzero|].
  assert (raises_preserving USAGE_PERCENT
            (CPUStatsCollector.add_container appid taskid stats)) as Hraise.
  { unfold CPUStatsCollector.add_container.
    repeat (apply raises_preserving_bind;
            [first [apply preserves_stat_add_metric; reflexivity
                   |apply preserves_percpu_loop; reflexivity]
            |intros _]).
    intros s. unfold bind. rewrite Hzero. exists ZeroDivisionError, s.
    split; reflexivity. }
  destruct (Hraise st) as (e & st' & Hrun & Hk).
  exists e, st'. split; [exact Hrun|]. split.
  - unfold samples_of. fold USAGE_PERCENT. rewrite Hk. reflexivity.
  - intros Hdef Hrange.
    destruct (cpu_add_container_prefix appid taskid stats st Hdef Hrange)
      as (st4 & _ & Hrun4).
    rewrite Hrun4 in Hrun. unfold bind in Hrun. rewrite Hzero in Hrun.
    cbn [lift] in Hrun. congruence.
Qed.

Lemma cpu_percent_unguarded_division_witness :
  exists st',
    CPUStatsCollector.add_container "myapp" "abcdefgh"
      (example_stats 2000 1000 500000 500000 [500; 500; 500; 500])
      (constructed CPUStatsCollector.__init__)
    = Raise ZeroDivisionError st' /\
    samples_of "container_cpu_usage_percent" st' = [].
Proof.
  destruct (cpu_percent_unguarded_division "myapp" "abcdefgh"
              (example_stats 2000 1000 500000 500000 [500; 500; 500; 500])
              (constructed CPUStatsCollector.__init__) eq_refl)
    as (_ & e & st' & Hrun & Hs & He).
  exists st'. rewrite <- (He eq_refl eq_refl). split; [exact Hrun|exact Hs].
Defined.

(** C5: with capacity 32, after 33 lookups of distinct container
    identifiers that the daemon answers, the first of them is no longer
    cached; looking it up again is a miss, which adds one to the miss
    counter, leaves the hit counter alone and calls [inspect_container].  A
    lookup of a cached identifier returns the cached details, adds one to
    the hit counter and makes no call on the daemon. *)
Theorem details_cache_evicts_least_recent (d : Daemon) (first : string)
    (others : list string) (s : DockerStatsCollector.t) :
  cache_bounded s = true ->
  List.length (first :: others) = 33%nat ->
  distinct (first :: others) = true ->
  forallb (answers d) (first :: others) = true ->
  (exists s33,
     lookups d (first :: others) s = Ok tt s33 /\
     cached first s33 = None /\
     exists v s34,
       _details d first s33 = Ok v s34 /\
       inspect_container d first = Val v /\
       misses (details_cache s34) = misses (details_cache s33) + 1 /\
       hits (details_cache s34) = hits (details_cache s33) /\
       api_log s34 = api_log s33 ++ [CallInspect first]) /\
  (forall s0 cid v,
     cached cid s0 = Some v ->
     exists s1,
       _details d cid s0 = Ok v s1 /\
       api_log s1 = api_log s0 /\
       hits (details_cache s1) = hits (details_cache s0) + 1 /\
       misses (details_cache s1) = misses (details_cache s0)).
Proof.
  intros Hb Hlen Hd Ha. split.
  - cbn [forallb] in Ha. apply andb_prop in Ha. destruct Ha as [Ha1 Ha].
    pose proof (distinct_cons _ _ Hd) as [Hnotin Hd'].
    cbn [List.length] in Hlen.
    destruct (_details_front d first s [] (entries (details_cache s)) Hb Ha1 eq_refl)
      as (v1 & s1 & rest1 & Hrun1 & Hb1 & He1).
    { intros []. }
    { cbn. lia. }
    destruct (lookups_front d others s1 [] (entries (details_cache s1)) Hb1 Ha Hd' eq_refl)
      as (s33 & rest' & Hrun & Hb33 & Hkeys).
    { intros k _ []. }
    { cbn [List.length]. lia. }
    cbn [map app] in Hkeys.
    assert (rest' = []) as ->.
    { unfold cache_bounded in Hb33. apply andb_prop in Hb33. destruct Hb33 as [_ Hsize].
      apply Nat.leb_le in Hsize.
      assert (List.length (map fst (entries (details_cache s33)))
              = (List.length others + List.length rest')%nat) as L
        by (rewrite Hkeys, length_app, length_rev; reflexivity).
      rewrite length_map in L. destruct rest'; [reflexivity|]. cbn [List.length] in L. lia. }
    rewrite app_nil_r in Hkeys.
    assert (cached first s33 = None) as Hgone.
    { unfold cached. apply find_none_keys. rewrite Hkeys, <- in_rev. exact Hnotin. }
    exists s33. split; [|split; [exact Hgone|]].
    + unfold lookups. cbn [for_each]. unfold bind at 1. unfold bind at 1.
      rewrite Hrun1. cbn [ret]. exact Hrun.
    + unfold answers in Ha1.
      destruct (inspect_container d first) as [v|] eqn:Ev; [|discriminate].
      exists v. eexists. split; [apply (_details_miss _ _ _ _ Hgone Ev)|].
      split; [reflexivity|]. cbn [details_cache api_log].
      unfold cached in Hgone. unfold store. cbn [entries count_miss hits misses maxsize].
      rewrite Hgone.
      destruct (Nat.ltb _ _); cbn [hits misses]; auto.
  - intros s0 cid v Hc. eexists. split; [apply (_details_hit _ _ _ _ Hc)|].
    cbn. auto.
Qed.

Lemma details_cache_evicts_least_recent_witness :
  exists s33,
    lookups answering_daemon (cids_from 0 33) __init__ = Ok tt s33 /\
    cached "c00" s33 = None /\
    exists v s34,
      _details answering_daemon "c00" s33 = Ok v s34 /\
      misses (details_cache s34) = 34 /\
      hits (details_cache s34) = 0.
Proof.
  destruct (details_cache_evicts_least_recent answering_daemon "c00" (cids_from 1 32) __init__
              eq_refl eq_refl eq_refl eq_refl)
    as [(s33 & Hrun & Hgone & v & s34 & Hagain & _ & Hmiss & Hhit & _) _].
  exists s33. split; [exact Hrun|]. split; [exact Hgone|].
  exists v, s34. split; [exact Hagain|].
  assert (state_of (lookups answering_daemon (cids_from 0 33) __init__) = s33) as Hs
    by (change (cids_from 0 33) with ("c00" :: cids_from 1 32); rewrite Hrun; reflexivity).
  rewrite Hmiss, Hhit, <- Hs. split; vm_compute; reflexivity.
Defined.

(** C6: [LRUCacheStatsCollector.collect] never clears its families.  Over
    successive calls on a constructed collector the first call returns the
    four families with one sample each, the second with two, the n-th with
    n samples each; every sample has an empty label list. *)
Theorem cache_stats_samples_accumulate (infos : list CacheInfo) :
  exists results st',
    cache_collect_each infos (constructed LRUCacheStatsCollector.__init__)
    = Ok results st' /\
    map sample_counts results = map (fun n => [n; n; n; n]) (seq 1 (List.length infos)) /\
    Forall (Forall unlabelled) results.
Proof.
  exact (cache_collect_each_counts infos 0
           (new_family CounterMetricFamily "exporter_details_cache_hits_total"
                       (Some "Cumulative cache hits.") None)
           (new_family CounterMetricFamily "exporter_details_cache_misses_total"
                       (Some "Cumulative cache misses.") None)
           (new_family GaugeMetricFamily "exporter_details_cache_max_size"
                       (Some "Maximum size of the cache.") None)
           (new_family GaugeMetricFamily "exporter_details_cache_current_size"
                       (Some "Current cache utilization.") None)
           eq_refl eq_refl eq_refl eq_refl
           (Forall_nil _) (Forall_nil _) (Forall_nil _) (Forall_nil _)).
Qed.

(** C7: [cleanup_samples] empties the sample list of every family of a
    registry and leaves the keys and the definitions of the families as
    they were; a [collect] cycle that discovers no container returns every
    family the three sub-collectors define, with no sample, whatever was
    collected before, and so does every one of a series of such cycles. *)
Theorem empty_cycle_keeps_families (ds : list Daemon) (s : DockerStatsCollector.t)
    (st : BaseStatsCollector.t) :
  forallb no_containers ds = true ->
  (exists st',
     BaseStatsCollector.cleanup_samples st = Ok tt st' /\
     keys st' = keys st /\
     map definition (values st') = map definition (values st) /\
     forallb no_samples (values st') = true) /\
  (exists results s',
     collect_cycles ds s = Ok results s' /\
     List.length results = List.length ds /\
     Forall (fun fams =>
               map definition fams = map definition (all_families s) /\
               forallb no_samples fams = true) results).
Proof.
  intros Hds. split.
  - eexists. split; [reflexivity|]. unfold keys, values.
    rewrite !map_map. cbn [fst snd]. repeat split.
    induction st as [|[k m] st IH]; [reflexivity|exact IH].
  - revert s Hds. induction ds as [|d ds IH]; intros s Hds.
    + exists [], s. repeat split. constructor.
    + cbn [forallb] in Hds. apply andb_prop in Hds. destruct Hds as [Hd Hds].
      unfold no_containers in Hd.
      destruct (containers d) as [[|c cs]|e] eqn:Ec; try discriminate.
      assert (exists s1,
                collect d s = Ok (map clear_samples (all_families s)) s1 /\
                all_families s1 = map clear_samples (all_families s))
        as (s1 & Hrun & Hfam).
      { pose (cl := fun kv : string * Metric => (fst kv, clear_samples (snd kv))).
        exists (mkCollector (map cl (network s)) (map cl (memory s)) (map cl (cpu s))
                            (details_cache s) (api_log s ++ [CallContainers])).
        split.
        - unfold collect, bind, cleanup_samples, zoom, log_call, modify, lift,
            BaseStatsCollector.cleanup_samples, bind. cbn. rewrite Ec. cbn.
          unfold export, all_families, values. cbn [network memory cpu].
          rewrite !map_app, !map_map. reflexivity.
        - unfold all_families, values. cbn [network memory cpu].
          rewrite !map_app, !map_map. reflexivity. }
      destruct (IH s1 Hds) as (results & s' & Hrest & Hlen & Hall).
      exists (map clear_samples (all_families s) :: results), s'.
      cbn [collect_cycles]. unfold bind at 1. rewrite Hrun.
      unfold bind at 1. rewrite Hrest. split; [reflexivity|].
      split; [cbn [List.length]; congruence|].
      assert (map definition (map clear_samples (all_families s))
              = map definition (all_families s)) as Hdef
        by (rewrite map_map; reflexivity).
      constructor.
      * split; [exact Hdef|]. apply forallb_forall. intros m Hin.
        apply in_map_iff in Hin. destruct Hin as (m0 & <- & _). reflexivity.
      * rewrite Hfam, Hdef in Hall. exact Hall.
Qed.

Lemma empty_cycle_keeps_families_witness :
  exists results s',
    collect_cycles [idle_daemon; idle_daemon; idle_daemon]
      (state_of (collect (daemon_with_env ["MESOS_TASK_ID=myapp.abcdefgh1234"]) __init__))
    = Ok results s' /\
    List.length results = 3%nat /\
    Forall (fun fams =>
              map definition fams = map definition (all_families __init__) /\
              forallb no_samples fams = true) results.
Proof.
  exact (proj2 (empty_cycle_keeps_families [idle_daemon; idle_daemon; idle_daemon]
           (state_of (collect (daemon_with_env ["MESOS_TASK_ID=myapp.abcdefgh1234"]) __init__))
           (constructed CPUStatsCollector.__init__) eq_refl)).
Defined.

(** C8, as stated, fails on the code: defining a gauge under the identifier
    of an existing counter raises nothing; the call returns and the counter,
    with the sample it had, is gone. *)
Lemma add_gauge_on_defined_id_does_not_fail :
  let st :=
    dict_set "requests_total"
      (add_metric ["a"] (Int 7)
         (new_family CounterMetricFamily "requests_total" (Some "first") (Some ["path"])))
      BaseStatsCollector.init in
  defined "requests_total" st = true /\
  add_gauge "requests_total" (Some "second") None st
  = Ok tt [("requests_total",
            new_family GaugeMetricFamily "requests_total" (Some "second") None)] /\
  ~ (exists e st', add_gauge "requests_total" (Some "second") None st = Raise e st').
Proof.
  repeat split; try reflexivity. intros (e & st' & H). discriminate H.
Qed.

(** C8, amended: on a registry in which a family with identifier [stat_id]
    is defined, [add_counter] and [add_gauge] with the same identifier
    return normally and replace that family by a new one of the given kind,
    description and label names, without samples; the place of the
    identifier among the keys and every other family stay as they were. *)
Theorem add_stat_replaces_defined_family (st : BaseStatsCollector.t) (stat_id : string)
    (desc : option string) (labels : option (list string)) :
  defined stat_id st = true ->
  (exists st',
     add_counter stat_id desc labels st = Ok tt st' /\
     dict_get stat_id st' = Some (new_family CounterMetricFamily stat_id desc labels) /\
     keys st' = keys st /\
     (forall k, String.eqb k stat_id = false -> dict_get k st' = dict_get k st)) /\
  (exists st',
     add_gauge stat_id desc labels st = Ok tt st' /\
     dict_get stat_id st' = Some (new_family GaugeMetricFamily stat_id desc labels) /\
     keys st' = keys st /\
     (forall k, String.eqb k stat_id = false -> dict_get k st' = dict_get k st)).
Proof.
  intros Hdef.
  split; apply add_stat_replaces; exact Hdef.
Qed.

Lemma add_stat_replaces_defined_family_witness :
  exists st',
    add_gauge "container_cpu_usage_percent" (Some "again") None
      (constructed CPUStatsCollector.__init__) = Ok tt st' /\
    dict_get "container_cpu_usage_percent" st'
    = Some (new_family GaugeMetricFamily "container_cpu_usage_percent" (Some "again") None) /\
    keys st' = keys (constructed CPUStatsCollector.__init__).
Proof.
  destruct (add_stat_replaces_defined_family (constructed CPUStatsCollector.__init__)
              "container_cpu_usage_percent" (Some "again") None eq_refl)
    as [_ (st' & Hrun & Hget & Hkeys & _)].
  exists st'. split; [exact Hrun|]. split; [exact Hget|exact Hkeys].
Defined.

(** C10: once the details of a container are resolved and its environment
    parses, a [MESOS_TASK_ID] value with nothing before its dot, or nothing
    after it, makes the loop body skip the container: it returns normally
    with the list of started workers unchanged.  A worker is started only
    when both parts are non-empty strings. *)
Theorem empty_identity_part_excluded (d : Daemon) (container : Container)
    (threads : list Thread) (s s1 : DockerStatsCollector.t) (details : Details)
    (v : string) :
  _details d (Id container) s = Ok details s1 ->
  env_parses (env_of details) = true ->
  last_task_value (env_of details) = Some v ->
  (before "."%char v = "" \/ after "."%char v = "" ->
   collect_container d container threads s = Ok threads s1) /\
  (forall threads',
     collect_container d container threads s = Ok threads' s1 ->
     threads' <> threads ->
     nonempty (before "."%char v) = true /\ nonempty (after "."%char v) = true) /\
  (nonempty (before "."%char v) = true -> nonempty (after "."%char v) = true ->
   collect_container d container threads s
   = Ok (threads ++ [mkThread (before "."%char v) (slice_to 8 (after "."%char v))
                              (Id container)]) s1).
Proof.
  intros Hdet Hp Hv.
  assert (collect_container d container threads s
          = Ok (if nonempty (before "."%char v) && nonempty (after "."%char v)
                then threads ++ [mkThread (before "."%char v)
                                          (slice_to 8 (after "."%char v)) (Id container)]
                else threads) s1) as Hrun.
  { unfold collect_container, bind. rewrite Hdet.
    unfold resolve_identity. rewrite (env_loop_parses _ _ _ Hp), Hv.
    unfold identity_of_value. cbn [lift fst snd].
    rewrite !truthy_some, nonempty_slice_to.
    destruct (nonempty (before "."%char v) && nonempty (after "."%char v)); reflexivity. }
  split; [|split].
  - intros [H|H]; rewrite Hrun, H; cbn [nonempty andb]; [reflexivity|].
    rewrite andb_false_r. reflexivity.
  - intros threads' Hrun' Hneq. rewrite Hrun in Hrun'.
    destruct (nonempty (before "."%char v)), (nonempty (after "."%char v));
      cbn [andb] in Hrun'; try (split; reflexivity); congruence.
  - intros H1 H2. rewrite Hrun, H1, H2. reflexivity.
Qed.

Lemma empty_identity_part_excluded_witness :
  (exists s1,
     collect_container (daemon_with_env ["PATH=/bin"; "MESOS_TASK_ID=.abc"])
       (mkContainer "c1") [] __init__ = Ok [] s1) /\
  (exists s1,
     collect_container (daemon_with_env ["PATH=/bin"; "MESOS_TASK_ID=app."])
       (mkContainer "c1") [] __init__ = Ok [] s1).
Proof.
  split; eexists.
  - apply (proj1 (empty_identity_part_excluded
                    (daemon_with_env ["PATH=/bin"; "MESOS_TASK_ID=.abc"])
                    (mkContainer "c1") [] __init__ _
                    (details_with_env ["PATH=/bin"; "MESOS_TASK_ID=.abc"]) ".abc"
                    eq_refl eq_refl eq_refl)).
    left. reflexivity.
  - apply (proj1 (empty_identity_part_excluded
                    (daemon_with_env ["PATH=/bin"; "MESOS_TASK_ID=app."])
                    (mkContainer "c1") [] __init__ _
                    (details_with_env ["PATH=/bin"; "MESOS_TASK_ID=app."]) "app."
                    eq_refl eq_refl eq_refl)).
    right. reflexivity.
Defined.

End Claims.

(** * Further properties of the code *)

(** ** Registry *)

Section RegistryMore.

Lemma dict_get_in_keys k d : dict_get k d <> None <-> In k (keys d).
Proof.
  unfold keys. induction d as [|[k0 v0] d IH]; simpl.
  - split; [congruence|tauto].
  - destruct (String.eqb_spec k k0) as [->|Hne].
    + split; [auto|discriminate].
    + rewrite IH. split; [auto|]. intros [H|H]; [congruence|exact H].
Qed.

Lemma schema_dict_set k v m d :
  dict_get k d = Some m -> definition v = definition m ->
  schema (dict_set k v d) = schema d.
Proof.
  unfold schema. induction d as [|[k0 v0] d IH]; simpl; intros H Hd; [discriminate|].
  destruct (String.eqb_spec k k0) as [->|Hne]; simpl.
  - injection H as ->. rewrite Hd. reflexivity.
  - f_equal. apply IH; assumption.
Qed.

Lemma schema_cons_inv k0 v0 st k1 v1 st' :
  schema ((k0, v0) :: st) = schema ((k1, v1) :: st') ->
  k0 = k1 /\ definition v0 = definition v1 /\ schema st = schema st'.
Proof.
  unfold schema. cbn [map fst snd].
  generalize (definition v0) (definition v1). intros d0 d1 H.
  injection H as Hk Hd Hrest. auto.
Qed.

Lemma schema_defined st st' k : schema st = schema st' -> defined k st = defined k st'.
Proof.
  unfold defined. revert st'.
  induction st as [|[k0 v0] st IH]; intros [|[k1 v1] st'] H; try discriminate; [reflexivity|].
  apply schema_cons_inv in H. destruct H as (Hk & Hd & Hrest). subst k1. simpl.
  destruct (String.eqb k k0); [reflexivity|]. apply IH. exact Hrest.
Qed.

(** What one [add_metric] through [get_stat] does to a registry in which
    the family is defined. *)
Lemma stat_add_metric_effect stat_id labels x st :
  defined stat_id st = true ->
  exists st',
    stat_add_metric stat_id labels (Val x) st = Ok tt st' /\
    schema st' = schema st /\
    (forall k, samples_of k st'
               = samples_of k st ++ (if String.eqb k stat_id then [mkSample labels x] else [])).
Proof.
  intros Hdef. destruct (defined_get _ _ Hdef) as [m Em].
  rewrite (stat_add_metric_ok _ _ _ _ _ Em). eexists. split; [reflexivity|]. split.
  - apply (schema_dict_set _ _ m); [exact Em|reflexivity].
  - intros k. rewrite samples_of_dict_set.
    destruct (String.eqb_spec k stat_id) as [->|Hne].
    + unfold samples_of. rewrite Em. reflexivity.
    + rewrite app_nil_r. reflexivity.
Qed.

(** X2: [get_stat] returns a family exactly for the identifiers among the
    keys; for any other identifier it raises [KeyError] with that
    identifier.  In both cases the registry is left as it was. *)
Theorem get_stat_key_error (st : BaseStatsCollector.t) (stat_id : string) :
  (In stat_id (keys st) -> exists m, get_stat stat_id st = Ok m st /\ In m (values st)) /\
  (~ In stat_id (keys st) -> get_stat stat_id st = Raise (KeyError stat_id) st).
Proof.
  unfold get_stat. split; intros H.
  - apply dict_get_in_keys in H. destruct (dict_get stat_id st) as [m|] eqn:E; [|congruence].
    exists m. split; [reflexivity|].
    clear H. unfold values. induction st as [|[k0 v0] st IH]; simpl in *; [discriminate|].
    destruct (String.eqb stat_id k0); [injection E as ->; left; reflexivity|right; auto].
  - destruct (dict_get stat_id st) as [m|] eqn:E; [|reflexivity].
    exfalso. apply H. apply dict_get_in_keys. congruence.
Qed.

Lemma get_stat_key_error_witness :
  get_stat "container_cpu_usage_percent" (constructed MemoryStatsCollector.__init__)
  = Raise (KeyError "container_cpu_usage_percent") (constructed MemoryStatsCollector.__init__).
Proof.
  apply (proj2 (get_stat_key_error (constructed MemoryStatsCollector.__init__)
                  "container_cpu_usage_percent")).
  vm_compute. intros H. repeat (destruct H as [H|H]; [discriminate H|]). exact H.
Defined.

(** X3: [cleanup_samples] is idempotent, and after it a sample added through
    [get_stat] is the only sample of its family: nothing of what was
    collected before is left. *)
Theorem cleanup_samples_then_add (st : BaseStatsCollector.t) (stat_id : string)
    (labels : list string) (x : num) :
  defined stat_id st = true ->
  exists st1 st2,
    BaseStatsCollector.cleanup_samples st = Ok tt st1 /\
    BaseStatsCollector.cleanup_samples st1 = Ok tt st1 /\
    stat_add_metric stat_id labels (Val x) st1 = Ok tt st2 /\
    samples_of stat_id st2 = [mkSample labels x] /\
    (forall k, String.eqb k stat_id = false -> samples_of k st2 = []).
Proof.
  pose (clear := fun kv : string * Metric => (fst kv, clear_samples (snd kv))).
  assert (forall k, samples_of k (map clear st) = []) as Hempty.
  { intros k. unfold samples_of. induction st as [|[k0 v0] st0 IH]; [reflexivity|].
    simpl. destruct (String.eqb k k0); [reflexivity|exact IH]. }
  intros Hdef.
  assert (defined stat_id (map clear st) = true) as Hdef1.
  { rewrite <- Hdef. apply schema_defined. unfold schema. rewrite map_map. reflexivity. }
  destruct (stat_add_metric_effect stat_id labels x (map clear st) Hdef1)
    as (st2 & Hrun & _ & Hs).
  exists (map clear st), st2. split; [reflexivity|]. split.
  - unfold BaseStatsCollector.cleanup_samples, modify. fold clear.
    rewrite map_map. apply (f_equal (Ok tt)). apply map_ext. intros [k m]. reflexivity.
  - split; [exact Hrun|]. split.
    + rewrite Hs, Hempty, String.eqb_refl. reflexivity.
    + intros k Hk. rewrite Hs, Hempty, Hk. reflexivity.
Qed.

Lemma cleanup_samples_then_add_witness :
  exists st1 st2,
    BaseStatsCollector.cleanup_samples
      (state_of (MemoryStatsCollector.add_container "app" "task"
                   (example_stats 2000 1000 500000 490000 [500])
                   (constructed MemoryStatsCollector.__init__))) = Ok tt st1 /\
    stat_add_metric "container_memory_rss" ["app2"; "task2"] (Val (Int 9)) st1 = Ok tt st2 /\
    samples_of "container_memory_rss" st2 = [mkSample ["app2"; "task2"] (Int 9)].
Proof.
  destruct (cleanup_samples_then_add
              (state_of (MemoryStatsCollector.add_container "app" "task"
                           (example_stats 2000 1000 500000 490000 [500])
                           (constructed MemoryStatsCollector.__init__)))
              "container_memory_rss" ["app2"; "task2"] (Int 9) eq_refl)
    as (st1 & st2 & H1 & _ & H2 & H3 & _).
  exists st1, st2. auto.
Defined.

End RegistryMore.

(** ** The translators *)

Section Translators.

Lemma families_defined_in body st k :
  families_defined body st = true -> In k (keys (constructed body)) -> defined k st = true.
Proof.
  unfold families_defined. intros H Hin.
  apply (proj1 (forallb_forall _ _) H k Hin).
Qed.

Lemma families_defined_schema body st st' :
  schema st' = schema st ->
  families_defined body st = true -> families_defined body st' = true.
Proof.
  unfold families_defined. intros Hsch H. apply forallb_forall. intros k Hin.
  rewrite (schema_defined _ _ k Hsch). apply (proj1 (forallb_forall _ _) H k Hin).
Qed.

(** A loop over a table of metric and field names appends, family by
    family, the samples [table_samples] lists. *)
Lemma table_loop labels value : forall tbl st,
  (forall e, In e tbl -> defined (fst e) st = true) ->
  (forall e, In e tbl -> exists z, value (snd e) = Val z) ->
  exists st',
    for_each tbl (fun entry =>
      stat_add_metric (fst entry) labels (x <~ value (snd entry) ;; Val (Int x))) st
    = Ok tt st' /\
    schema st' = schema st /\
    (forall k, samples_of k st' = samples_of k st ++ table_samples tbl labels value k).
Proof.
  induction tbl as [|e tbl IH]; intros st Hdef Hval.
  - exists st. split; [reflexivity|]. split; [reflexivity|].
    intros k. cbn. rewrite app_nil_r. reflexivity.
  - destruct (Hval e (or_introl eq_refl)) as [z Ez].
    cbn [for_each]. unfold bind at 1. rewrite Ez. cbn [rbind].
    destruct (stat_add_metric_effect (fst e) labels (Int z) st (Hdef e (or_introl eq_refl)))
      as (st1 & Hrun1 & Hsch1 & Hs1).
    rewrite Hrun1.
    destruct (IH st1) as (st' & Hrun & Hsch & Hs).
    + intros e' Hin. rewrite (schema_defined _ _ _ Hsch1). apply Hdef. right. exact Hin.
    + intros e' Hin. apply Hval. right. exact Hin.
    + exists st'. split; [exact Hrun|]. split; [congruence|].
      intros k. rewrite Hs, Hs1, <- app_assoc. f_equal.
      unfold table_samples. cbn [flat_map]. rewrite Ez. reflexivity.
Qed.

Lemma net_field_total e n :
  In e NetworkStatsCollector.METRIC_NAME_TO_DOCKER_STAT ->
  exists z, NetworkStatsCollector.net_field (snd e) n = Val z.
Proof.
  intros H. repeat (destruct H as [<-|H]; [eexists; reflexivity|]). destruct H.
Qed.

Lemma network_loop appid taskid : forall nets st,
  families_defined NetworkStatsCollector.__init__ st = true ->
  exists st',
    for_each nets (fun net =>
      for_each NetworkStatsCollector.METRIC_NAME_TO_DOCKER_STAT (fun entry =>
        stat_add_metric (fst entry) [fst net; appid; taskid]
          (x <~ NetworkStatsCollector.net_field (snd entry) (snd net) ;; Val (Int x)))) st
    = Ok tt st' /\
    schema st' = schema st /\
    (forall k, samples_of k st'
       = samples_of k st
         ++ flat_map (fun net =>
              table_samples NetworkStatsCollector.METRIC_NAME_TO_DOCKER_STAT
                [fst net; appid; taskid]
                (fun fld => NetworkStatsCollector.net_field fld (snd net)) k) nets).
Proof.
  induction nets as [|net nets IH]; intros st Hdef.
  - exists st. split; [reflexivity|]. split; [reflexivity|].
    intros k. cbn. rewrite app_nil_r. reflexivity.
  - cbn [for_each]. unfold bind at 1.
    destruct (table_loop [fst net; appid; taskid]
                (fun fld => NetworkStatsCollector.net_field fld (snd net))
                NetworkStatsCollector.METRIC_NAME_TO_DOCKER_STAT st)
      as (st1 & Hrun1 & Hsch1 & Hs1).
    + intros e Hin. apply (families_defined_in _ _ _ Hdef).
      repeat (destruct Hin as [<-|Hin]; [vm_compute; tauto|]). destruct Hin.
    + intros e Hin. apply net_field_total. exact Hin.
    + rewrite Hrun1.
      destruct (IH st1) as (st' & Hrun & Hsch & Hs).
      * apply (families_defined_schema _ _ _ Hsch1 Hdef).
      * exists st'. split; [exact Hrun|]. split; [congruence|].
        intros k. rewrite Hs, Hs1, <- app_assoc. reflexivity.
Qed.

Lemma network_table_samples appid taskid metric_name field :
  In (metric_name, field) network_fields ->
  forall nets,
    flat_map (fun net =>
      table_samples NetworkStatsCollector.METRIC_NAME_TO_DOCKER_STAT
        [fst net; appid; taskid]
        (fun fld => NetworkStatsCollector.net_field fld (snd net)) metric_name) nets
    = map (fun net => mkSample [fst net; appid; taskid] (Int (field (snd net)))) nets.
Proof.
  intros Hin nets.
  repeat (destruct Hin as [Heq|Hin];
          [injection Heq as <- <-;
           induction nets as [|net nets IHn];
           [reflexivity|cbn [flat_map map]; rewrite IHn; reflexivity]|]).
  destruct Hin.
Qed.

(** X4: on a registry that has the network families, [add_container] of
    the network translator returns normally and appends to each of the
    eight families one sample per interface, in the order of the document,
    labelled (interface, appid, taskid) and valued with the interface's
    field for that family; no other family changes, and without interfaces
    nothing changes. *)
Theorem network_add_container_samples (appid taskid : string) (stats : RawStats)
    (st : BaseStatsCollector.t) :
  families_defined NetworkStatsCollector.__init__ st = true ->
  exists st',
    NetworkStatsCollector.add_container appid taskid stats st = Ok tt st' /\
    schema st' = schema st /\
    (forall metric_name field,
       In (metric_name, field) network_fields ->
       samples_of metric_name st'
       = samples_of metric_name st
         ++ map (fun net => mkSample [fst net; appid; taskid] (Int (field (snd net))))
                (networks stats)) /\
    (forall k, ~ In k (map fst network_fields) -> samples_of k st' = samples_of k st).
Proof.
  intros Hdef.
  destruct (network_loop appid taskid (networks stats) st Hdef) as (st' & Hrun & Hsch & Hs).
  exists st'. split; [exact Hrun|]. split; [exact Hsch|]. split.
  - intros metric_name field Hin. rewrite Hs. f_equal.
    apply network_table_samples. exact Hin.
  - intros k Hk. rewrite Hs.
    assert (forall net,
              table_samples NetworkStatsCollector.METRIC_NAME_TO_DOCKER_STAT
                [fst net; appid; taskid]
                (fun fld => NetworkStatsCollector.net_field fld (snd net)) k = []) as Hnone.
    { intros net. unfold table_samples, NetworkStatsCollector.METRIC_NAME_TO_DOCKER_STAT.
      cbn [flat_map fst snd].
      repeat match goal with
             | |- context [String.eqb k ?name] =>
                 destruct (String.eqb_spec k name) as [->|_];
                 [exfalso; apply Hk; vm_compute; tauto|]
             end.
      reflexivity. }
    clear Hrun Hs. induction (networks stats) as [|net nets IHn]; cbn [flat_map].
    + apply app_nil_r.
    + rewrite Hnone. exact IHn.
Qed.

Lemma network_add_container_samples_witness :
  exists st',
    NetworkStatsCollector.add_container "myapp" "abcdefgh"
      (example_stats 2000 1000 500000 490000 [500])
      (constructed NetworkStatsCollector.__init__) = Ok tt st' /\
    samples_of "container_network_transmit_bytes_total" st'
    = [mkSample ["eth0"; "myapp"; "abcdefgh"] (Int 20)].
Proof.
  destruct (network_add_container_samples "myapp" "abcdefgh"
              (example_stats 2000 1000 500000 490000 [500])
              (constructed NetworkStatsCollector.__init__) eq_refl)
    as (st' & Hrun & _ & Hs & _).
  exists st'. split; [exact Hrun|].
  rewrite (Hs "container_network_transmit_bytes_total" tx_bytes).
  - reflexivity.
  - vm_compute. tauto.
Defined.

(** The statements of the memory translator before the percentage. *)
Lemma memory_add_container_prefix appid taskid stats st :
  families_defined MemoryStatsCollector.__init__ st = true ->
  exists st4,
    schema st4 = schema st /\
    (forall k, samples_of k st4
       = samples_of k st
         ++ (if String.eqb k "container_memory_cache"
             then [mkSample [appid; taskid] (Int (cache (mem_detail (memory_stats stats))))]
             else [])
         ++ (if String.eqb k "container_memory_rss"
             then [mkSample [appid; taskid] (Int (rss (mem_detail (memory_stats stats))))]
             else [])
         ++ (if String.eqb k "container_memory_swap"
             then [mkSample [appid; taskid] (Int (swap (mem_detail (memory_stats stats))))]
             else [])
         ++ (if String.eqb k "container_memory_usage_bytes"
             then [mkSample [appid; taskid] (Int (usage (memory_stats stats)))]
             else [])) /\
    MemoryStatsCollector.add_container appid taskid stats st
    = (mem_percent <- lift (q <~ int_truediv (usage (memory_stats stats))
                                            (limit (memory_stats stats)) ;;
                            float_mul_int q 100) ;;
       stat_add_metric "container_memory_usage_percent" [appid; taskid]
         (Val (Float mem_percent))) st4.
Proof.
  intros Hdef. unfold MemoryStatsCollector.add_container.
  destruct (table_loop [appid; taskid]
              (fun fld => MemoryStatsCollector.detail_field fld (mem_detail (memory_stats stats)))
              MemoryStatsCollector.METRIC_NAME_TO_DOCKER_STAT st)
    as (st3 & Hrun3 & Hsch3 & Hs3).
  { intros e Hin. apply (families_defined_in _ _ _ Hdef).
    repeat (destruct Hin as [<-|Hin]; [vm_compute; tauto|]). destruct Hin. }
  { intros e Hin. repeat (destruct Hin as [<-|Hin]; [eexists; reflexivity|]). destruct Hin. }
  unfold bind at 1. cbv zeta. rewrite Hrun3.
  destruct (stat_add_metric_effect "container_memory_usage_bytes" [appid; taskid]
              (Int (usage (memory_stats stats))) st3) as (st4 & Hrun4 & Hsch4 & Hs4).
  { rewrite (schema_defined _ _ _ Hsch3).
    apply (families_defined_in _ _ _ Hdef). vm_compute. tauto. }
  unfold bind at 1. rewrite Hrun4.
  exists st4. split; [congruence|]. split; [|reflexivity].
  intros k. rewrite Hs4, Hs3, <- !app_assoc. f_equal.
  unfold table_samples, MemoryStatsCollector.METRIC_NAME_TO_DOCKER_STAT.
  cbn [flat_map fst snd MemoryStatsCollector.detail_field String.eqb Ascii.eqb Bool.eqb].
  rewrite <- !app_assoc, app_nil_l. reflexivity.
Qed.

(** X5: with a non-zero limit and 64-bit counters, [add_container] of the
    memory translator returns normally and appends exactly one sample,
    labelled (appid, taskid), to each of its five families: cache, rss, swap
    and usage as the integers of the document, and the percentage
    (usage / limit) * 100 in binary64; for usage 500000000 and limit
    1000000000 the percentage is 50.0. *)
Theorem memory_add_container_samples (appid taskid : string) (stats : RawStats)
    (st : BaseStatsCollector.t) :
  families_defined MemoryStatsCollector.__init__ st = true ->
  memory_counters_in_range stats = true ->
  limit (memory_stats stats) <> 0 ->
  let mem := memory_stats stats in
  let percent :=
    float_mul (SFdiv prec emax (exact (usage mem)) (exact (limit mem))) (float_of 100) in
  (exists st',
     MemoryStatsCollector.add_container appid taskid stats st = Ok tt st' /\
     schema st' = schema st /\
     (forall stat_id x,
        In (stat_id, x) [("container_memory_cache", Int (cache (mem_detail mem)));
                         ("container_memory_rss", Int (rss (mem_detail mem)));
                         ("container_memory_swap", Int (swap (mem_detail mem)));
                         ("container_memory_usage_bytes", Int (usage mem));
                         ("container_memory_usage_percent", Float percent)] ->
        samples_of stat_id st' = samples_of stat_id st ++ [mkSample [appid; taskid] x])) /\
  (usage mem = 500000000 -> limit mem = 1000000000 -> percent = float_of 50).
Proof.
  intros Hdef Hrange Hlimit mem percent. split.
  - destruct (memory_add_container_prefix appid taskid stats st Hdef)
      as (st4 & Hsch4 & Hs4 & Hrun).
    unfold memory_counters_in_range in Hrange. apply andb_prop in Hrange.
    destruct Hrange as [Hu _]. apply uint64b_range in Hu.
    assert (Z.abs (usage (memory_stats stats)) < 2 ^ 64) as Habs by lia.
    rewrite Hrun. unfold bind.
    rewrite (int_truediv_value _ _ Habs Hlimit).
    cbn [rbind]. unfold float_mul_int.
    rewrite float_of_int_value by (vm_compute; reflexivity). cbn [rbind lift].
    fold (float_of 100). fold mem. fold percent.
    destruct (stat_add_metric_effect "container_memory_usage_percent" [appid; taskid]
                (Float percent) st4) as (st' & Hrun' & Hsch' & Hs').
    { rewrite (schema_defined _ _ _ Hsch4).
      apply (families_defined_in _ _ _ Hdef). vm_compute. tauto. }
    rewrite Hrun'. exists st'. split; [reflexivity|]. split; [congruence|].
    intros stat_id x Hin. rewrite Hs', Hs4.
    repeat (destruct Hin as [Heq|Hin];
            [injection Heq as <- <-; cbn [String.eqb Ascii.eqb Bool.eqb];
             rewrite ?app_nil_r; reflexivity|]).
    destruct Hin.
  - intros Hu Hl. unfold percent. rewrite Hu, Hl. vm_compute. reflexivity.
Qed.

Lemma memory_add_container_samples_witness :
  exists st',
    MemoryStatsCollector.add_container "myapp" "abcdefgh"
      (example_stats 2000 1000 500000 490000 [500])
      (constructed MemoryStatsCollector.__init__) = Ok tt st' /\
    samples_of "container_memory_usage_percent" st'
    = [mkSample ["myapp"; "abcdefgh"] (Float (float_of 50))].
Proof.
  destruct (memory_add_container_samples "myapp" "abcdefgh"
              (example_stats 2000 1000 500000 490000 [500])
              (constructed MemoryStatsCollector.__init__) eq_refl eq_refl)
    as [(st' & Hrun & _ & Hs) Hval].
  - vm_compute. discriminate.
  - exists st'. split; [exact Hrun|].
    rewrite (Hs "container_memory_usage_percent" _ (or_intror (or_intror (or_intror
               (or_intror (or_introl eq_refl)))))).
    rewrite Hval by reflexivity. reflexivity.
Defined.

(** X6: with a limit of zero, [add_container] of the memory translator
    raises [ZeroDivisionError] after it has appended the cache, rss, swap and
    usage samples: those four stay in the registry, and the percentage family
    receives nothing. *)
Theorem memory_zero_limit_partial (appid taskid : string) (stats : RawStats)
    (st : BaseStatsCollector.t) :
  families_defined MemoryStatsCollector.__init__ st = true ->
  limit (memory_stats stats) = 0 ->
  let mem := memory_stats stats in
  exists st',
    MemoryStatsCollector.add_container appid taskid stats st = Raise ZeroDivisionError st' /\
    (forall stat_id x,
       In (stat_id, x) [("container_memory_cache", Int (cache (mem_detail mem)));
                        ("container_memory_rss", Int (rss (mem_detail mem)));
                        ("container_memory_swap", Int (swap (mem_detail mem)));
                        ("container_memory_usage_bytes", Int (usage mem))] ->
       samples_of stat_id st' = samples_of stat_id st ++ [mkSample [appid; taskid] x]) /\
    samples_of "container_memory_usage_percent" st'
    = samples_of "container_memory_usage_percent" st.
Proof.
  intros Hdef Hlimit mem.
  destruct (memory_add_container_prefix appid taskid stats st Hdef)
    as (st4 & Hsch4 & Hs4 & Hrun).
  exists st4. split; [|split].
  - rewrite Hrun. unfold bind, int_truediv. rewrite Hlimit. reflexivity.
  - intros stat_id x Hin. rewrite Hs4.
    repeat (destruct Hin as [Heq|Hin];
            [injection Heq as <- <-; cbn [String.eqb Ascii.eqb Bool.eqb];
             rewrite ?app_nil_r; reflexivity|]).
    destruct Hin.
  - rewrite Hs4. cbn [String.eqb Ascii.eqb Bool.eqb]. rewrite !app_nil_r. reflexivity.
Qed.

Lemma memory_zero_limit_partial_witness :
  exists st',
    MemoryStatsCollector.add_container "myapp" "abcdefgh"
      (mkRawStats [] (mkMemoryStats 4096 0 (mkMemDetail 1 2 3))
                  (mkCpuStats (mkCpuUsage 0 [] 0 0) 0) (mkCpuStats (mkCpuUsage 0 [] 0 0) 0))
      (constructed MemoryStatsCollector.__init__) = Raise ZeroDivisionError st' /\
    samples_of "container_memory_usage_bytes" st'
    = [mkSample ["myapp"; "abcdefgh"] (Int 4096)] /\
    samples_of "container_memory_usage_percent" st' = [].
Proof.
  destruct (memory_zero_limit_partial "myapp" "abcdefgh"
              (mkRawStats [] (mkMemoryStats 4096 0 (mkMemDetail 1 2 3))
                 (mkCpuStats (mkCpuUsage 0 [] 0 0) 0) (mkCpuStats (mkCpuUsage 0 [] 0 0) 0))
              (constructed MemoryStatsCollector.__init__) eq_refl eq_refl)
    as (st' & Hrun & Hs & Hp).
  exists st'. split; [exact Hrun|]. split.
  - apply (Hs "container_memory_usage_bytes" (Int 4096)). vm_compute. tauto.
  - exact Hp.
Defined.

(** A seconds sample of a 64-bit counter: the registry after it. *)
Lemma seconds_sample_effect stat_id labels v st :
  defined stat_id st = true ->
  uint64b v = true ->
  exists st',
    stat_add_metric stat_id labels (as_float (ns_to_sec v)) st = Ok tt st' /\
    schema st' = schema st /\
    (forall k, samples_of k st'
       = samples_of k st ++ (if String.eqb k stat_id then [mkSample labels (seconds v)] else [])).
Proof.
  intros Hdef Hv. unfold as_float. rewrite (ns_to_sec_value _ Hv). cbn [rbind].
  apply stat_add_metric_effect. exact Hdef.
Qed.

Lemma percpu_loop_samples appid taskid : forall vals start st,
  defined USAGE_SECONDS st = true ->
  forallb uint64b vals = true ->
  exists st',
    CPUStatsCollector.percpu_loop appid taskid start vals st = Ok tt st' /\
    schema st' = schema st /\
    (forall k, samples_of k st'
       = samples_of k st
         ++ (if String.eqb k USAGE_SECONDS then percpu_samples appid taskid start vals else [])).
Proof.
  induction vals as [|v vals IH]; intros start st Hdef Hall.
  - exists st. split; [reflexivity|]. split; [reflexivity|].
    intros k. cbn [percpu_samples]. destruct (String.eqb k USAGE_SECONDS); apply eq_sym, app_nil_r.
  - cbn [forallb] in Hall. apply andb_prop in Hall. destruct Hall as [Hv Hall].
    cbn [CPUStatsCollector.percpu_loop]. unfold bind at 1.
    destruct (seconds_sample_effect USAGE_SECONDS
                [String.append "cpu" (format_02d start); appid; taskid] v st Hdef Hv)
      as (st1 & Hrun1 & Hsch1 & Hs1).
    fold USAGE_SECONDS. rewrite Hrun1.
    destruct (IH (S start) st1) as (st' & Hrun & Hsch & Hs).
    + rewrite (schema_defined _ _ _ Hsch1). exact Hdef.
    + exact Hall.
    + exists st'. split; [exact Hrun|]. split; [congruence|].
      intros k. rewrite Hs, Hs1, <- app_assoc. f_equal.
      cbn [percpu_samples]. destruct (String.eqb k USAGE_SECONDS); reflexivity.
Qed.

(** X7: with the CPU families defined and 64-bit counters, [add_container]
    of the CPU translator, whether the percentage can be computed or not,
    leaves exactly one new sample labelled (appid, taskid) in each of the
    system, kernel and user families, valued with the counter in seconds
    (nanoseconds / 1e9 in binary64), and one new sample per core in the
    per-cpu family, in the order of the list, the core's position from 0 as
    the label [cpuNN]. *)
Theorem cpu_add_container_seconds (appid taskid : string) (stats : RawStats)
    (st : BaseStatsCollector.t) :
  cpu_families_defined st = true ->
  cpu_counters_in_range stats = true ->
  let cur := cpu_stats stats in
  let st' := state_of (CPUStatsCollector.add_container appid taskid stats st) in
  schema st' = schema st /\
  samples_of "container_cpu_system_seconds_total" st'
  = samples_of "container_cpu_system_seconds_total" st
    ++ [mkSample [appid; taskid] (seconds (system_cpu_usage cur))] /\
  samples_of "container_cpu_kernel_seconds_total" st'
  = samples_of "container_cpu_kernel_seconds_total" st
    ++ [mkSample [appid; taskid] (seconds (usage_in_kernelmode (cpu_usage cur)))] /\
  samples_of "container_cpu_user_seconds_total" st'
  = samples_of "container_cpu_user_seconds_total" st
    ++ [mkSample [appid; taskid] (seconds (usage_in_usermode (cpu_usage cur)))] /\
  samples_of "container_cpu_usage_seconds_total" st'
  = samples_of "container_cpu_usage_seconds_total" st
    ++ percpu_samples appid taskid 0 (percpu_usage (cpu_usage cur)).
Proof.
  intros Hdef Hrange cur st'.
  destruct (cpu_families_defined_each _ Hdef) as (D1 & D2 & D3 & D4 & D5).
  destruct (cpu_counters_each _ Hrange) as (R1 & _ & _ & _ & R5 & R6 & R7 & _).
  destruct (seconds_sample_effect "container_cpu_system_seconds_total"
              [appid; taskid] _ st D1 R1) as (st1 & Hrun1 & Hsch1 & Hs1).
  destruct (seconds_sample_effect "container_cpu_kernel_seconds_total"
              [appid; taskid] _ st1 (eq_trans (schema_defined _ _ _ Hsch1) D2) R5)
    as (st2 & Hrun2 & Hsch2 & Hs2).
  assert (schema st2 = schema st) as Hsch2' by congruence.
  destruct (seconds_sample_effect "container_cpu_user_seconds_total"
              [appid; taskid] _ st2 (eq_trans (schema_defined _ _ _ Hsch2') D3) R6)
    as (st3 & Hrun3 & Hsch3 & Hs3).
  assert (schema st3 = schema st) as Hsch3' by congruence.
  destruct (percpu_loop_samples appid taskid _ 0%nat st3
              (eq_trans (schema_defined _ _ _ Hsch3') D4) R7)
    as (st4 & Hrun4 & Hsch4 & Hs4).
  assert (schema st4 = schema st) as Hsch4' by congruence.
  assert (exists st5, st' = st5 /\ schema st5 = schema st /\
          forall k, String.eqb k USAGE_PERCENT = false -> samples_of k st5 = samples_of k st4)
    as (st5 & -> & Hsch' & Hs').
  { unfold st', CPUStatsCollector.add_container.
    unfold bind at 1. rewrite Hrun1. unfold bind at 1. rewrite Hrun2.
    unfold bind at 1. rewrite Hrun3. unfold bind at 1. rewrite Hrun4.
    unfold bind. destruct (CPUStatsCollector.cpu_percent stats) as [p|e]; cbn [lift].
    - destruct (stat_add_metric_effect USAGE_PERCENT [appid; taskid] (Float p) st4
                  (eq_trans (schema_defined _ _ _ Hsch4') D5)) as (st5 & Hrun5 & Hsch5 & Hs5).
      fold USAGE_PERCENT. rewrite Hrun5. exists st5. split; [reflexivity|].
      split; [congruence|]. intros k Hk. rewrite Hs5, Hk. apply app_nil_r.
    - exists st4. split; [reflexivity|]. split; [exact Hsch4'|reflexivity]. }
  split; [exact Hsch'|].
  repeat split; rewrite Hs' by reflexivity; rewrite Hs4, Hs3, Hs2, Hs1;
    cbn [String.eqb Ascii.eqb Bool.eqb USAGE_SECONDS]; rewrite ?app_nil_r; reflexivity.
Qed.

Lemma cpu_add_container_seconds_witness :
  samples_of "container_cpu_usage_seconds_total"
    (state_of (CPUStatsCollector.add_container "myapp" "abcdefgh"
                 (example_stats 2000 1000 500000 500000 [1000000000; 2000000000])
                 (constructed CPUStatsCollector.__init__)))
  = [mkSample ["cpu00"; "myapp"; "abcdefgh"] (Float (float_of 1));
     mkSample ["cpu01"; "myapp"; "abcdefgh"] (Float (float_of 2))].
Proof.
  destruct (cpu_add_container_seconds "myapp" "abcdefgh"
              (example_stats 2000 1000 500000 500000 [1000000000; 2000000000])
              (constructed CPUStatsCollector.__init__) eq_refl eq_refl)
    as (_ & _ & _ & _ & H).
  rewrite H. vm_compute. reflexivity.
Defined.

(** *** The labels of the cores *)

Lemma to_uint_normal n : Decimal.unorm (Nat.to_uint n) = Nat.to_uint n.
Proof.
  rewrite <- (DecimalNat.Unsigned.to_of (Nat.to_uint n)).
  rewrite DecimalNat.Unsigned.of_to. reflexivity.
Qed.

Lemma D0_not_fixed u : Decimal.D0 u <> u.
Proof. induction u; intros H; try discriminate. injection H as H. auto. Qed.

Lemma string_of_to_uint_inj n m :
  DecimalString.NilEmpty.string_of_uint (Nat.to_uint n)
  = DecimalString.NilEmpty.string_of_uint (Nat.to_uint m) -> n = m.
Proof.
  intros H. apply DecimalNat.Unsigned.to_uint_inj.
  apply (f_equal DecimalString.NilEmpty.uint_of_string) in H.
  rewrite !DecimalString.NilEmpty.usu in H. congruence.
Qed.

(** No number prints as a zero followed by the digits of another. *)
Lemma string_of_to_uint_no_leading_zero n m :
  DecimalString.NilEmpty.string_of_uint (Nat.to_uint m)
  <> String "0"%char (DecimalString.NilEmpty.string_of_uint (Nat.to_uint n)).
Proof.
  intros H. apply (f_equal DecimalString.NilEmpty.uint_of_string) in H.
  cbn [DecimalString.NilEmpty.uint_of_string] in H.
  rewrite !DecimalString.NilEmpty.usu in H. cbn in H. injection H as H.
  apply (D0_not_fixed (Nat.to_uint n)).
  rewrite <- H. rewrite <- (to_uint_normal m), H.
  rewrite DecimalFacts.unorm_D0. apply to_uint_normal.
Qed.

Lemma format_02d_inj i j : format_02d i = format_02d j -> i = j.
Proof.
  unfold format_02d.
  pose proof (string_of_to_uint_no_leading_zero i j) as Hij.
  pose proof (string_of_to_uint_no_leading_zero j i) as Hji.
  pose proof (string_of_to_uint_inj i j) as Hinj.
  destruct (DecimalString.NilEmpty.string_of_uint (Nat.to_uint i)) as [|ci [|ci' si]];
    destruct (DecimalString.NilEmpty.string_of_uint (Nat.to_uint j)) as [|cj [|cj' sj]];
    intros H; try (apply Hinj; congruence); try discriminate H;
    try (exfalso; apply Hij; congruence); try (exfalso; apply Hji; congruence).
Qed.

Lemma percpu_samples_labels appid taskid : forall vals start l,
  In l (map label_values (percpu_samples appid taskid start vals)) ->
  exists i, (start <= i)%nat /\ l = [String.append "cpu" (format_02d i); appid; taskid].
Proof.
  induction vals as [|v vals IH]; intros start l Hin; [destruct Hin|].
  cbn [percpu_samples map label_values] in Hin. destruct Hin as [<-|Hin].
  - exists start. split; [lia|reflexivity].
  - destruct (IH _ _ Hin) as (i & Hi & ->). exists i. split; [lia|reflexivity].
Qed.

(** X8: the label of a core determines its position: ["{:02d}".format] gives
    different strings for different positions, two characters long below
    ten, so the per-core samples that one [add_container] appends carry
    pairwise different label values. *)
Theorem percpu_labels_distinct (appid taskid : string) (start : nat) (vals : list Z) :
  (forall i j, format_02d i = format_02d j -> i = j) /\
  (forall i, (i < 10)%nat -> String.length (format_02d i) = 2%nat) /\
  NoDup (map label_values (percpu_samples appid taskid start vals)).
Proof.
  split; [exact format_02d_inj|]. split.
  - intros i Hi. do 10 (destruct i as [|i]; [reflexivity|]). lia.
  - revert start. induction vals as [|v vals IH]; intros start; [constructor|].
    cbn [percpu_samples map label_values]. constructor; [|apply IH].
    intros Hin. destruct (percpu_samples_labels _ _ _ _ _ Hin) as (i & Hi & Heq).
    injection Heq as Heq. apply format_02d_inj in Heq. lia.
Qed.

End Translators.

(** ** What a cycle keeps *)

Section Invariants.

Lemma keeps_bind {S A B} (I : S -> Prop) (m : M S A) (f : A -> M S B) :
  keeps I m -> (forall a, keeps I (f a)) -> keeps I (bind m f).
Proof.
  intros Hm Hf s Hs. unfold bind. specialize (Hm s Hs).
  destruct (m s) as [a s'|e s']; cbn [state_of] in *; [apply Hf; exact Hm|exact Hm].
Qed.

Lemma keeps_ret {S A} (I : S -> Prop) (a : A) : keeps I (ret a).
Proof. intros s Hs. exact Hs. Qed.

Lemma keeps_lift {S A} (I : S -> Prop) (r : result A) : keeps I (lift r).
Proof. intros s Hs. unfold lift. destruct r; exact Hs. Qed.

Lemma keeps_for_each {S A} (I : S -> Prop) (body : A -> M S unit) xs :
  (forall x, keeps I (body x)) -> keeps I (for_each xs body).
Proof.
  intros Hb. induction xs as [|x xs IH]; cbn [for_each]; [apply keeps_ret|].
  apply keeps_bind; [apply Hb|intros _; exact IH].
Qed.

Lemma schema_labelnames_get st k m :
  dict_get k st = Some m -> schema_labelnames (schema st) k = Some (labelnames m).
Proof.
  induction st as [|[k0 v0] st IH]; [discriminate|].
  cbn [schema map fst snd schema_labelnames dict_get].
  destruct (String.eqb k k0); [intros H; injection H as ->; reflexivity|exact IH].
Qed.

Lemma every_sample_dict_set P k labels x m st :
  dict_get k st = Some m ->
  P (labelnames m) (mkSample labels x) ->
  every_sample P st ->
  every_sample P (dict_set k (add_metric labels x m) st).
Proof.
  unfold every_sample, values.
  induction st as [|[k0 v0] st IH]; [discriminate|].
  cbn [dict_get dict_set map snd]. intros Hg Hp Hall.
  apply Forall_cons_iff in Hall. destruct Hall as [H0 Hall].
  destruct (String.eqb k k0).
  - injection Hg as ->. constructor; [|exact Hall].
    cbn [samples add_metric labelnames]. apply Forall_app. split; [exact H0|].
    constructor; [exact Hp|constructor].
  - constructor; [exact H0|]. apply IH; assumption.
Qed.

(** One [add_metric] through [get_stat] keeps the invariant when the new
    sample satisfies [P] for the label names the schema gives. *)
Lemma keeps_stat_add_metric sch P stat_id labels v :
  (forall names x, schema_labelnames sch stat_id = Some names ->
                   P names (mkSample labels x)) ->
  keeps (registry_inv sch P) (stat_add_metric stat_id labels v).
Proof.
  intros Hp st [Hsch Hall]. unfold stat_add_metric, bind, get_stat, lift, modify.
  destruct (dict_get stat_id st) as [m|] eqn:Em; [|split; assumption].
  destruct v as [x|e]; cbn [state_of]; [|split; assumption].
  split.
  - rewrite <- Hsch. apply (schema_dict_set _ _ m); [exact Em|reflexivity].
  - apply every_sample_dict_set; [exact Em| |exact Hall].
    apply Hp. rewrite <- Hsch. apply schema_labelnames_get. exact Em.
Qed.

(** A sample whose labels end with the identity, for a family of the
    constructed schema with [n] labels before the identity. *)
Lemma keeps_identity_sample sch P stat_id front appid taskid v :
  holds_for_identity P appid taskid ->
  (forall names, schema_labelnames sch stat_id = Some names ->
                 List.length names = (List.length front + 2)%nat) ->
  keeps (registry_inv sch P) (stat_add_metric stat_id (front ++ [appid; taskid]) v).
Proof.
  intros Hp Hlen. apply keeps_stat_add_metric. intros names x Hn.
  apply Hp. apply Hlen. exact Hn.
Qed.

Lemma network_keeps P appid taskid stats :
  holds_for_identity P appid taskid ->
  keeps (registry_inv (schema (constructed NetworkStatsCollector.__init__)) P)
        (NetworkStatsCollector.add_container appid taskid stats).
Proof.
  intros Hp. unfold NetworkStatsCollector.add_container.
  apply keeps_for_each. intros net. apply keeps_for_each. intros entry. cbv zeta.
  apply (keeps_identity_sample _ P (fst entry) [fst net] appid taskid _ Hp).
  intros names. generalize (fst entry). intros k.
  cbn. repeat (destruct (String.eqb k _); [intros H; injection H as <-; reflexivity|]).
  discriminate.
Qed.

Lemma memory_keeps P appid taskid stats :
  holds_for_identity P appid taskid ->
  keeps (registry_inv (schema (constructed MemoryStatsCollector.__init__)) P)
        (MemoryStatsCollector.add_container appid taskid stats).
Proof.
  intros Hp. unfold MemoryStatsCollector.add_container.
  assert (forall k v,
            keeps (registry_inv (schema (constructed MemoryStatsCollector.__init__)) P)
                  (stat_add_metric k [appid; taskid] v)) as Hstep.
  { intros k v. apply (keeps_identity_sample _ P k [] appid taskid _ Hp).
    intros names. cbn.
    repeat (destruct (String.eqb k _); [intros H; injection H as <-; reflexivity|]).
    discriminate. }
  cbv zeta. apply keeps_bind; [apply keeps_for_each; intros entry; apply Hstep|intros _].
  apply keeps_bind; [apply Hstep|intros _].
  apply keeps_bind; [apply keeps_lift|intros p]. apply Hstep.
Qed.

Lemma cpu_keeps P appid taskid stats :
  holds_for_identity P appid taskid ->
  keeps (registry_inv (schema (constructed CPUStatsCollector.__init__)) P)
        (CPUStatsCollector.add_container appid taskid stats).
Proof.
  intros Hp. unfold CPUStatsCollector.add_container. cbv zeta.
  assert (forall front k v names,
            schema_labelnames (schema (constructed CPUStatsCollector.__init__)) k = Some names ->
            List.length names = (List.length front + 2)%nat ->
            keeps (registry_inv (schema (constructed CPUStatsCollector.__init__)) P)
                  (stat_add_metric k (front ++ [appid; taskid]) v)) as Hstep.
  { intros front k v names Hn Hlen.
    apply (keeps_identity_sample _ P k front appid taskid _ Hp).
    intros names' Hn'. congruence. }
  repeat (apply keeps_bind; [eapply (Hstep []); reflexivity|intros _]).
  apply keeps_bind.
  - generalize 0%nat. induction (percpu_usage (cpu_usage (cpu_stats stats))) as [|v vals IH];
      intros start; cbn [CPUStatsCollector.percpu_loop]; [apply keeps_ret|].
    apply keeps_bind; [|intros _; apply IH].
    eapply (Hstep [String.append "cpu" (format_02d start)]); reflexivity.
  - intros _. apply keeps_bind; [apply keeps_lift|intros p].
    eapply (Hstep []); reflexivity.
Qed.

(** Whatever the registry, the translators keep its schema. *)
Lemma translators_keep_schema sch appid taskid stats :
  keeps (registry_inv sch (fun _ _ => True))
        (NetworkStatsCollector.add_container appid taskid stats) /\
  keeps (registry_inv sch (fun _ _ => True))
        (MemoryStatsCollector.add_container appid taskid stats) /\
  keeps (registry_inv sch (fun _ _ => True))
        (CPUStatsCollector.add_container appid taskid stats).
Proof.
  assert (forall k labels v,
            keeps (registry_inv sch (fun _ _ => True)) (stat_add_metric k labels v)) as Hstep
    by (intros k labels v; apply keeps_stat_add_metric; intros; exact I).
  split; [|split].
  - unfold NetworkStatsCollector.add_container.
    apply keeps_for_each. intros net. apply keeps_for_each. intros entry. apply Hstep.
  - unfold MemoryStatsCollector.add_container. cbv zeta.
    apply keeps_bind; [apply keeps_for_each; intros entry; apply Hstep|intros _].
    apply keeps_bind; [apply Hstep|intros _].
    apply keeps_bind; [apply keeps_lift|intros p]. apply Hstep.
  - unfold CPUStatsCollector.add_container. cbv zeta.
    repeat (apply keeps_bind; [apply Hstep|intros _]).
    apply keeps_bind.
    + generalize 0%nat.
      induction (percpu_usage (cpu_usage (cpu_stats stats))) as [|v vals IH];
        intros start; cbn [CPUStatsCollector.percpu_loop]; [apply keeps_ret|].
      apply keeps_bind; [apply Hstep|intros _; apply IH].
    + intros _. apply keeps_bind; [apply keeps_lift|intros p]. apply Hstep.
Qed.

Lemma registry_inv_cleanup sch P st :
  schema st = sch ->
  registry_inv sch P (map (fun kv => (fst kv, clear_samples (snd kv))) st).
Proof.
  intros H. split.
  - rewrite <- H. unfold schema. rewrite map_map. reflexivity.
  - unfold every_sample, values. rewrite map_map. apply Forall_map.
    apply Forall_forall. intros kv _. constructor.
Qed.

(** *** The collector *)

Lemma keeps_zoom_registries schN schM schC P {A}
    (mN mM mC : M BaseStatsCollector.t A) :
  (keeps (registry_inv schN P) mN -> keeps (registries schN schM schC P)
                                           (zoom network with_network mN)) /\
  (keeps (registry_inv schM P) mM -> keeps (registries schN schM schC P)
                                           (zoom memory with_memory mM)) /\
  (keeps (registry_inv schC P) mC -> keeps (registries schN schM schC P)
                                           (zoom cpu with_cpu mC)).
Proof.
  split; [|split]; intros Hm s (HN & HM & HC); unfold zoom, registries.
  - specialize (Hm _ HN). destruct (mN (network s)); cbn [state_of] in *;
      (split; [exact Hm|split; [exact HM|exact HC]]).
  - specialize (Hm _ HM). destruct (mM (memory s)); cbn [state_of] in *;
      (split; [exact HN|split; [exact Hm|exact HC]]).
  - specialize (Hm _ HC). destruct (mC (cpu s)); cbn [state_of] in *;
      (split; [exact HN|split; [exact HM|exact Hm]]).
Qed.

Lemma frames_keeps {A} (m : M DockerStatsCollector.t A) schN schM schC P :
  frames m -> keeps (registries schN schM schC P) m.
Proof.
  intros Hm s (HN & HM & HC). destruct (Hm s) as (EN & EM & EC).
  unfold registries. rewrite EN, EM, EC. exact (conj HN (conj HM HC)).
Qed.

Lemma frames_details d cid : frames (_details d cid).
Proof.
  intros s. unfold _details, LruCache.wrapper.
  destruct (LruCache.find cid (LruCache.entries (details_cache s))); [cbn; tauto|].
  unfold _details_body, bind, log_call, modify, lift. cbn.
  destruct (inspect_container d cid); cbn; tauto.
Qed.

Lemma frames_collect_container d c threads : frames (collect_container d c threads).
Proof.
  intros s. unfold collect_container, bind.
  pose proof (frames_details d (Id c) s) as H.
  destruct (_details d (Id c) s) as [details s'|e s']; cbn [state_of] in H |- *; [|exact H].
  destruct (resolve_identity (env_of details)) as [[appid taskid]|e]; cbn [lift fst snd];
    [|exact H].
  destruct (truthy appid && truthy taskid); [destruct appid, taskid|]; exact H.
Qed.

Lemma frames_collect_containers d : forall cs threads, frames (collect_containers d cs threads).
Proof.
  induction cs as [|c cs IH]; intros threads s; cbn [collect_containers]; [cbn; tauto|].
  unfold bind. pose proof (frames_collect_container d c threads s) as H.
  destruct (collect_container d c threads s) as [threads' s'|e s']; cbn [state_of] in H |- *;
    [|exact H].
  destruct (IH threads' s') as (EN & EM & EC). rewrite EN, EM, EC. exact H.
Qed.

Lemma frames_log_call c : frames (log_call c).
Proof. intros s. cbn. tauto. Qed.

(** A worker keeps the invariant when its translators do. *)
Lemma run_thread_keeps schN schM schC P d th s :
  (forall stats,
     keeps (registry_inv schN P)
           (NetworkStatsCollector.add_container (thread_appid th) (thread_taskid th) stats) /\
     keeps (registry_inv schM P)
           (MemoryStatsCollector.add_container (thread_appid th) (thread_taskid th) stats) /\
     keeps (registry_inv schC P)
           (CPUStatsCollector.add_container (thread_appid th) (thread_taskid th) stats)) ->
  registries schN schM schC P s ->
  registries schN schM schC P (run_thread d th s).
Proof.
  intros Hk Hs. unfold run_thread.
  assert (forall answer,
            keeps (registries schN schM schC P)
                  (_fetch_stats answer (thread_appid th) (thread_taskid th) (thread_cid th)))
    as Hfetch.
  { intros answer. unfold _fetch_stats.
    apply keeps_bind; [apply frames_keeps, frames_log_call|intros _].
    apply keeps_bind; [apply keeps_lift|intros stats].
    destruct (Hk stats) as (KN & KM & KC). unfold DockerStatsCollector.add_container.
    apply keeps_bind; [apply (proj1 (keeps_zoom_registries _ _ _ _ _ (ret tt) (ret tt))); exact KN
                      |intros _].
    apply keeps_bind;
      [apply (proj1 (proj2 (keeps_zoom_registries _ _ _ _ (ret tt) _ (ret tt)))); exact KM
      |intros _].
    apply (proj2 (proj2 (keeps_zoom_registries _ _ _ _ (ret tt) (ret tt) _))). exact KC. }
  destruct (stats d (thread_cid th)); [apply Hfetch|apply Hfetch|]; exact Hs.
Qed.

Lemma join_keeps schN schM schC P d : forall threads s,
  (forall th, In th threads -> forall stats,
     keeps (registry_inv schN P)
           (NetworkStatsCollector.add_container (thread_appid th) (thread_taskid th) stats) /\
     keeps (registry_inv schM P)
           (MemoryStatsCollector.add_container (thread_appid th) (thread_taskid th) stats) /\
     keeps (registry_inv schC P)
           (CPUStatsCollector.add_container (thread_appid th) (thread_taskid th) stats)) ->
  registries schN schM schC P s ->
  registries schN schM schC P (fold_left (fun acc th => run_thread d th acc) threads s).
Proof.
  induction threads as [|th threads IH]; intros s Hk Hs; [exact Hs|].
  cbn [fold_left]. apply IH.
  - intros th' Hin. apply Hk. right. exact Hin.
  - apply run_thread_keeps; [apply Hk; left; reflexivity|exact Hs].
Qed.

(** The state a cycle leaves, in terms of the workers it started: the
    registries are those of the joined workers, started from the emptied
    registries. *)
Lemma collect_registries schN schM schC P d s :
  schema (network s) = schN -> schema (memory s) = schM -> schema (cpu s) = schC ->
  (forall th, In th (started_workers d s) -> forall stats,
     keeps (registry_inv schN P)
           (NetworkStatsCollector.add_container (thread_appid th) (thread_taskid th) stats) /\
     keeps (registry_inv schM P)
           (MemoryStatsCollector.add_container (thread_appid th) (thread_taskid th) stats) /\
     keeps (registry_inv schC P)
           (CPUStatsCollector.add_container (thread_appid th) (thread_taskid th) stats)) ->
  registries schN schM schC P (state_of (collect d s)) /\
  (forall fams s', collect d s = Ok fams s' -> fams = all_families s').
Proof.
  intros HN HM HC Hk.
  assert (registries schN schM schC P (cycle_start s)) as H0.
  { unfold cycle_start, cleanup_samples, bind, zoom, BaseStatsCollector.cleanup_samples, modify,
      log_call, modify, registries.
    cbn [state_of network memory cpu with_network with_memory with_cpu].
    split; [|split]; apply registry_inv_cleanup; assumption. }
  unfold started_workers in Hk. fold (cycle_start s) in Hk.
  rewrite collect_unfold.
  destruct (containers d) as [cs|e];
    [|split; [exact H0|intros ? ? H; discriminate H]].
  pose proof (frames_keeps (collect_containers d cs []) schN schM schC P
                (frames_collect_containers d cs []) (cycle_start s) H0) as H1.
  pose proof (started_returned d cs [] (cycle_start s)) as Hst.
  destruct (collect_containers d cs [] (cycle_start s)) as [threads s1|e s1];
    cbn [state_of] in H1 |- *.
  - rewrite (Hst _ _ eq_refl) in Hk. split.
    + apply join_keeps; assumption.
    + intros fams s' H. injection H as <- <-. reflexivity.
  - split; [apply join_keeps; assumption|intros ? ? H; discriminate H].
Qed.

Lemma definitions_of_schema st : map definition (values st) = map snd (schema st).
Proof. unfold values, schema. rewrite !map_map. reflexivity. Qed.

Lemma registries_all_families schN schM schC P s :
  registries schN schM schC P s ->
  Forall (fun m => Forall (P (labelnames m)) (samples m)) (all_families s).
Proof.
  intros ((_ & HN) & (_ & HM) & (_ & HC)). unfold all_families.
  apply Forall_app. split; [exact HN|]. apply Forall_app. split; [exact HM|exact HC].
Qed.

(** X9: a cycle never changes which families there are: whatever the daemon
    answers, and whether [collect] returns or raises, the three registries
    have afterwards the keys, in the same order, and the kinds, descriptions
    and label names they had before; what [collect] returns has the
    definitions of the families of the collector, in their order. *)
Theorem collect_keeps_definitions (d : Daemon) (s : DockerStatsCollector.t) :
  schema (network (state_of (collect d s))) = schema (network s) /\
  schema (memory (state_of (collect d s))) = schema (memory s) /\
  schema (cpu (state_of (collect d s))) = schema (cpu s) /\
  (forall fams s', collect d s = Ok fams s' ->
                   map definition fams = map definition (all_families s)).
Proof.
  destruct (collect_registries (schema (network s)) (schema (memory s)) (schema (cpu s))
              (fun _ _ => True) d s eq_refl eq_refl eq_refl) as [((HN & _) & (HM & _) & (HC & _)) Hex].
  { intros th _ stats. split; [|split].
    - apply (translators_keep_schema (schema (network s))).
    - apply (translators_keep_schema (schema (memory s))).
    - apply (translators_keep_schema (schema (cpu s))). }
  split; [exact HN|]. split; [exact HM|]. split; [exact HC|].
  intros fams s' Hrun. rewrite (Hex fams s' Hrun). rewrite Hrun in HN, HM, HC.
  cbn [state_of] in HN, HM, HC. unfold all_families.
  rewrite !map_app, !definitions_of_schema, HN, HM, HC. reflexivity.
Qed.

Lemma holds_for_identity_arity appid taskid : holds_for_identity arity_matches appid taskid.
Proof.
  intros names front x Hlen. unfold arity_matches. cbn [label_values].
  rewrite length_app. cbn [List.length]. lia.
Qed.

(** X10: label arity.  On a collector whose registries have the constructed
    families, after a cycle (returned or raised) every sample of every family
    has as many label values as the family has label names, whatever the
    stats documents contain and whichever translators raised on the way. *)
Theorem collect_label_arity (d : Daemon) (s : DockerStatsCollector.t) :
  collector_constructed_like s ->
  Forall (fun m => Forall (arity_matches (labelnames m)) (samples m))
         (all_families (state_of (collect d s))) /\
  (forall fams s', collect d s = Ok fams s' ->
     Forall (fun m => Forall (arity_matches (labelnames m)) (samples m)) fams).
Proof.
  intros (HN & HM & HC).
  destruct (collect_registries _ _ _ arity_matches d s HN HM HC) as [Hinv Hex].
  { intros th _ stats. split; [|split].
    - apply network_keeps, holds_for_identity_arity.
    - apply memory_keeps, holds_for_identity_arity.
    - apply cpu_keeps, holds_for_identity_arity. }
  pose proof (registries_all_families _ _ _ _ _ Hinv) as Hall.
  split; [exact Hall|]. intros fams s' Hrun. rewrite (Hex fams s' Hrun).
  rewrite Hrun in Hall. exact Hall.
Qed.

Lemma collect_label_arity_witness :
  Forall (fun m => Forall (arity_matches (labelnames m)) (samples m))
         (all_families (state_of (collect (daemon_with_env ["MESOS_TASK_ID=myapp.abcdefgh1234"])
                                          __init__))).
Proof.
  apply (collect_label_arity (daemon_with_env ["MESOS_TASK_ID=myapp.abcdefgh1234"]) __init__).
  repeat split; reflexivity.
Defined.

Lemma holds_for_identity_labelled ids appid taskid :
  In (appid, taskid) ids -> holds_for_identity (labelled_for ids) appid taskid.
Proof.
  intros Hin names front x _. exists front, appid, taskid. split; [exact Hin|reflexivity].
Qed.

End Invariants.

(** ** The details cache, further *)

Section CacheMore.

Import LruCache.

Lemma distinct_NoDup l : distinct l = true <-> NoDup l.
Proof.
  induction l as [|x l IH]; cbn [distinct].
  - split; [constructor|reflexivity].
  - rewrite NoDup_cons_iff, <- IH, andb_true_iff, negb_true_iff. split; intros [Hx Hl];
      (split; [|exact Hl]).
    + intros Hin. assert (existsb (String.eqb x) l = true) as E
        by (apply existsb_exists; exists x; split; [exact Hin|apply String.eqb_refl]).
      congruence.
    + destruct (existsb (String.eqb x) l) eqn:E; [|reflexivity].
      apply existsb_exists in E. destruct E as (y & Hin & Hy).
      apply String.eqb_eq in Hy. subst y. contradiction.
Qed.

Lemma find_cons_same (l : list (string * Details)) k v : find k ((k, v) :: l) = Some v.
Proof. cbn [find]. rewrite String.eqb_refl. reflexivity. Qed.

(** A call of [_details] keeps the cache within its capacity. *)
Lemma details_step_bounded d cid s :
  cache_bounded s = true -> cache_bounded (state_of (_details d cid s)) = true.
Proof.
  intros Hb. pose proof Hb as Hb0.
  unfold cache_bounded in Hb. apply andb_prop in Hb. destruct Hb as [Hmax Hsize].
  apply Nat.eqb_eq in Hmax. apply Nat.leb_le in Hsize.
  destruct (cached cid s) as [v|] eqn:Ec.
  - rewrite (_details_hit d _ _ _ Ec). cbn [state_of].
    unfold cache_bounded. cbn. rewrite Hmax. cbn. apply Nat.leb_le.
    pose proof (length_remove_found _ _ _ Ec). lia.
  - destruct (inspect_container d cid) as [v|e] eqn:Ev.
    + rewrite (_details_miss d _ _ _ Ec Ev). cbn [state_of].
      unfold cache_bounded. cbn [details_cache].
      unfold cached in Ec. unfold store. cbn [entries count_miss hits misses maxsize].
      rewrite Ec, Hmax.
      destruct (Nat.ltb_spec (List.length (entries (details_cache s))) 32) as [Hlt|Hge];
        cbn; apply Nat.leb_le; [lia|].
      destruct (entries (details_cache s)) as [|kv l] eqn:El; [cbn in Hge; lia|].
      assert (kv :: l <> []) as Hne by discriminate.
      pose proof (length_removelast _ Hne). lia.
    + unfold _details, wrapper. unfold cached in Ec. rewrite Ec.
      unfold _details_body, bind, log_call, modify, lift. cbn. rewrite Ev. cbn.
      exact Hb0.
Qed.

(** X12: every call of the cached [_details] is counted once.  On a cache
    within its capacity the call, whether it returns or raises, adds exactly
    one to hits + misses and leaves the cache within its capacity of 32; a
    call that returns leaves the returned details cached under the
    identifier; a call that raises is a miss whose [inspect_container]
    failed: it is counted, logged as a call to the daemon, and caches
    nothing. *)
Theorem details_call_accounting (d : Daemon) (cid : string) (s : DockerStatsCollector.t) :
  cache_bounded s = true ->
  let s' := state_of (_details d cid s) in
  cache_bounded s' = true /\
  hits (details_cache s') + misses (details_cache s')
  = hits (details_cache s) + misses (details_cache s) + 1 /\
  (forall v s1, _details d cid s = Ok v s1 -> cached cid s1 = Some v) /\
  (forall e s1, _details d cid s = Raise e s1 ->
     inspect_container d cid = Err e /\
     cached cid s = None /\
     entries (details_cache s1) = entries (details_cache s) /\
     misses (details_cache s1) = misses (details_cache s) + 1 /\
     api_log s1 = api_log s ++ [CallInspect cid]).
Proof.
  intros Hb s'. unfold cache_bounded in Hb. apply andb_prop in Hb. destruct Hb as [Hmax Hsize].
  apply Nat.eqb_eq in Hmax. apply Nat.leb_le in Hsize.
  destruct (cached cid s) as [v|] eqn:Ec.
  - pose proof (_details_hit d _ _ _ Ec) as Hrun. unfold s'. rewrite Hrun. cbn [state_of].
    split; [|split; [|split]].
    + unfold cache_bounded. cbn. rewrite Hmax. cbn. apply Nat.leb_le.
      pose proof (length_remove_found _ _ _ Ec). lia.
    + cbn. lia.
    + intros v1 s1 H. injection H as <- <-. unfold cached. cbn. apply find_cons_same.
    + intros e s1 H. discriminate H.
  - destruct (inspect_container d cid) as [v|e] eqn:Ev.
    + pose proof (_details_miss d _ _ _ Ec Ev) as Hrun. unfold s'. rewrite Hrun.
      cbn [state_of details_cache].
      unfold cached in Ec. unfold store. cbn [entries count_miss hits misses maxsize].
      rewrite Ec, Hmax.
      split; [|split; [|split]].
      * unfold cache_bounded.
        destruct (Nat.ltb_spec (List.length (entries (details_cache s))) 32) as [Hlt|Hge];
          cbn; rewrite ?Hmax; cbn; apply Nat.leb_le; [lia|].
        destruct (entries (details_cache s)) as [|kv l] eqn:El; [cbn in Hge; lia|].
        assert (kv :: l <> []) as Hne by discriminate.
        pose proof (length_removelast _ Hne). lia.
      * destruct (Nat.ltb _ _); cbn; lia.
      * intros v1 s1 H. injection H as <- <-. unfold cached. cbn [details_cache].
        destruct (Nat.ltb _ _); cbn [entries]; apply find_cons_same.
      * intros e s1 H. discriminate H.
    + assert (_details d cid s
              = Raise e (mkCollector (network s) (memory s) (cpu s)
                           (count_miss (details_cache s))
                           (api_log s ++ [CallInspect cid]))) as Hrun.
      { unfold _details, wrapper. unfold cached in Ec. rewrite Ec.
        unfold _details_body, bind, log_call, modify, lift. cbn. rewrite Ev. reflexivity. }
      unfold s'. rewrite Hrun. cbn [state_of details_cache].
      split; [|split; [|split]].
      * unfold cache_bounded. cbn. rewrite Hmax. cbn. apply Nat.leb_le. exact Hsize.
      * cbn. lia.
      * intros v1 s1 H. discriminate H.
      * intros e1 s1 H. injection H as <- <-. cbn. auto.
Qed.

Lemma details_call_accounting_witness :
  exists s1,
    _details idle_daemon "c1" __init__ = Raise APIError s1 /\
    DockerStatsCollector.cache_info s1 = mkCacheInfo 0 1 32 0 /\
    api_log s1 = [CallInspect "c1"].
Proof.
  destruct (details_call_accounting idle_daemon "c1" __init__ eq_refl)
    as (_ & _ & _ & Hraise).
  destruct (Hraise APIError (state_of (_details idle_daemon "c1" __init__)) eq_refl)
    as (_ & _ & _ & _ & Hlog).
  exists (state_of (_details idle_daemon "c1" __init__)).
  split; [reflexivity|]. split; [reflexivity|exact Hlog].
Defined.

Lemma lookups_cons d cid cids s :
  lookups d (cid :: cids) s
  = match _details d cid s with
    | Ok _ s1 => lookups d cids s1
    | Raise e s1 => Raise e s1
    end.
Proof.
  unfold lookups. cbn [for_each]. unfold bind at 1. unfold bind at 1.
  destruct (_details d cid s); reflexivity.
Qed.

(** X13: a hit refreshes an entry.  With the cache at capacity 32, looking
    up [first], [second], thirty further identifiers, then [first] again and
    one more identifier, all different and answered, evicts [second] and
    keeps [first]: the entry that was used again is not the one that makes
    room. *)
Theorem reaccess_protects_from_eviction (d : Daemon) (first second : string)
    (middle : list string) (last : string) (s : DockerStatsCollector.t) :
  cache_bounded s = true ->
  List.length middle = 30%nat ->
  distinct (first :: second :: middle ++ [last]) = true ->
  forallb (answers d) (first :: second :: middle ++ [last]) = true ->
  exists s',
    lookups d (first :: second :: middle ++ [first; last]) s = Ok tt s' /\
    cached second s' = None /\
    (exists v, cached first s' = Some v).
Proof.
  intros Hb Hlen Hd Ha.
  cbn [forallb] in Ha. apply andb_prop in Ha. destruct Ha as [Ha1 Ha].
  apply andb_prop in Ha. destruct Ha as [Ha2 Ha].
  apply distinct_NoDup in Hd. apply NoDup_cons_iff in Hd. destruct Hd as [Hf Hd].
  apply NoDup_cons_iff in Hd. destruct Hd as [Hs Hd].
  assert (NoDup (middle ++ [first; last])) as Hd'.
  { apply (NoDup_Add (Add_app first middle [last])). split; [exact Hd|].
    intros Hin. apply Hf. right. exact Hin. }
  assert (forallb (answers d) (middle ++ [first; last]) = true) as Ha'.
  { rewrite forallb_app in Ha |- *. apply andb_prop in Ha. destruct Ha as [Hm Hl].
    rewrite Hm. cbn [forallb] in Hl |- *. rewrite Ha1, Hl. reflexivity. }
  destruct (_details_front d first s [] (entries (details_cache s)) Hb Ha1 eq_refl)
    as (v1 & s1 & rest1 & Hrun1 & Hb1 & _); [intros []|cbn; lia|].
  destruct (_details_front d second s1 [] (entries (details_cache s1)) Hb1 Ha2 eq_refl)
    as (v2 & s2 & rest2 & Hrun2 & Hb2 & _); [intros []|cbn; lia|].
  destruct (lookups_front d (middle ++ [first; last]) s2 [] (entries (details_cache s2))
              Hb2 Ha' (proj2 (distinct_NoDup _) Hd') eq_refl)
    as (s' & rest' & Hrun & Hb' & Hkeys).
  { intros k _ []. }
  { rewrite length_app, Hlen. cbn. lia. }
  cbn [map app] in Hkeys.
  assert (rest' = []) as ->.
  { unfold cache_bounded in Hb'. apply andb_prop in Hb'. destruct Hb' as [_ Hsize].
    apply Nat.leb_le in Hsize.
    apply (f_equal (@List.length string)) in Hkeys.
    rewrite length_map, length_app, length_rev, length_app, Hlen in Hkeys.
    destruct rest'; [reflexivity|]. cbn [List.length] in Hkeys. lia. }
  rewrite app_nil_r in Hkeys.
  exists s'. split; [|split].
  - rewrite lookups_cons, Hrun1, lookups_cons, Hrun2. exact Hrun.
  - unfold cached. apply find_none_keys. rewrite Hkeys, <- in_rev.
    intros Hin. apply in_app_or in Hin. destruct Hin as [Hin|[Heq|[Heq|[]]]].
    + apply Hs. apply in_or_app. left. exact Hin.
    + apply Hf. left. congruence.
    + apply Hs. apply in_or_app. right. left. exact Heq.
  - destruct (cached first s') as [v|] eqn:Ec; [exists v; reflexivity|].
    exfalso. unfold cached in Ec. apply find_none_keys in Ec. apply Ec.
    rewrite Hkeys, <- in_rev. apply in_or_app. right. left. reflexivity.
Qed.

Lemma reaccess_protects_from_eviction_witness :
  exists s',
    lookups answering_daemon ("c00" :: "c01" :: cids_from 2 30 ++ ["c00"; "c32"]) __init__
    = Ok tt s' /\
    cached "c01" s' = None /\
    (exists v, cached "c00" s' = Some v).
Proof.
  exact (reaccess_protects_from_eviction answering_daemon "c00" "c01" (cids_from 2 30) "c32"
           __init__ eq_refl eq_refl eq_refl eq_refl).
Defined.

Lemma find_removelast_none (l : list (string * Details)) k :
  find k l = None -> find k (removelast l) = None.
Proof.
  intros H. destruct (find k (removelast l)) as [v|] eqn:E; [|reflexivity].
  apply find_removelast in E. congruence.
Qed.

(** Lookups of identifiers that are different and not cached are all
    misses. *)
Lemma lookups_all_misses d : forall cids s,
  cache_bounded s = true ->
  forallb (answers d) cids = true ->
  distinct cids = true ->
  forallb (fun k => uncached k s) cids = true ->
  exists s',
    lookups d cids s = Ok tt s' /\
    cache_bounded s' = true /\
    hits (details_cache s') = hits (details_cache s) /\
    misses (details_cache s') = misses (details_cache s) + Z.of_nat (List.length cids) /\
    List.length (entries (details_cache s'))
    = Nat.min (List.length (entries (details_cache s)) + List.length cids) 32 /\
    api_log s' = api_log s ++ map CallInspect cids.
Proof.
  induction cids as [|cid cids IH]; intros s Hb Ha Hd Hu.
  - exists s. split; [reflexivity|]. split; [exact Hb|].
    unfold cache_bounded in Hb. apply andb_prop in Hb. destruct Hb as [_ Hsize].
    apply Nat.leb_le in Hsize. cbn [List.length map]. rewrite app_nil_r.
    repeat split; lia.
  - cbn [forallb] in Ha, Hu. apply andb_prop in Ha. destruct Ha as [Ha1 Ha].
    apply andb_prop in Hu. destruct Hu as [Hu1 Hu].
    apply distinct_cons in Hd. destruct Hd as [Hnotin Hd].
    unfold uncached in Hu1. destruct (cached cid s) eqn:Ec; [discriminate|].
    unfold answers in Ha1. destruct (inspect_container d cid) as [v|] eqn:Ev; [|discriminate].
    pose proof (_details_miss d _ _ _ Ec Ev) as Hrun1.
    pose proof (details_step_bounded d cid s Hb) as Hb1. rewrite Hrun1 in Hb1.
    cbn [state_of] in Hb1.
    unfold cache_bounded in Hb. apply andb_prop in Hb. destruct Hb as [Hmax Hsize].
    apply Nat.eqb_eq in Hmax. apply Nat.leb_le in Hsize.
    match type of Hrun1 with _ = Ok _ ?st => set (s1 := st) in * end.
    assert (entries (details_cache s1)
            = (cid, v) :: (if Nat.ltb (List.length (entries (details_cache s))) 32
                           then entries (details_cache s)
                           else removelast (entries (details_cache s))) /\
            hits (details_cache s1) = hits (details_cache s) /\
            misses (details_cache s1) = misses (details_cache s) + 1) as (He1 & Hh1 & Hm1).
    { unfold s1. cbn [details_cache]. unfold cached in Ec. unfold store.
      cbn [entries count_miss hits misses maxsize]. rewrite Ec, Hmax.
      destruct (Nat.ltb _ _); cbn; auto. }
    destruct (IH s1 Hb1 Ha Hd) as (s' & Hrun & Hb' & Hh & Hm & Hl & Hlog).
    { apply forallb_forall. intros k Hk.
      pose proof (proj1 (forallb_forall _ _) Hu k Hk) as Hku.
      unfold uncached, cached in Hku |- *. rewrite He1. cbn [find].
      destruct (String.eqb_spec k cid) as [->|_]; [contradiction|].
      destruct (find k (entries (details_cache s))) eqn:Ek; [discriminate|].
      destruct (Nat.ltb _ _); [rewrite Ek; reflexivity|].
      rewrite (find_removelast_none _ _ Ek). reflexivity. }
    exists s'. split; [rewrite lookups_cons, Hrun1; exact Hrun|].
    split; [exact Hb'|]. split; [congruence|]. split; [|split].
    + rewrite Hm, Hm1. cbn [List.length]. lia.
    + rewrite Hl, He1. cbn [List.length].
      destruct (Nat.ltb_spec (List.length (entries (details_cache s))) 32) as [Hlt|Hge];
        [lia|].
      destruct (entries (details_cache s)) as [|kv l] eqn:El; [cbn in Hge; lia|].
      assert (kv :: l <> []) as Hne by discriminate.
      pose proof (length_removelast _ Hne). lia.
    + rewrite Hlog. unfold s1. cbn [api_log map]. rewrite <- app_assoc. reflexivity.
Qed.

(** X14: the cache statistics after a run of misses.  Looking up [n]
    different, answered identifiers that are not cached leaves the hit
    counter as it was, adds [n] to the miss counter, calls the daemon once
    per identifier in order, and brings the current size to the former size
    plus [n], capped at the capacity 32; a [LRUCacheStatsCollector] given
    this information reports these four numbers as its samples. *)
Theorem cache_info_after_misses (d : Daemon) (cids : list string)
    (s : DockerStatsCollector.t) :
  cache_bounded s = true ->
  forallb (answers d) cids = true ->
  distinct cids = true ->
  forallb (fun k => uncached k s) cids = true ->
  exists s',
    lookups d cids s = Ok tt s' /\
    DockerStatsCollector.cache_info s'
    = mkCacheInfo (hits (details_cache s))
                  (misses (details_cache s) + Z.of_nat (List.length cids))
                  32
                  (Z.of_nat (Nat.min (List.length (entries (details_cache s))
                                      + List.length cids) 32)) /\
    api_log s' = api_log s ++ map CallInspect cids /\
    exists fams st',
      LRUCacheStatsCollector.collect (Val (DockerStatsCollector.cache_info s'))
        (constructed LRUCacheStatsCollector.__init__) = Ok fams st' /\
      map (fun m => map value (samples m)) fams
      = [[Int (hits (details_cache s))];
         [Int (misses (details_cache s) + Z.of_nat (List.length cids))];
         [Int 32];
         [Int (Z.of_nat (Nat.min (List.length (entries (details_cache s))
                                  + List.length cids) 32))]].
Proof.
  intros Hb Ha Hd Hu.
  destruct (lookups_all_misses d cids s Hb Ha Hd Hu) as (s' & Hrun & Hb' & Hh & Hm & Hl & Hlog).
  exists s'. split; [exact Hrun|].
  assert (DockerStatsCollector.cache_info s'
          = mkCacheInfo (hits (details_cache s))
              (misses (details_cache s) + Z.of_nat (List.length cids)) 32
              (Z.of_nat (Nat.min (List.length (entries (details_cache s))
                                  + List.length cids) 32))) as Hinfo.
  { unfold DockerStatsCollector.cache_info, cache_info. rewrite Hh, Hm, Hl.
    unfold cache_bounded in Hb'. apply andb_prop in Hb'. destruct Hb' as [Hmax _].
    apply Nat.eqb_eq in Hmax. rewrite Hmax. reflexivity. }
  split; [exact Hinfo|]. split; [exact Hlog|].
  rewrite Hinfo. do 2 eexists. split; reflexivity.
Qed.

Lemma cache_info_after_misses_witness :
  exists s',
    lookups answering_daemon (cids_from 0 40) __init__ = Ok tt s' /\
    DockerStatsCollector.cache_info s' = mkCacheInfo 0 40 32 32.
Proof.
  destruct (cache_info_after_misses answering_daemon (cids_from 0 40) __init__
              eq_refl eq_refl eq_refl eq_refl) as (s' & Hrun & Hinfo & _).
  exists s'. split; [exact Hrun|exact Hinfo].
Defined.

End CacheMore.

(** ** A cycle, further *)

Section CycleMore.

Import LruCache.

Lemma cycle_start_effect s :
  details_cache (cycle_start s) = details_cache s /\
  api_log (cycle_start s) = api_log s ++ [CallContainers] /\
  all_families (cycle_start s) = map clear_samples (all_families s).
Proof.
  unfold cycle_start, cleanup_samples, bind, zoom, BaseStatsCollector.cleanup_samples, modify,
    log_call, modify, all_families, values.
  cbn [state_of network memory cpu with_network with_memory with_cpu details_cache api_log].
  split; [reflexivity|]. split; [reflexivity|].
  rewrite !map_app, !map_map. reflexivity.
Qed.

Lemma no_samples_clear l : forallb no_samples (map clear_samples l) = true.
Proof. induction l as [|m l IH]; [reflexivity|]. cbn. exact IH. Qed.

(** X15: when the daemon cannot list its containers, the cycle raises the
    error of the listing; by then the samples of the previous cycle are
    erased, the listing is the only call made, and the cache of the details
    is as it was. *)
Theorem listing_failure_ends_cycle (d : Daemon) (e : exn) (s : DockerStatsCollector.t) :
  containers d = Err e ->
  exists s',
    DockerStatsCollector.collect d s = Raise e s' /\
    forallb no_samples (all_families s') = true /\
    map definition (all_families s') = map definition (all_families s) /\
    details_cache s' = details_cache s /\
    api_log s' = api_log s ++ [CallContainers].
Proof.
  intros He. exists (cycle_start s).
  destruct (cycle_start_effect s) as (Hc & Hl & Hf).
  split; [rewrite collect_unfold, He; reflexivity|].
  split; [rewrite Hf; apply no_samples_clear|].
  split; [rewrite Hf, map_map; reflexivity|]. split; assumption.
Qed.

Lemma listing_failure_ends_cycle_witness :
  exists s',
    DockerStatsCollector.collect unreachable_daemon
      (state_of (DockerStatsCollector.collect
                   (daemon_with_env ["MESOS_TASK_ID=myapp.abcdefgh1234"])
                   DockerStatsCollector.__init__))
    = Raise APIError s' /\
    forallb no_samples (all_families s') = true.
Proof.
  destruct (listing_failure_ends_cycle unreachable_daemon APIError
              (state_of (DockerStatsCollector.collect
                           (daemon_with_env ["MESOS_TASK_ID=myapp.abcdefgh1234"])
                           DockerStatsCollector.__init__)) eq_refl)
    as (s' & Hrun & Hno & _).
  exists s'. split; [exact Hrun|exact Hno].
Defined.

(** With a coherent cache, [_details] returns what the daemon answers. *)
Lemma _details_answer d cid s v :
  cache_coherent d s ->
  inspect_container d cid = Val v ->
  exists s', _details d cid s = Ok v s' /\ cache_coherent d s'.
Proof.
  intros Hc Hv.
  destruct (_details_coherent d cid s Hc) as [(e & s' & Hr)|(v' & s' & Hr & Hv' & Hc')].
  - exfalso. destruct (cached cid s) as [v'|] eqn:Ec.
    + rewrite (_details_hit d _ _ _ Ec) in Hr. discriminate Hr.
    + rewrite (_details_miss d _ _ _ Ec Hv) in Hr. discriminate Hr.
  - exists s'. rewrite Hv in Hv'. injection Hv' as <-. split; assumption.
Qed.

(** With a coherent cache, [_details] raises what the daemon raises. *)
Lemma _details_failure d cid s e :
  cache_coherent d s ->
  inspect_container d cid = Err e ->
  exists s', _details d cid s = Raise e s'.
Proof.
  intros Hc He. destruct (cached cid s) as [v|] eqn:Ec.
  - rewrite (Hc _ _ Ec) in He. discriminate He.
  - unfold _details, wrapper. unfold cached in Ec. rewrite Ec.
    unfold _details_body, bind, log_call, modify, lift. cbn. rewrite He. cbn. eauto.
Qed.

Lemma collect_container_resolves d c threads s :
  cache_coherent d s ->
  if container_resolves d c
  then exists threads' s',
         collect_container d c threads s = Ok threads' s' /\ cache_coherent d s'
  else exists e s', collect_container d c threads s = Raise e s'.
Proof.
  intros Hc. unfold container_resolves.
  destruct (inspect_container d (Id c)) as [v|e] eqn:Ev.
  - destruct (_details_answer d (Id c) s v Hc Ev) as (s' & Hr & Hc').
    unfold collect_container, bind. rewrite Hr. unfold resolve_identity.
    destruct (env_parses (env_of v)) eqn:Ep.
    + rewrite (env_loop_parses _ None None Ep).
      destruct (last_task_value (env_of v)) as [w|]; cbn [lift identity_of_value fst snd];
        [|cbn; unfold ret; eauto].
      destruct (truthy (Some (before "."%char w)) &&
                truthy (Some (slice_to 8 (after "."%char w)))); unfold ret; eauto.
    + rewrite (env_loop_unparseable _ None None Ep). cbn [lift]. eauto.
  - destruct (_details_failure d (Id c) s e Hc Ev) as (s' & Hr).
    unfold collect_container, bind. rewrite Hr. eauto.
Qed.

Lemma collect_containers_resolve d : forall cs threads s,
  cache_coherent d s ->
  if forallb (container_resolves d) cs
  then exists threads' s',
         collect_containers d cs threads s = Ok threads' s' /\ cache_coherent d s'
  else exists e s', collect_containers d cs threads s = Raise e s'.
Proof.
  induction cs as [|c cs IH]; intros threads s Hc.
  - cbn. unfold ret. eauto.
  - cbn [forallb collect_containers]. unfold bind.
    pose proof (collect_container_resolves d c threads s Hc) as H1.
    destruct (container_resolves d c); cbn [andb].
    + destruct H1 as (threads' & s' & -> & Hc'). exact (IH threads' s' Hc').
    + destruct H1 as (e & s' & ->). eauto.
Qed.

Lemma cycle_start_coherent d s : cache_coherent d s -> cache_coherent d (cycle_start s).
Proof.
  intros Hc cid v. unfold cached. destruct (cycle_start_effect s) as (-> & _). apply Hc.
Qed.

(** X16: when a cycle succeeds.  With a cache that holds what the daemon
    answers, [collect] returns normally exactly when the daemon lists its
    containers and, for each one, answers the inspection with an environment
    whose entries all have one [=] and whose [MESOS_TASK_ID] values all have
    one [.]; what the stats requests of the workers do plays no part. *)
Theorem cycle_returns_iff_all_resolve (d : Daemon) (s : DockerStatsCollector.t) :
  cache_coherent d s ->
  (exists fams s', DockerStatsCollector.collect d s = Ok fams s') <->
  (exists cs, containers d = Val cs /\ forallb (container_resolves d) cs = true).
Proof.
  intros Hc. apply cycle_start_coherent in Hc.
  rewrite collect_unfold.
  destruct (containers d) as [cs|e].
  - pose proof (collect_containers_resolve d cs [] (cycle_start s) Hc) as H.
    split.
    + intros (fams & s' & Hrun). exists cs. split; [reflexivity|].
      destruct (forallb (container_resolves d) cs); [reflexivity|].
      destruct H as (e & s1 & Hr). rewrite Hr in Hrun. discriminate Hrun.
    + intros (cs' & Hcs & Hall). injection Hcs as <-. rewrite Hall in H.
      destruct H as (threads & s1 & -> & _). eauto.
  - split.
    + intros (fams & s' & Hrun). discriminate Hrun.
    + intros (cs & Hcs & _). discriminate Hcs.
Qed.

Lemma cycle_returns_iff_all_resolve_witness :
  (exists fams s',
     DockerStatsCollector.collect
       (daemon_without_stats "c1" ["PATH=/bin"; "MESOS_TASK_ID=myapp.abcdefgh1234"])
       DockerStatsCollector.__init__ = Ok fams s') /\
  ~ (exists fams s',
       DockerStatsCollector.collect (daemon_without_stats "c1" ["PATH"])
         DockerStatsCollector.__init__ = Ok fams s').
Proof.
  assert (forall d, cache_coherent d DockerStatsCollector.__init__) as Hc
    by (intros d cid v H; discriminate H).
  split.
  - apply (cycle_returns_iff_all_resolve _ _ (Hc _)).
    exists [mkContainer "c1"]. split; reflexivity.
  - intros H. apply (cycle_returns_iff_all_resolve _ _ (Hc _)) in H.
    destruct H as (cs & Hcs & Hall). injection Hcs as <-. discriminate Hall.
Defined.

(** *** The identity of a started worker *)

Lemma count_before_same c s : count c (before c s) = 0%nat.
Proof.
  induction s as [|x s IH]; [reflexivity|]. cbn.
  destruct (Ascii.eqb x c) eqn:E; [reflexivity|]. cbn. rewrite E. exact IH.
Qed.

Lemma count_before_le c' c s : (count c' (before c s) <= count c' s)%nat.
Proof.
  induction s as [|x s IH]; [cbn; lia|]. cbn.
  destruct (Ascii.eqb x c); cbn; destruct (Ascii.eqb x c'); lia.
Qed.

Lemma count_after_le c' c s : (count c' (after c s) <= count c' s)%nat.
Proof.
  induction s as [|x s IH]; [cbn; lia|]. cbn.
  destruct (Ascii.eqb x c); destruct (Ascii.eqb x c'); lia.
Qed.

Lemma count_after_same c s : count c (after c s) = Nat.pred (count c s).
Proof.
  induction s as [|x s IH]; [reflexivity|]. cbn.
  destruct (Ascii.eqb x c); [reflexivity|exact IH].
Qed.

Lemma count_slice_to_le c : forall n s, (count c (slice_to n s) <= count c s)%nat.
Proof.
  induction n as [|n IH]; intros [|x s]; cbn; try lia.
  specialize (IH s). destruct (Ascii.eqb x c); lia.
Qed.

Lemma length_slice_to : forall n s, (String.length (slice_to n s) <= n)%nat.
Proof.
  induction n as [|n IH]; intros [|x s]; cbn; try lia. specialize (IH s). lia.
Qed.

(** An identity the loop over the environment resolves to comes from a
    sentinel entry with one [=], whose value has one [.]. *)
Lemma resolve_identity_origin env a t :
  resolve_identity env = Val (Some a, Some t) ->
  exists v,
    count "="%char v = 0%nat /\ count "."%char v = 1%nat /\
    a = before "."%char v /\ t = slice_to 8 (after "."%char v).
Proof.
  unfold resolve_identity. intros Hr.
  destruct (env_parses env) eqn:Ep;
    [|rewrite (env_loop_unparseable _ None None Ep) in Hr; discriminate Hr].
  rewrite (env_loop_parses _ None None Ep) in Hr.
  unfold last_task_value in Hr.
  destruct (List.find is_task_entry (List.rev env)) as [e|] eqn:Ef; cbn [option_map] in Hr;
    [|discriminate Hr].
  apply find_some in Ef. destruct Ef as [Hin Ht]. apply in_rev in Hin.
  pose proof (proj1 (forallb_forall _ _) Ep e Hin) as He.
  unfold entry_parses in He. rewrite Ht in He. apply andb_prop in He.
  destruct He as [Heq Hdot]. apply Nat.eqb_eq in Heq. apply Nat.eqb_eq in Hdot.
  unfold identity_of_value in Hr. injection Hr as <- <-.
  exists (after "="%char e). split; [|split; [exact Hdot|split; reflexivity]].
  rewrite count_after_same, Heq. reflexivity.
Qed.

Lemma resolved_identity_well_formed env a t :
  resolve_identity env = Val (Some a, Some t) ->
  truthy (Some a) && truthy (Some t) = true ->
  identity_well_formed a t = true.
Proof.
  intros Hr Ht. apply andb_prop in Ht. destruct Ht as [Ha Hb].
  rewrite truthy_some in Ha, Hb.
  destruct (resolve_identity_origin env a t Hr) as (v & Heq & Hdot & -> & ->).
  unfold identity_well_formed. rewrite Ha, Hb. cbn [andb].
  pose proof (length_slice_to 8 (after "."%char v)) as Hlen.
  pose proof (count_before_same "."%char v) as H1.
  pose proof (count_slice_to_le "."%char 8 (after "."%char v)) as H2.
  rewrite count_after_same, Hdot in H2. cbn [Nat.pred] in H2.
  pose proof (count_before_le "="%char "."%char v) as H3.
  pose proof (count_slice_to_le "="%char 8 (after "."%char v)) as H4.
  pose proof (count_after_le "="%char "."%char v) as H5.
  rewrite (proj2 (Nat.leb_le _ _) Hlen). cbn [andb].
  rewrite !andb_true_iff. repeat split; apply Nat.eqb_eq; lia.
Qed.

Lemma collect_container_thread d c threads s threads' s' :
  collect_container d c threads s = Ok threads' s' ->
  threads' = threads \/
  exists a b, threads' = threads ++ [mkThread a b (Id c)] /\ identity_well_formed a b = true.
Proof.
  unfold collect_container, bind.
  destruct (_details d (Id c) s) as [v s1|e s1]; [|intros H; discriminate H].
  destruct (resolve_identity (env_of v)) as [[a t]|e] eqn:Er; cbn [lift fst snd];
    [|intros H; discriminate H].
  destruct (truthy a && truthy t) eqn:Et; unfold ret.
  - destruct a as [a|]; [|intros H; injection H as <- <-; left; reflexivity].
    destruct t as [t|]; intros H; injection H as <- <-; [|left; reflexivity].
    right. exists a, t. split; [reflexivity|].
    exact (resolved_identity_well_formed _ _ _ Er Et).
  - intros H. injection H as <- <-. left. reflexivity.
Qed.

(** *** Cached containers *)

Lemma cached_after_touch cid v k s :
  uncached k s = false ->
  uncached k (with_cache (touch cid v (details_cache s)) s) = false.
Proof.
  unfold uncached, cached. cbn [with_cache details_cache touch entries find].
  destruct (String.eqb k cid) eqn:E; [reflexivity|].
  rewrite (find_remove_other _ _ _ E). exact (fun H => H).
Qed.

Lemma collect_container_cached d c threads s :
  uncached (Id c) s = false ->
  (forall d', collect_container d' c threads s = collect_container d c threads s) /\
  api_log (state_of (collect_container d c threads s)) = api_log s /\
  (forall k, uncached k s = false ->
             uncached k (state_of (collect_container d c threads s)) = false).
Proof.
  unfold uncached at 1. destruct (cached (Id c) s) as [v|] eqn:Ec; [intros _|discriminate].
  assert (forall d', collect_container d' c threads s
            = (ids <- lift (resolve_identity (env_of v)) ;;
               if truthy (fst ids) && truthy (snd ids) then
                 match fst ids, snd ids with
                 | Some a, Some b => ret (threads ++ [mkThread a b (Id c)])
                 | _, _ => ret threads
                 end
               else ret threads)
              (with_cache (touch (Id c) v (details_cache s)) s)) as Hrun.
  { intros d'. unfold collect_container. unfold bind at 1.
    rewrite (_details_hit d' _ _ _ Ec). reflexivity. }
  split; [intros d'; rewrite !Hrun; reflexivity|].
  rewrite Hrun. unfold bind.
  destruct (resolve_identity (env_of v)) as [[a t]|e]; cbn [lift fst snd state_of].
  - assert (state_of ((if truthy a && truthy t
                       then match a, t with
                            | Some a0, Some b => ret (threads ++ [mkThread a0 b (Id c)])
                            | _, _ => ret threads
                            end
                       else ret threads)
                        (with_cache (touch (Id c) v (details_cache s)) s))
            = with_cache (touch (Id c) v (details_cache s)) s) as ->.
    { destruct (truthy a && truthy t); [|reflexivity].
      destruct a; [|reflexivity]. destruct t; reflexivity. }
    split; [reflexivity|]. intros k. apply cached_after_touch.
  - split; [reflexivity|]. intros k. apply cached_after_touch.
Qed.

Lemma collect_containers_cached d : forall cs threads s,
  forallb (fun c => negb (uncached (Id c) s)) cs = true ->
  (forall d', collect_containers d' cs threads s = collect_containers d cs threads s) /\
  api_log (state_of (collect_containers d cs threads s)) = api_log s.
Proof.
  induction cs as [|c cs IH]; intros threads s Hall.
  - split; reflexivity.
  - cbn [forallb] in Hall. apply andb_prop in Hall. destruct Hall as [Hc Hall].
    apply negb_true_iff in Hc.
    destruct (collect_container_cached d c threads s Hc) as (Hsame & Hlog & Hkeep).
    cbn [collect_containers]. unfold bind.
    assert (forall d', (match collect_container d' c threads s with
                        | Ok a s' => collect_containers d' cs a s'
                        | Raise e s' => Raise e s'
                        end)
                       = (match collect_container d c threads s with
                          | Ok a s' => collect_containers d' cs a s'
                          | Raise e s' => Raise e s'
                          end)) as Hhead
      by (intros d'; rewrite Hsame; reflexivity).
    destruct (collect_container d c threads s) as [threads1 s1|e s1]; cbn [state_of] in *.
    + assert (forallb (fun c0 => negb (uncached (Id c0) s1)) cs = true) as Hall1.
      { apply forallb_forall. intros c0 Hin. apply negb_true_iff. apply Hkeep.
        apply negb_true_iff. exact (proj1 (forallb_forall _ _) Hall c0 Hin). }
      destruct (IH threads1 s1 Hall1) as (IHsame & IHlog).
      split; [intros d'; rewrite Hhead; apply IHsame|]. rewrite IHlog. exact Hlog.
    + split; [intros d'; rewrite Hhead; reflexivity|exact Hlog].
Qed.

Lemma started_cached d : forall cs threads s,
  forallb (fun c => negb (uncached (Id c) s)) cs = true ->
  forall d', started d' cs threads s = started d cs threads s.
Proof.
  induction cs as [|c cs IH]; intros threads s Hall d'; [reflexivity|].
  cbn [forallb] in Hall. apply andb_prop in Hall. destruct Hall as [Hc Hall].
  apply negb_true_iff in Hc.
  destruct (collect_container_cached d c threads s Hc) as (Hsame & _ & Hkeep).
  cbn [started]. rewrite (Hsame d').
  destruct (collect_container d c threads s) as [threads1 s1|e s1]; cbn [state_of] in *;
    [|reflexivity].
  apply IH. apply forallb_forall. intros c0 Hin. apply negb_true_iff. apply Hkeep.
  apply negb_true_iff. exact (proj1 (forallb_forall _ _) Hall c0 Hin).
Qed.

Lemma run_thread_log d th s :
  api_log (run_thread d th s) = api_log s ++ [CallStats (thread_cid th)].
Proof.
  unfold run_thread. destruct (stats d (thread_cid th)) as [st|e|]; [| |reflexivity].
  - unfold _fetch_stats, DockerStatsCollector.add_container, bind, log_call, modify, lift, zoom.
    cbn beta iota. cbn [network memory cpu].
    match goal with
    | |- context [NetworkStatsCollector.add_container ?a ?b ?c ?st0] =>
        destruct (NetworkStatsCollector.add_container a b c st0)
    end; [|reflexivity].
    cbn [with_network network memory cpu].
    match goal with
    | |- context [MemoryStatsCollector.add_container ?a ?b ?c ?st0] =>
        destruct (MemoryStatsCollector.add_container a b c st0)
    end; [|reflexivity].
    cbn [with_memory network memory cpu].
    match goal with
    | |- context [CPUStatsCollector.add_container ?a ?b ?c ?st0] =>
        destruct (CPUStatsCollector.add_container a b c st0)
    end; reflexivity.
  - reflexivity.
Qed.

Lemma join_inspects d : forall threads s,
  filter is_inspect (api_log (fold_left (fun acc th => run_thread d th acc) threads s))
  = filter is_inspect (api_log s).
Proof.
  induction threads as [|th threads IH]; intros s; [reflexivity|].
  cbn [fold_left]. rewrite IH, run_thread_log, filter_app. cbn. apply app_nil_r.
Qed.

(** X19: containers whose details are cached are not inspected again.  In a
    cycle over containers that are all in the cache, no inspection request
    is made, and what the daemon would answer to one has no influence: the
    cycle is that of any daemon with the same list and the same stats, so an
    environment that changed since it was cached is not seen. *)
Theorem cached_containers_not_inspected (d : Daemon) (cs : list Container)
    (s : DockerStatsCollector.t) :
  containers d = Val cs ->
  forallb (fun c => negb (uncached (Id c) s)) cs = true ->
  filter is_inspect (api_log (state_of (DockerStatsCollector.collect d s)))
  = filter is_inspect (api_log s) /\
  (forall inspect',
     DockerStatsCollector.collect (mkDaemon (containers d) inspect' (stats d)) s
     = DockerStatsCollector.collect d s).
Proof.
  intros Hcs Hall.
  destruct (cycle_start_effect s) as (Hcache & Hlog & _).
  assert (forallb (fun c => negb (uncached (Id c) (cycle_start s))) cs = true) as Hall0.
  { apply forallb_forall. intros c Hin.
    pose proof (proj1 (forallb_forall _ _) Hall c Hin) as H.
    unfold uncached, cached in H |- *. rewrite Hcache. exact H. }
  destruct (collect_containers_cached d cs [] (cycle_start s) Hall0) as (Hsame & Hl).
  pose proof (started_cached d cs [] (cycle_start s) Hall0) as Hst.
  split.
  - rewrite collect_unfold, Hcs.
    destruct (collect_containers d cs [] (cycle_start s)) as [threads s1|e s1];
      cbn [state_of] in Hl |- *;
      rewrite join_inspects, Hl, Hlog, filter_app; cbn; apply app_nil_r.
  - intros inspect'. rewrite !collect_unfold. cbn [containers]. rewrite Hcs.
    rewrite (Hsame (mkDaemon (Val cs) inspect' (stats d))).
    rewrite (Hst (mkDaemon (Val cs) inspect' (stats d))).
    destruct (collect_containers d cs [] (cycle_start s)) as [threads s1|e s1];
      reflexivity.
Qed.

Lemma cached_containers_not_inspected_witness :
  exists fams s',
    DockerStatsCollector.collect
      (daemon_with_container "c1" ["MESOS_TASK_ID=other.12345678"])
      (state_of (DockerStatsCollector.collect
                   (daemon_with_container "c1" ["MESOS_TASK_ID=myapp.abcdefgh1234"])
                   DockerStatsCollector.__init__))
    = Ok fams s' /\
    filter is_inspect (api_log s') = [CallInspect "c1"] /\
    Forall (fun m => Forall (labelled_for [("myapp", "abcdefgh")] (labelnames m)) (samples m))
           fams.
Proof.
  destruct (cached_containers_not_inspected
              (daemon_with_container "c1" ["MESOS_TASK_ID=other.12345678"])
              [mkContainer "c1"]
              (state_of (DockerStatsCollector.collect
                           (daemon_with_container "c1" ["MESOS_TASK_ID=myapp.abcdefgh1234"])
                           DockerStatsCollector.__init__))
              eq_refl eq_refl) as (Hlog & _).
  eexists. eexists. split; [reflexivity|]. split; [exact Hlog|].
  repeat constructor;
    try (exists [], "myapp"%string, "abcdefgh"%string; split; [left|]; reflexivity);
    try (eexists [_], "myapp"%string, "abcdefgh"%string; split; [left|]; reflexivity).
Defined.

(** *** The order of the translators *)

(** X20: the translators run in the order network, memory, CPU, and the
    first exception ends the call.  With a memory limit of zero the call
    raises [ZeroDivisionError]: the network translator has run to its end,
    the memory translator up to the percentage, and the CPU translator not
    at all, so a worker given such a document leaves the CPU families as
    they were. *)
Theorem add_container_stops_at_memory_error (appid taskid : string) (doc : RawStats)
    (s : DockerStatsCollector.t) :
  families_defined NetworkStatsCollector.__init__ (network s) = true ->
  families_defined MemoryStatsCollector.__init__ (memory s) = true ->
  limit (memory_stats doc) = 0 ->
  exists s',
    DockerStatsCollector.add_container appid taskid doc s = Raise ZeroDivisionError s' /\
    NetworkStatsCollector.add_container appid taskid doc (network s) = Ok tt (network s') /\
    MemoryStatsCollector.add_container appid taskid doc (memory s)
    = Raise ZeroDivisionError (memory s') /\
    cpu s' = cpu s /\
    details_cache s' = details_cache s /\
    api_log s' = api_log s /\
    (forall d cid,
       stats d cid = Answered doc ->
       cpu (run_thread d (mkThread appid taskid cid) s) = cpu s).
Proof.
  intros HN HM Hlimit.
  destruct (network_loop appid taskid (networks doc) (network s) HN) as (stN & HrunN & _).
  change (NetworkStatsCollector.add_container appid taskid doc (network s) = Ok tt stN)
    in HrunN.
  destruct (memory_add_container_prefix appid taskid doc (memory s) HM)
    as (st4 & _ & _ & HrunM).
  assert (MemoryStatsCollector.add_container appid taskid doc (memory s)
          = Raise ZeroDivisionError st4) as HrunM'.
  { rewrite HrunM. unfold bind, int_truediv. rewrite Hlimit. reflexivity. }
  assert (forall s0,
            network s0 = network s -> memory s0 = memory s ->
            DockerStatsCollector.add_container appid taskid doc s0
            = Raise ZeroDivisionError
                (mkCollector stN st4 (cpu s0) (details_cache s0) (api_log s0))) as Hrun.
  { intros s0 E1 E2. unfold DockerStatsCollector.add_container, bind, zoom.
    rewrite E1, HrunN. cbn [with_network memory]. rewrite E2, HrunM'. reflexivity. }
  exists (mkCollector stN st4 (cpu s) (details_cache s) (api_log s)).
  split; [apply Hrun; reflexivity|]. cbn [network memory cpu details_cache api_log].
  split; [exact HrunN|]. split; [exact HrunM'|]. do 3 (split; [reflexivity|]).
  intros d cid Hst. unfold run_thread. cbn [thread_cid].
  rewrite Hst. unfold _fetch_stats, bind at 1, log_call, modify. unfold bind at 1.
  cbn [lift thread_appid thread_taskid]. rewrite Hrun; reflexivity.
Qed.

Lemma add_container_stops_at_memory_error_witness :
  exists s',
    DockerStatsCollector.add_container "myapp" "abcdefgh"
      (mkRawStats [("eth0", mkNetStats 10 0 2 0 20 0 3 0)]
                  (mkMemoryStats 4096 0 (mkMemDetail 1 2 3))
                  (mkCpuStats (mkCpuUsage 2000 [500] 300 700) 500000)
                  (mkCpuStats (mkCpuUsage 1000 [500] 250 650) 490000))
      DockerStatsCollector.__init__ = Raise ZeroDivisionError s' /\
    samples_of "container_network_transmit_bytes_total" (network s')
    = [mkSample ["eth0"; "myapp"; "abcdefgh"] (Int 20)] /\
    forallb no_samples (values (cpu s')) = true.
Proof.
  destruct (add_container_stops_at_memory_error "myapp" "abcdefgh"
              (mkRawStats [("eth0", mkNetStats 10 0 2 0 20 0 3 0)]
                          (mkMemoryStats 4096 0 (mkMemDetail 1 2 3))
                          (mkCpuStats (mkCpuUsage 2000 [500] 300 700) 500000)
                          (mkCpuStats (mkCpuUsage 1000 [500] 250 650) 490000))
              DockerStatsCollector.__init__ eq_refl eq_refl eq_refl)
    as (s' & Hrun & HN & _ & HC & _).
  exists s'. split; [exact Hrun|]. split.
  - injection HN as <-. reflexivity.
  - rewrite HC. reflexivity.
Defined.

(** *** The workers the loop starts *)

Lemma subsequence_tail : forall ys x xs,
  subsequence (x :: xs) ys = true -> subsequence xs ys = true.
Proof.
  induction ys as [|y ys IH]; intros x xs H; [discriminate H|].
  assert (subsequence xs ys = true) as Hxs.
  { cbn [subsequence] in H. destruct (String.eqb x y); [exact H|exact (IH _ _ H)]. }
  destruct xs as [|x' xs]; [reflexivity|]. cbn [subsequence].
  destruct (String.eqb x' y); [exact (IH _ _ Hxs)|exact Hxs].
Qed.

Lemma subsequence_skip y ys xs :
  subsequence xs ys = true -> subsequence xs (y :: ys) = true.
Proof.
  intros H. destruct xs as [|x xs]; [reflexivity|]. cbn [subsequence].
  destruct (String.eqb x y); [exact (subsequence_tail _ _ _ H)|exact H].
Qed.

(** With a coherent cache, the loop body starts the worker the answer of the
    daemon gives the container. *)
Lemma collect_container_thread_for d c threads s threads' s' :
  cache_coherent d s ->
  collect_container d c threads s = Ok threads' s' ->
  threads' = threads ++ thread_for d c /\ container_resolves d c = true.
Proof.
  intros Hc Hrun.
  pose proof (collect_container_resolves d c threads s Hc) as Hres.
  destruct (container_resolves d c) eqn:Er;
    [|destruct Hres as (e & s1 & Hr); rewrite Hr in Hrun; discriminate Hrun].
  split; [|reflexivity]. clear Hres.
  unfold container_resolves in Er. unfold thread_for.
  destruct (inspect_container d (Id c)) as [v|e] eqn:Ev; [|discriminate Er].
  destruct (_details_answer d (Id c) s v Hc Ev) as (s1 & Hr & _).
  unfold collect_container, bind in Hrun. rewrite Hr in Hrun.
  destruct (resolve_identity (env_of v)) as [[a t]|e]; cbn [lift fst snd] in Hrun;
    [|discriminate Hrun].
  destruct a as [a|], t as [t|];
    repeat match type of Hrun with
           | context [if ?b then _ else _] => destruct b
           end;
    unfold ret in Hrun; injection Hrun as <- _; rewrite ?app_nil_r; reflexivity.
Qed.

Lemma started_shape d : forall cs threads s,
  exists new,
    started d cs threads s = threads ++ new /\
    subsequence (map thread_cid new) (map Id cs) = true /\
    Forall (fun th => identity_well_formed (thread_appid th) (thread_taskid th) = true) new /\
    (cache_coherent d s -> new = flat_map (thread_for d) (take_while (container_resolves d) cs)).
Proof.
  induction cs as [|c cs IH]; intros threads s.
  - exists []. cbn. rewrite app_nil_r. repeat split; auto.
  - cbn [started map].
    pose proof (collect_container_thread d c threads s) as Hth.
    pose proof (collect_container_thread_for d c threads s) as Hfor.
    pose proof (collect_container_resolves d c threads s) as Hres.
    destruct (collect_container d c threads s) as [threads1 s1|e s1].
    + destruct (IH threads1 s1) as (new & Hnew & Hsub & Hwf & Hco). rewrite Hnew.
      destruct (Hth _ _ eq_refl) as [->|(a & b & -> & Hw)].
      * exists new. split; [reflexivity|]. split; [apply subsequence_skip; exact Hsub|].
        split; [exact Hwf|]. intros Hc.
        destruct (Hfor _ _ Hc eq_refl) as [Hthr Hr]. cbn [take_while flat_map]. rewrite Hr.
        cbn [flat_map].
        assert (thread_for d c = []) as ->.
        { apply (app_inv_head threads). rewrite app_nil_r. symmetry. exact Hthr. }
        specialize (Hres Hc). rewrite Hr in Hres.
        destruct Hres as (t1 & s1' & Hr1 & Hc1). injection Hr1 as _ <-.
        rewrite (Hco Hc1). reflexivity.
      * exists (mkThread a b (Id c) :: new). rewrite <- app_assoc.
        split; [reflexivity|]. split; [cbn; rewrite String.eqb_refl; exact Hsub|].
        split; [constructor; [exact Hw|exact Hwf]|]. intros Hc.
        destruct (Hfor _ _ Hc eq_refl) as [Hthr Hr]. cbn [take_while flat_map]. rewrite Hr.
        cbn [flat_map].
        apply app_inv_head in Hthr. rewrite <- Hthr.
        specialize (Hres Hc). rewrite Hr in Hres.
        destruct Hres as (t1 & s1' & Hr1 & Hc1). injection Hr1 as _ <-.
        rewrite (Hco Hc1). reflexivity.
    + exists []. rewrite app_nil_r. split; [reflexivity|]. split; [reflexivity|].
      split; [constructor|]. intros Hc. specialize (Hres Hc).
      destruct (container_resolves d c) eqn:Er.
      * destruct Hres as (t1 & s1' & Hr1 & _). discriminate Hr1.
      * cbn [take_while]. rewrite Er. reflexivity.
Qed.

(** X17: the workers of a cycle.  The loop starts workers for listed
    containers only, in the order of the listing and at most one for each,
    also when it ends by an exception; the identity a worker is given is
    well formed: appid and taskid are not empty, the taskid has at most eight
    characters, and neither contains a [.] or a [=].  With a cache that
    holds what the daemon answers, the workers are exactly those of the
    containers listed before the first one whose identity cannot be
    resolved. *)
Theorem started_worker_identity (d : Daemon) (s : DockerStatsCollector.t)
    (cs : list Container) :
  containers d = Val cs ->
  subsequence (map thread_cid (started_workers d s)) (map Id cs) = true /\
  Forall (fun th => identity_well_formed (thread_appid th) (thread_taskid th) = true)
         (started_workers d s) /\
  (cache_coherent d s ->
   started_workers d s = flat_map (thread_for d) (take_while (container_resolves d) cs)).
Proof.
  intros Hcs. unfold started_workers. rewrite Hcs. fold (cycle_start s).
  destruct (started_shape d cs [] (cycle_start s)) as (new & -> & Hsub & Hwf & Hco).
  cbn [app]. split; [exact Hsub|]. split; [exact Hwf|].
  intros Hc. apply Hco. apply cycle_start_coherent. exact Hc.
Qed.

Lemma started_worker_identity_witness :
  started_workers daemon_with_unparseable DockerStatsCollector.__init__
  = [mkThread "myapp" "abcdefgh" "good"] /\
  identity_well_formed "myapp" "abcdefgh" = true.
Proof.
  assert (cache_coherent daemon_with_unparseable DockerStatsCollector.__init__) as Hc
    by (intros cid v H; discriminate H).
  destruct (started_worker_identity daemon_with_unparseable DockerStatsCollector.__init__
              [mkContainer "good"; mkContainer "bad"] eq_refl) as (_ & Hwf & Hco).
  split; [exact (Hco Hc)|]. rewrite (Hco Hc) in Hwf. inversion Hwf as [|? ? H]. exact H.
Defined.

(** *** From the documents to the families *)

Lemma samples_of_cleanup k st :
  samples_of k (map (fun kv => (fst kv, clear_samples (snd kv))) st) = [].
Proof.
  unfold samples_of. induction st as [|[k' m] st IH]; [reflexivity|].
  cbn [map fst snd dict_get]. destruct (String.eqb k k'); [reflexivity|exact IH].
Qed.

Lemma memory_usage_after appid taskid doc st :
  families_defined MemoryStatsCollector.__init__ st = true ->
  schema (state_of (MemoryStatsCollector.add_container appid taskid doc st)) = schema st /\
  samples_of USAGE_BYTES (state_of (MemoryStatsCollector.add_container appid taskid doc st))
  = samples_of USAGE_BYTES st ++ [mkSample [appid; taskid] (Int (usage (memory_stats doc)))].
Proof.
  intros Hdef.
  destruct (memory_add_container_prefix appid taskid doc st Hdef) as (st4 & Hsch4 & Hs4 & Hrun).
  assert (samples_of USAGE_BYTES st4
          = samples_of USAGE_BYTES st
            ++ [mkSample [appid; taskid] (Int (usage (memory_stats doc)))]) as Hu.
  { rewrite Hs4. unfold USAGE_BYTES. cbn [String.eqb Ascii.eqb Bool.eqb].
    rewrite !app_nil_l. reflexivity. }
  rewrite Hrun. unfold bind.
  destruct (q <~ int_truediv (usage (memory_stats doc)) (limit (memory_stats doc)) ;;
            float_mul_int q 100) as [pc|e]; cbn [lift state_of]; [|split; assumption].
  destruct (stat_add_metric_effect "container_memory_usage_percent" [appid; taskid]
              (Float pc) st4) as (st5 & Hrun5 & Hsch5 & Hs5).
  { rewrite (schema_defined _ _ _ Hsch4).
    apply (families_defined_in _ _ _ Hdef). vm_compute. tauto. }
  rewrite Hrun5. cbn [state_of]. split; [congruence|].
  rewrite Hs5, Hu. unfold USAGE_BYTES. cbn [String.eqb Ascii.eqb Bool.eqb].
  apply app_nil_r.
Qed.

End CycleMore.

(** ** The connection *)

Section Connecting.

Import Connection.

(** X22: the client certificate of [main].  [main] reads the certificate
    from the variable [DOCKER_SSL_CLIENT_CER,T]; unless a variable of that
    name is set, the collector connects over plain [http] without a TLS
    configuration, to the host and port of the environment or to
    127.0.0.1:2376, whatever [DOCKER_SSL_CLIENT_CERT], [DOCKER_SSL_CLIENT_KEY]
    and [DOCKER_SSL_CA_CERT] are set to. *)
Theorem main_connects_without_tls (environ : Environ) :
  environ_get "DOCKER_SSL_CLIENT_CER,T" environ = None ->
  _connect (docker_collector_params environ)
  = mkClientArgs
      (String.append "http://"
         (String.append (environ_get_default "DOCKER_REMOTE_HOST" "127.0.0.1" environ)
            (String.append ":"
               (String.append (environ_get_default "DOCKER_REMOTE_PORT" "2376" environ) "/"))))
      "1.21" 5 None /\
  forall cert,
    _connect (docker_collector_params (("DOCKER_SSL_CLIENT_CERT", cert) :: environ))
    = _connect (docker_collector_params environ).
Proof.
  intros Hnone.
  assert (forall env', environ_get "DOCKER_SSL_CLIENT_CER,T" env' = None ->
            _connect (docker_collector_params env')
            = mkClientArgs
                (String.append "http://"
                   (String.append (environ_get_default "DOCKER_REMOTE_HOST" "127.0.0.1" env')
                      (String.append ":"
                         (String.append (environ_get_default "DOCKER_REMOTE_PORT" "2376" env')
                                        "/"))))
                "1.21" 5 None) as H.
  { intros env' Hn. unfold _connect, docker_collector_params.
    cbn [client_cert client_key ca_cert host port]. rewrite Hn. reflexivity. }
  split; [exact (H environ Hnone)|].
  intros cert. rewrite (H environ Hnone).
  rewrite (H (("DOCKER_SSL_CLIENT_CERT", cert) :: environ)) by (cbn; exact Hnone).
  reflexivity.
Qed.

Lemma main_connects_without_tls_witness :
  _connect (docker_collector_params [("DOCKER_REMOTE_HOST", "10.0.0.7");
                                     ("DOCKER_SSL_CLIENT_CERT", "/etc/ssl/cert.pem");
                                     ("DOCKER_SSL_CLIENT_KEY", "/etc/ssl/key.pem");
                                     ("DOCKER_SSL_CA_CERT", "/etc/ssl/ca.pem")])
  = mkClientArgs "http://10.0.0.7:2376/" "1.21" 5 None.
Proof.
  exact (proj1 (main_connects_without_tls
                  [("DOCKER_REMOTE_HOST", "10.0.0.7");
                   ("DOCKER_SSL_CLIENT_CERT", "/etc/ssl/cert.pem");
                   ("DOCKER_SSL_CLIENT_KEY", "/etc/ssl/key.pem");
                   ("DOCKER_SSL_CA_CERT", "/etc/ssl/ca.pem")] eq_refl)).
Defined.

End Connecting.

(** ** The workers in time *)

Section TimedCycle.

Import LruCache.

(** *** A worker that runs to its end *)

Lemma add_container_keeps schN schM schC P appid taskid doc :
  keeps (registry_inv schN P) (NetworkStatsCollector.add_container appid taskid doc) ->
  keeps (registry_inv schM P) (MemoryStatsCollector.add_container appid taskid doc) ->
  keeps (registry_inv schC P) (CPUStatsCollector.add_container appid taskid doc) ->
  keeps (registries schN schM schC P) (DockerStatsCollector.add_container appid taskid doc).
Proof.
  intros KN KM KC. unfold DockerStatsCollector.add_container.
  apply keeps_bind;
    [apply (proj1 (keeps_zoom_registries _ _ _ _ _ (ret tt) (ret tt))); exact KN|intros _].
  apply keeps_bind;
    [apply (proj1 (proj2 (keeps_zoom_registries _ _ _ _ (ret tt) _ (ret tt)))); exact KM
    |intros _].
  apply (proj2 (proj2 (keeps_zoom_registries _ _ _ _ (ret tt) (ret tt) _))). exact KC.
Qed.

(** [add_container] touches neither the cache nor the requests made. *)
Lemma add_container_frame appid taskid doc s :
  details_cache (state_of (DockerStatsCollector.add_container appid taskid doc s))
  = details_cache s /\
  api_log (state_of (DockerStatsCollector.add_container appid taskid doc s)) = api_log s.
Proof.
  destruct s as [n m c dc lg].
  unfold DockerStatsCollector.add_container, bind, zoom, with_network, with_memory, with_cpu.
  cbn [network memory cpu details_cache api_log].
  destruct (NetworkStatsCollector.add_container appid taskid doc n);
    cbn [network memory cpu details_cache api_log]; [|split; reflexivity].
  destruct (MemoryStatsCollector.add_container appid taskid doc m);
    cbn [network memory cpu details_cache api_log]; [|split; reflexivity].
  destruct (CPUStatsCollector.add_container appid taskid doc c); split; reflexivity.
Qed.

(** What [add_container] leaves in the memory usage family, whatever the
    translators do after the usage sample. *)
Lemma add_container_memory_usage appid taskid doc s :
  families_defined NetworkStatsCollector.__init__ (network s) = true ->
  families_defined MemoryStatsCollector.__init__ (memory s) = true ->
  let s' := state_of (DockerStatsCollector.add_container appid taskid doc s) in
  schema (network s') = schema (network s) /\
  schema (memory s') = schema (memory s) /\
  samples_of USAGE_BYTES (memory s')
  = samples_of USAGE_BYTES (memory s)
    ++ [mkSample [appid; taskid] (Int (usage (memory_stats doc)))].
Proof.
  intros HN HM.
  destruct (network_loop appid taskid (networks doc) (network s) HN)
    as (stN & HrunN & HschN & _).
  change (NetworkStatsCollector.add_container appid taskid doc (network s) = Ok tt stN)
    in HrunN.
  destruct (memory_usage_after appid taskid doc (memory s) HM) as (HschM & Hu).
  destruct s as [n m c dc lg]. cbn [network memory] in *.
  unfold DockerStatsCollector.add_container, bind, zoom, with_network, with_memory, with_cpu.
  cbn [network memory cpu details_cache api_log]. rewrite HrunN.
  cbn [network memory cpu details_cache api_log].
  destruct (MemoryStatsCollector.add_container appid taskid doc m)
    as [[] stM|e stM]; cbn [state_of] in HschM, Hu;
    cbn [network memory cpu details_cache api_log state_of].
  - destruct (CPUStatsCollector.add_container appid taskid doc c);
      cbn [state_of network memory]; auto.
  - auto.
Qed.

Lemma land_frame wk s :
  details_cache (Timed.land wk s) = details_cache s /\
  api_log (Timed.land wk s) = api_log s.
Proof.
  unfold Timed.land. destruct (Timed.worker_fetch wk); [|split; reflexivity..].
  apply add_container_frame.
Qed.

Lemma lands_frame : forall ws s,
  details_cache (fold_left (fun acc wk => Timed.land wk acc) ws s) = details_cache s /\
  api_log (fold_left (fun acc wk => Timed.land wk acc) ws s) = api_log s.
Proof.
  induction ws as [|wk ws IH]; intros s; [split; reflexivity|].
  cbn [fold_left]. destruct (IH (Timed.land wk s)) as [-> ->]. apply land_frame.
Qed.

(** The workers keep an invariant of the registries that the translators
    keep for their identities. *)
Lemma lands_keeps schN schM schC P : forall ws s,
  (forall wk, In wk ws -> forall doc,
     Timed.worker_fetch wk = Answered doc ->
     keeps (registry_inv schN P)
           (NetworkStatsCollector.add_container (thread_appid (Timed.worker_thread wk))
              (thread_taskid (Timed.worker_thread wk)) doc) /\
     keeps (registry_inv schM P)
           (MemoryStatsCollector.add_container (thread_appid (Timed.worker_thread wk))
              (thread_taskid (Timed.worker_thread wk)) doc) /\
     keeps (registry_inv schC P)
           (CPUStatsCollector.add_container (thread_appid (Timed.worker_thread wk))
              (thread_taskid (Timed.worker_thread wk)) doc)) ->
  registries schN schM schC P s ->
  registries schN schM schC P (fold_left (fun acc wk => Timed.land wk acc) ws s).
Proof.
  induction ws as [|wk ws IH]; intros s Hk Hs; [exact Hs|].
  cbn [fold_left]. apply IH; [intros wk' Hin; apply Hk; right; exact Hin|].
  unfold Timed.land. destruct (Timed.worker_fetch wk) as [doc|e|] eqn:Ef; [|exact Hs..].
  destruct (Hk wk (or_introl eq_refl) doc Ef) as (KN & KM & KC).
  exact (add_container_keeps _ _ _ _ _ _ _ KN KM KC s Hs).
Qed.

Lemma lands_usage : forall ws s,
  families_defined NetworkStatsCollector.__init__ (network s) = true ->
  families_defined MemoryStatsCollector.__init__ (memory s) = true ->
  samples_of USAGE_BYTES (memory (fold_left (fun acc wk => Timed.land wk acc) ws s))
  = samples_of USAGE_BYTES (memory s) ++ map usage_sample (documents ws).
Proof.
  induction ws as [|wk ws IH]; intros s HN HM.
  - cbn. rewrite app_nil_r. reflexivity.
  - cbn [fold_left]. unfold documents. cbn [flat_map]. fold (documents ws).
    unfold Timed.land at 2. destruct (Timed.worker_fetch wk) as [doc|e|];
      [|cbn [app]; exact (IH s HN HM)..].
    destruct (add_container_memory_usage (thread_appid (Timed.worker_thread wk))
                (thread_taskid (Timed.worker_thread wk)) doc s HN HM) as (HschN & HschM & Hu).
    rewrite IH.
    + rewrite Hu, <- app_assoc. reflexivity.
    + exact (families_defined_schema _ _ _ HschN HN).
    + exact (families_defined_schema _ _ _ HschM HM).
Qed.

(** *** The order of the workers *)

Lemma insert_by_time_perm wk : forall ws,
  Permutation.Permutation (Timed.insert_by_time wk ws) (wk :: ws).
Proof.
  induction ws as [|x ws IH]; [apply Permutation.Permutation_refl|].
  cbn [Timed.insert_by_time].
  destruct (Timed.returns_at wk <=? Timed.returns_at x); [apply Permutation.Permutation_refl|].
  apply Permutation.perm_trans with (x :: wk :: ws);
    [apply Permutation.perm_skip; exact IH|apply Permutation.perm_swap].
Qed.

Lemma by_time_perm : forall ws, Permutation.Permutation (Timed.by_time ws) ws.
Proof.
  induction ws as [|wk ws IH]; [apply Permutation.perm_nil|].
  unfold Timed.by_time. cbn [fold_right]. fold (Timed.by_time ws).
  apply Permutation.perm_trans with (wk :: Timed.by_time ws);
    [apply insert_by_time_perm|apply Permutation.perm_skip; exact IH].
Qed.

Lemma documents_perm ws ws' :
  Permutation.Permutation ws ws' -> Permutation.Permutation (documents ws) (documents ws').
Proof.
  induction 1 as [|x l l' _ IH|x y l|l l' l'' _ IH1 _ IH2].
  - apply Permutation.perm_nil.
  - unfold documents. cbn [flat_map]. apply Permutation.Permutation_app_head. exact IH.
  - unfold documents. cbn [flat_map]. rewrite !app_assoc.
    apply Permutation.Permutation_app_tail. apply Permutation.Permutation_app_comm.
  - exact (Permutation.perm_trans IH1 IH2).
Qed.

(** *** What the workers have done by a moment *)

Lemma arrive_frame now w :
  details_cache (Timed.collector (Timed.arrive now w)) = details_cache (Timed.collector w) /\
  api_log (Timed.collector (Timed.arrive now w)) = api_log (Timed.collector w).
Proof. apply lands_frame. Qed.

Lemma arrive_usage now w :
  families_defined NetworkStatsCollector.__init__ (network (Timed.collector w)) = true ->
  families_defined MemoryStatsCollector.__init__ (memory (Timed.collector w)) = true ->
  Permutation.Permutation
    (samples_of USAGE_BYTES (memory (Timed.collector (Timed.arrive now w))))
    (samples_of USAGE_BYTES (memory (Timed.collector w))
     ++ map usage_sample (landed now (Timed.in_flight w))).
Proof.
  intros HN HM. unfold Timed.arrive. cbn [Timed.collector].
  rewrite lands_usage by assumption.
  apply Permutation.Permutation_app_head, Permutation.Permutation_map.
  unfold landed. apply documents_perm, by_time_perm.
Qed.

(** An identity is among those of the workers that were given a document. *)
Lemma documents_identity wk doc ws :
  In wk ws -> Timed.worker_fetch wk = Answered doc ->
  In (thread_identity (Timed.worker_thread wk)) (identities (documents ws)).
Proof.
  intros Hin Hf. unfold identities. apply in_map_iff.
  exists (Timed.worker_thread wk, doc). split; [reflexivity|].
  unfold documents. apply in_flat_map. exists wk. split; [exact Hin|].
  rewrite Hf. left. reflexivity.
Qed.

(** On registries with the constructed families, the workers that have
    returned by [now] leave samples of their identities only. *)
Lemma arrive_labels now w ids :
  incl (identities (landed now (Timed.in_flight w))) ids ->
  let schN := schema (constructed NetworkStatsCollector.__init__) in
  let schM := schema (constructed MemoryStatsCollector.__init__) in
  let schC := schema (constructed CPUStatsCollector.__init__) in
  registries schN schM schC (labelled_for ids) (Timed.collector w) ->
  registries schN schM schC (labelled_for ids) (Timed.collector (Timed.arrive now w)).
Proof.
  intros Hincl schN schM schC Hs. unfold Timed.arrive. cbn [Timed.collector].
  apply lands_keeps; [|exact Hs].
  intros wk Hin doc Hf.
  assert (In wk (filter (Timed.returned now) (Timed.in_flight w))) as Hin'
    by (exact (Permutation.Permutation_in _ (by_time_perm _) Hin)).
  assert (holds_for_identity (labelled_for ids) (thread_appid (Timed.worker_thread wk))
            (thread_taskid (Timed.worker_thread wk))) as Hid.
  { apply holds_for_identity_labelled. apply Hincl.
    exact (documents_identity wk doc _ Hin' Hf). }
  split; [apply network_keeps; exact Hid|].
  split; [apply memory_keeps; exact Hid|apply cpu_keeps; exact Hid].
Qed.

(** *** The loop over the containers *)

Lemma same_registries_refl s : same_registries s s.
Proof. repeat split. Qed.

Lemma same_registries_trans s1 s2 s3 :
  same_registries s1 s2 -> same_registries s2 s3 -> same_registries s1 s3.
Proof. intros (A & B & C) (A' & B' & C'). repeat split; congruence. Qed.

Lemma same_registries_details d cid s :
  same_registries s (state_of (_details d cid s)).
Proof. exact (frames_details d cid s). Qed.

(** With a coherent cache, the loop body starts the worker of the container
    when the identity resolves, and raises when it does not. *)
Lemma timed_collect_container sch d c threads w :
  cache_coherent d (Timed.collector w) ->
  exists s2,
    same_registries (Timed.collector w) s2 /\
    if container_resolves d c
    then cache_coherent d s2 /\
         Timed.collect_container sch d c threads w
         = Ok (threads ++ thread_for d c)
              (Timed.mkWorld s2 (Timed.in_flight w
                                 ++ map (Timed.worker_of sch d) (thread_for d c)))
    else exists e,
         Timed.collect_container sch d c threads w
         = Raise e (Timed.mkWorld s2 (Timed.in_flight w)).
Proof.
  intros Hc. unfold container_resolves, thread_for.
  pose proof (same_registries_details d (Id c) (Timed.collector w)) as Hsame.
  destruct (inspect_container d (Id c)) as [v|e] eqn:Ev.
  - destruct (_details_answer d (Id c) _ v Hc Ev) as (s1 & Hr & Hc1).
    rewrite Hr in Hsame. cbn [state_of] in Hsame.
    unfold Timed.collect_container, bind, zoom. rewrite Hr.
    cbn [Timed.with_collector]. unfold resolve_identity.
    destruct (env_parses (env_of v)) eqn:Ep.
    + rewrite (env_loop_parses _ None None Ep).
      destruct (last_task_value (env_of v)) as [x|];
        cbn [lift identity_of_value fst snd].
      * destruct (truthy (Some (before "."%char x)) &&
                  truthy (Some (slice_to 8 (after "."%char x)))).
        -- exists (state_of (log_call (CallStats (Id c)) s1)). split; [exact Hsame|].
           split; [intros cid v' H; exact (Hc1 cid v' H)|]. reflexivity.
        -- exists s1. split; [exact Hsame|]. split; [exact Hc1|].
           cbn [map]. rewrite !app_nil_r. reflexivity.
      * exists s1. split; [exact Hsame|]. split; [exact Hc1|].
        cbn [map]. rewrite !app_nil_r. reflexivity.
    + rewrite (env_loop_unparseable _ None None Ep). cbn [lift].
      exists s1. split; [exact Hsame|]. exists ValueError. reflexivity.
  - destruct (_details_failure d (Id c) _ e Hc Ev) as (s1 & Hr).
    rewrite Hr in Hsame. cbn [state_of] in Hsame.
    unfold Timed.collect_container, bind, zoom. rewrite Hr.
    exists s1. split; [exact Hsame|]. exists e. reflexivity.
Qed.

Lemma take_while_all {A} (f : A -> bool) : forall l,
  forallb f l = true -> take_while f l = l.
Proof.
  induction l as [|x l IH]; intros H; [reflexivity|].
  cbn [forallb] in H. apply andb_prop in H. destruct H as [Hx Hl].
  cbn [take_while]. rewrite Hx, (IH Hl). reflexivity.
Qed.

Lemma timed_collect_containers sch d : forall cs threads w,
  cache_coherent d (Timed.collector w) ->
  let new := flat_map (thread_for d) (take_while (container_resolves d) cs) in
  exists s2,
    same_registries (Timed.collector w) s2 /\
    if forallb (container_resolves d) cs
    then Timed.collect_containers sch d cs threads w
         = Ok (threads ++ new)
              (Timed.mkWorld s2 (Timed.in_flight w ++ map (Timed.worker_of sch d) new))
    else exists e,
         Timed.collect_containers sch d cs threads w
         = Raise e (Timed.mkWorld s2 (Timed.in_flight w ++ map (Timed.worker_of sch d) new)).
Proof.
  induction cs as [|c cs IH]; intros threads w Hc new.
  - exists (Timed.collector w). split; [apply same_registries_refl|].
    unfold new. cbn. rewrite !app_nil_r. destruct w; reflexivity.
  - destruct (timed_collect_container sch d c threads w Hc) as (s1 & Hsame1 & H1).
    unfold new. cbn [take_while forallb Timed.collect_containers]. unfold bind.
    destruct (container_resolves d c); cbn [andb].
    + destruct H1 as (Hc1 & ->).
      destruct (IH (threads ++ thread_for d c)
                  (Timed.mkWorld s1 (Timed.in_flight w
                                     ++ map (Timed.worker_of sch d) (thread_for d c))) Hc1)
        as (s2 & Hsame2 & H2).
      cbn [Timed.collector Timed.in_flight] in Hsame2, H2.
      exists s2. split; [exact (same_registries_trans _ _ _ Hsame1 Hsame2)|].
      cbn [flat_map]. rewrite map_app, !app_assoc.
      destruct (forallb (container_resolves d) cs); [exact H2|].
      destruct H2 as (e & H2). exists e. exact H2.
    + destruct H1 as (e & ->). exists s1. split; [exact Hsame1|].
      exists e. cbn. rewrite app_nil_r. reflexivity.
Qed.

(** *** The cycle *)

Lemma timed_collect_shape sch d w :
  let w1 := Timed.mkWorld (cycle_start (Timed.collector (Timed.arrive (Timed.begins sch) w)))
                          (Timed.in_flight (Timed.arrive (Timed.begins sch) w)) in
  Timed.collect sch d w
  = match containers d with
    | Val cs =>
        match Timed.collect_containers sch d cs [] w1 with
        | Ok threads w2 =>
            Ok (all_families (Timed.collector (Timed.arrive (read_out sch d threads) w2)))
               (Timed.arrive (read_out sch d threads) w2)
        | Raise e w2 => Raise e w2
        end
    | Err e => Raise e w1
    end.
Proof.
  intros w1. unfold Timed.collect. unfold bind at 1 2 3.
  assert ((modify (Timed.arrive (Timed.begins sch)) ;;;
           zoom Timed.collector Timed.with_collector cleanup_samples ;;;
           zoom Timed.collector Timed.with_collector (log_call CallContainers)) w
          = Ok tt w1) as Hstart by reflexivity.
  unfold bind at 1 2 in Hstart. destruct (modify (Timed.arrive (Timed.begins sch)) w)
    as [[] wa|e wa] eqn:Ea; [|discriminate Hstart].
  destruct (zoom Timed.collector Timed.with_collector cleanup_samples wa)
    as [[] wb|e wb] eqn:Eb; [|discriminate Hstart].
  rewrite Hstart. unfold bind.
  destruct (containers d) as [cs|e]; cbn [lift]; [|reflexivity].
  destruct (Timed.collect_containers sch d cs [] w1) as [threads w2|e w2]; reflexivity.
Qed.

Lemma every_sample_trivial st : every_sample (fun _ _ => True) st.
Proof.
  unfold every_sample. apply Forall_forall. intros m _. apply Forall_forall. intros x _.
  exact I.
Qed.

Lemma coherent_same_cache d s s' :
  details_cache s' = details_cache s -> cache_coherent d s -> cache_coherent d s'.
Proof. intros E Hc cid v. unfold cached. rewrite E. apply Hc. Qed.

(** The workers keep the keys and definitions of the registries. *)
Lemma arrive_schema now w :
  schema (network (Timed.collector (Timed.arrive now w))) = schema (network (Timed.collector w)) /\
  schema (memory (Timed.collector (Timed.arrive now w))) = schema (memory (Timed.collector w)) /\
  schema (cpu (Timed.collector (Timed.arrive now w))) = schema (cpu (Timed.collector w)).
Proof.
  assert (registries (schema (network (Timed.collector w)))
            (schema (memory (Timed.collector w))) (schema (cpu (Timed.collector w)))
            (fun _ _ => True) (Timed.collector (Timed.arrive now w))) as ((HN & _) & (HM & _) & (HC & _)).
  { unfold Timed.arrive. cbn [Timed.collector]. apply lands_keeps.
    - intros wk _ doc _.
      destruct (translators_keep_schema (schema (network (Timed.collector w)))
                  (thread_appid (Timed.worker_thread wk))
                  (thread_taskid (Timed.worker_thread wk)) doc) as (KN & _).
      destruct (translators_keep_schema (schema (memory (Timed.collector w)))
                  (thread_appid (Timed.worker_thread wk))
                  (thread_taskid (Timed.worker_thread wk)) doc) as (_ & KM & _).
      destruct (translators_keep_schema (schema (cpu (Timed.collector w)))
                  (thread_appid (Timed.worker_thread wk))
                  (thread_taskid (Timed.worker_thread wk)) doc) as (_ & _ & KC).
      auto.
    - repeat split; apply every_sample_trivial. }
  auto.
Qed.

(** The state in which the loop of a cycle starts: the registries as
    constructed and without samples. *)
Lemma timed_start_clean sch w P :
  collector_constructed_like (Timed.collector w) ->
  let s1 := cycle_start (Timed.collector (Timed.arrive (Timed.begins sch) w)) in
  registries (schema (constructed NetworkStatsCollector.__init__))
             (schema (constructed MemoryStatsCollector.__init__))
             (schema (constructed CPUStatsCollector.__init__)) P s1 /\
  samples_of USAGE_BYTES (memory s1) = [].
Proof.
  intros (HN & HM & HC) s1.
  destruct (arrive_schema (Timed.begins sch) w) as (AN & AM & AC).
  unfold constructed_like in HN, HM, HC.
  assert (forall s, network (cycle_start s)
                    = map (fun kv => (fst kv, clear_samples (snd kv))) (network s) /\
                    memory (cycle_start s)
                    = map (fun kv => (fst kv, clear_samples (snd kv))) (memory s) /\
                    cpu (cycle_start s)
                    = map (fun kv => (fst kv, clear_samples (snd kv))) (cpu s)) as Hclean
    by (intros s; repeat split).
  destruct (Hclean (Timed.collector (Timed.arrive (Timed.begins sch) w))) as (EN & EM & EC).
  unfold s1, registries. rewrite EN, EM, EC. split.
  - split; [|split]; apply registry_inv_cleanup; congruence.
  - apply samples_of_cleanup.
Qed.

Lemma registries_defined schN schM schC P s :
  schN = schema (constructed NetworkStatsCollector.__init__) ->
  schM = schema (constructed MemoryStatsCollector.__init__) ->
  registries schN schM schC P s ->
  families_defined NetworkStatsCollector.__init__ (network s) = true /\
  families_defined MemoryStatsCollector.__init__ (memory s) = true.
Proof.
  intros -> -> ((HN & _) & (HM & _) & _). split.
  - apply (families_defined_schema _ (constructed NetworkStatsCollector.__init__));
      [exact HN|reflexivity].
  - apply (families_defined_schema _ (constructed MemoryStatsCollector.__init__));
      [exact HM|reflexivity].
Qed.

(** After the loop of a cycle, at any moment: the samples are those of the
    workers in flight that have returned. *)
Lemma arrive_after_loop sch d w threads s2 now :
  collector_constructed_like (Timed.collector w) ->
  same_registries (cycle_start (Timed.collector (Timed.arrive (Timed.begins sch) w))) s2 ->
  let w' := Timed.arrive now (Timed.mkWorld s2 (flying sch d w threads)) in
  Forall (fun m => Forall (labelled_for (identities (landed now (flying sch d w threads)))
                                        (labelnames m)) (samples m))
         (all_families (Timed.collector w')) /\
  Permutation.Permutation (samples_of USAGE_BYTES (memory (Timed.collector w')))
                          (map usage_sample (landed now (flying sch d w threads))).
Proof.
  intros Hlike (EN & EM & EC) w'.
  assert (forall P,
            registries (schema (constructed NetworkStatsCollector.__init__))
                       (schema (constructed MemoryStatsCollector.__init__))
                       (schema (constructed CPUStatsCollector.__init__)) P s2 /\
            samples_of USAGE_BYTES (memory s2) = []) as Hclean.
  { intros P. destruct (timed_start_clean sch w P Hlike) as (Hr & He).
    unfold registries in *. rewrite EN, EM, EC. split; assumption. }
  split.
  - apply (registries_all_families _ _ _ _ _
             (arrive_labels now (Timed.mkWorld s2 (flying sch d w threads)) _
                (fun x H => H) (proj1 (Hclean _)))).
  - destruct (Hclean (fun _ _ => True)) as (Hr & He).
    destruct (registries_defined _ _ _ _ _ eq_refl eq_refl Hr) as (HN & HM).
    pose proof (arrive_usage now (Timed.mkWorld s2 (flying sch d w threads)) HN HM) as Hu.
    cbn [Timed.collector Timed.in_flight] in Hu. rewrite He in Hu. exact Hu.
Qed.

(** A cycle with a coherent cache: where it leaves the world. *)
Lemma timed_collect_coherent sch d w cs :
  containers d = Val cs ->
  cache_coherent d (Timed.collector w) ->
  let threads := flat_map (thread_for d) (take_while (container_resolves d) cs) in
  exists s2,
    same_registries (cycle_start (Timed.collector (Timed.arrive (Timed.begins sch) w))) s2 /\
    if forallb (container_resolves d) cs
    then Timed.collect sch d w
         = Ok (all_families
                 (Timed.collector (Timed.arrive (read_out sch d threads)
                                     (Timed.mkWorld s2 (flying sch d w threads)))))
              (Timed.arrive (read_out sch d threads)
                 (Timed.mkWorld s2 (flying sch d w threads)))
    else exists e,
         Timed.collect sch d w = Raise e (Timed.mkWorld s2 (flying sch d w threads)).
Proof.
  intros Hcs Hc threads.
  rewrite timed_collect_shape, Hcs.
  set (w1 := Timed.mkWorld _ _).
  assert (cache_coherent d (Timed.collector w1)) as Hc1.
  { unfold w1. cbn [Timed.collector]. apply cycle_start_coherent.
    apply (coherent_same_cache d (Timed.collector w));
      [exact (proj1 (arrive_frame _ w))|exact Hc]. }
  destruct (timed_collect_containers sch d cs [] w1 Hc1) as (s2 & Hsame & H).
  exists s2. split; [exact Hsame|].
  cbn [app] in H. unfold flying. fold threads in H.
  destruct (forallb (container_resolves d) cs).
  - rewrite H. reflexivity.
  - destruct H as (e & ->). exists e. reflexivity.
Qed.

(** *** The claims about the workers *)

(** C9, the claim as stated fails: a fetch that exceeds the timeout of its
    [join] still contributes to the cycle when a later [join] keeps the
    cycle waiting.  The request of [slow] returns after 7 units of time and
    its [join(5)], called at 0, gives up at 5; the [join] of [slower] then
    waits until 9, and the families read at 9 hold the samples of [slow]. *)
Lemma slow_fetch_contributes_after_its_join_gave_up :
  Timed.join (Timed.worker_of returns_7_and_9 two_slow_containers
                (mkThread "slow" "11111111" "slow")) 0 = 5 /\
  Timed.returns returns_7_and_9 "slow" = 7 /\
  exists fams w',
    Timed.collect returns_7_and_9 two_slow_containers (at_rest DockerStatsCollector.__init__)
    = Ok fams w' /\
    In (mkSample ["slow"; "11111111"] (Int 500000000))
       (flat_map samples fams).
Proof.
  split; [reflexivity|]. split; [reflexivity|].
  eexists. eexists. split; [reflexivity|].
  cbn. tauto.
Qed.

(** C9, amended: in a cycle that starts with no worker of an earlier cycle
    running, on a collector with the constructed families and a coherent
    cache, when the daemon lists its containers and every identity
    resolves: [collect] returns the families as they are when the last
    [join] has returned; every sample in them carries the identity of a
    worker whose request had returned a document by then, and the memory
    usage family holds exactly one sample for each such worker; a worker
    whose request failed, or had not returned by then, is in neither, and
    the workers that have not returned are still running. *)
Theorem fetch_failure_or_delay_is_isolated (sch : Timed.Schedule) (d : Daemon)
    (s : DockerStatsCollector.t) (cs : list Container) :
  collector_constructed_like s ->
  cache_coherent d s ->
  containers d = Val cs ->
  forallb (container_resolves d) cs = true ->
  let threads := flat_map (thread_for d) cs in
  let now := read_out sch d threads in
  let done := completed sch d now threads in
  exists fams w',
    Timed.collect sch d (at_rest s) = Ok fams w' /\
    fams = all_families (Timed.collector w') /\
    Forall (fun m => Forall (labelled_for (identities done) (labelnames m)) (samples m)) fams /\
    Permutation.Permutation (samples_of USAGE_BYTES (memory (Timed.collector w')))
                            (map usage_sample done) /\
    Timed.in_flight w'
    = filter (fun wk => negb (Timed.returned now wk)) (map (Timed.worker_of sch d) threads).
Proof.
  intros Hlike Hc Hcs Hall threads now done.
  destruct (timed_collect_coherent sch d (at_rest s) cs Hcs Hc) as (s2 & Hsame & Hrun).
  rewrite Hall, (take_while_all _ _ Hall) in Hrun. fold threads in Hrun. fold now in Hrun.
  destruct (arrive_after_loop sch d (at_rest s) threads s2 now Hlike Hsame) as (Hlab & Hu).
  do 2 eexists. split; [exact Hrun|]. split; [reflexivity|].
  split; [exact Hlab|]. split; [exact Hu|]. reflexivity.
Qed.

Lemma fetch_failure_or_delay_is_isolated_witness :
  exists fams w',
    Timed.collect returns_1_2_100 three_fetches (at_rest DockerStatsCollector.__init__)
    = Ok fams w' /\
    Permutation.Permutation (samples_of USAGE_BYTES (memory (Timed.collector w')))
                            [mkSample ["quick"; "11111111"] (Int 500000000)] /\
    map Timed.worker_thread (Timed.in_flight w') = [mkThread "late" "11111111" "late"].
Proof.
  assert (collector_constructed_like DockerStatsCollector.__init__) as Hlike
    by (repeat split).
  assert (cache_coherent three_fetches DockerStatsCollector.__init__) as Hc
    by (intros cid v H; discriminate H).
  destruct (fetch_failure_or_delay_is_isolated returns_1_2_100 three_fetches
              DockerStatsCollector.__init__ _ Hlike Hc eq_refl eq_refl)
    as (fams & w' & Hrun & _ & _ & Hu & Hfly).
  exists fams, w'. split; [exact Hrun|]. split; [exact Hu|].
  rewrite Hfly. reflexivity.
Defined.

(** *** Further properties of the workers *)

(** X11: whose samples a cycle returns.  On a collector with the
    constructed families and a coherent cache, in a cycle that returns,
    every sample of every family carries the identity of a worker in flight
    whose request had returned a document when the families were read, and
    the memory usage family holds exactly one sample for each such worker.
    The workers in flight are those the cycle started and those of earlier
    cycles that had not returned when it began: a cycle that starts at rest
    returns no stale sample, and a worker of an earlier cycle that returns
    while this one runs leaves its samples in it. *)
Theorem cycle_samples_are_of_returned_workers (sch : Timed.Schedule) (d : Daemon)
    (w : Timed.World) (cs : list Container) :
  collector_constructed_like (Timed.collector w) ->
  cache_coherent d (Timed.collector w) ->
  containers d = Val cs ->
  forallb (container_resolves d) cs = true ->
  let back := landed (read_out sch d (flat_map (thread_for d) cs))
                     (flying sch d w (flat_map (thread_for d) cs)) in
  exists fams w',
    Timed.collect sch d w = Ok fams w' /\
    fams = all_families (Timed.collector w') /\
    Forall (fun m => Forall (labelled_for (identities back) (labelnames m)) (samples m)) fams /\
    Permutation.Permutation (samples_of USAGE_BYTES (memory (Timed.collector w')))
                            (map usage_sample back) /\
    (Timed.in_flight w = [] ->
     back = completed sch d (read_out sch d (flat_map (thread_for d) cs))
                      (flat_map (thread_for d) cs)).
Proof.
  intros Hlike Hc Hcs Hall back.
  destruct (timed_collect_coherent sch d w cs Hcs Hc) as (s2 & Hsame & Hrun).
  rewrite Hall, (take_while_all _ _ Hall) in Hrun.
  destruct (arrive_after_loop sch d w (flat_map (thread_for d) cs) s2
              (read_out sch d (flat_map (thread_for d) cs)) Hlike Hsame) as (Hlab & Hu).
  do 2 eexists. split; [exact Hrun|]. split; [reflexivity|].
  split; [exact Hlab|]. split; [exact Hu|].
  intros Hrest. unfold back, flying, Timed.arrive. rewrite Hrest. reflexivity.
Qed.

Lemma cycle_samples_are_of_returned_workers_witness :
  exists fams w',
    Timed.collect returns_at_20
      (daemon_with_container "c2" ["MESOS_TASK_ID=myapp.abcdefgh1234"])
      (Timed.mkWorld DockerStatsCollector.__init__ [earlier_worker])
    = Ok fams w' /\
    Permutation.Permutation (samples_of USAGE_BYTES (memory (Timed.collector w')))
                            [mkSample ["other"; "12345678"] (Int 500000000)] /\
    map Timed.worker_thread (Timed.in_flight w') = [mkThread "myapp" "abcdefgh" "c2"].
Proof.
  assert (collector_constructed_like DockerStatsCollector.__init__) as Hlike
    by (repeat split).
  assert (cache_coherent (daemon_with_container "c2" ["MESOS_TASK_ID=myapp.abcdefgh1234"])
            DockerStatsCollector.__init__) as Hc
    by (intros cid v H; discriminate H).
  destruct (cycle_samples_are_of_returned_workers
              returns_at_20
              (daemon_with_container "c2" ["MESOS_TASK_ID=myapp.abcdefgh1234"])
              (Timed.mkWorld DockerStatsCollector.__init__ [earlier_worker])
              _ Hlike Hc eq_refl eq_refl)
    as (fams & w' & Hrun & _ & _ & Hu & _).
  exists fams, w'. split; [exact Hrun|]. split; [exact Hu|].
  injection Hrun as _ <-. reflexivity.
Defined.

Lemma labelled_for_nobody names l : Forall (labelled_for [] names) l -> l = [].
Proof.
  destruct l as [|x l]; [reflexivity|]. intros H. inversion H as [|? ? Hx _].
  destruct Hx as (front & appid & taskid & [] & _).
Qed.

(** X18: failures of the workers are not failures of the cycle.  On a
    collector with the constructed families and a coherent cache, when the
    daemon lists its containers and every identity resolves, and no worker in
    flight has been given a document when the families are read (each request
    has failed or not returned yet), [collect] returns, and returns every
    family without samples. *)
Theorem cycle_without_documents_is_empty (sch : Timed.Schedule) (d : Daemon)
    (w : Timed.World) (cs : list Container) :
  collector_constructed_like (Timed.collector w) ->
  cache_coherent d (Timed.collector w) ->
  containers d = Val cs ->
  forallb (container_resolves d) cs = true ->
  landed (read_out sch d (flat_map (thread_for d) cs))
         (flying sch d w (flat_map (thread_for d) cs)) = [] ->
  exists fams w',
    Timed.collect sch d w = Ok fams w' /\
    fams = all_families (Timed.collector w') /\
    forallb no_samples fams = true.
Proof.
  intros Hlike Hc Hcs Hall Hnone.
  destruct (timed_collect_coherent sch d w cs Hcs Hc) as (s2 & Hsame & Hrun).
  rewrite Hall, (take_while_all _ _ Hall) in Hrun.
  destruct (arrive_after_loop sch d w (flat_map (thread_for d) cs) s2
              (read_out sch d (flat_map (thread_for d) cs)) Hlike Hsame) as (Hlab & _).
  rewrite Hnone in Hlab.
  do 2 eexists. split; [exact Hrun|]. split; [reflexivity|].
  apply forallb_forall. intros m Hin.
  pose proof (proj1 (Forall_forall _ _) Hlab m Hin) as Hm. cbn beta in Hm.
  unfold no_samples. rewrite (labelled_for_nobody _ _ Hm). reflexivity.
Qed.

Lemma cycle_without_documents_is_empty_witness :
  exists fams w',
    Timed.collect returns_at_20
      (daemon_without_stats "c1" ["MESOS_TASK_ID=myapp.abcdefgh1234"])
      (at_rest DockerStatsCollector.__init__) = Ok fams w' /\
    forallb no_samples fams = true.
Proof.
  assert (collector_constructed_like DockerStatsCollector.__init__) as Hlike
    by (repeat split).
  assert (cache_coherent (daemon_without_stats "c1" ["MESOS_TASK_ID=myapp.abcdefgh1234"])
            DockerStatsCollector.__init__) as Hc
    by (intros cid v H; discriminate H).
  destruct (cycle_without_documents_is_empty returns_at_20
              (daemon_without_stats "c1" ["MESOS_TASK_ID=myapp.abcdefgh1234"])
              (at_rest DockerStatsCollector.__init__) _ Hlike Hc eq_refl eq_refl eq_refl)
    as (fams & w' & Hrun & _ & Hempty).
  exists fams, w'. split; [exact Hrun|exact Hempty].
Defined.



End TimedCycle.
